(** * Nexus AI pipeline engine: a shallow embedding of the Python backend

    The development follows the layout of [backend/app]:
    - [PyStr], [Py]               the [str], [dict] and [int] operations used
    - [StageValidator]            core/validation/stage_validator.py
    - [Artifacts], [Stage], [GeneratedCode], [VersionHistory], [Db] and the
      repositories                db/models, db/repositories
    - [VersionHistoryService]     services/version_history_service.py
    - [GlobalLabelsService]       services/global_labels_service.py
    - [InputValidator]            core/input_processing/input_validator.py
    - [DependencyMapper], [PlannerOrchestrator]   core/planner
    - [Re]                        the fragment of the [re] module the parser uses
    - [StructuredTextGenerator]   core/code_generation/structured_text_generator.py
    - [CodeGenerationRoute]       api/routes/code_generation.py
    - [Samples]                   the data of the examples
    followed by the properties of each component.

    Text is modelled as Rocq [string]s, i.e. sequences of 8-bit characters.
    Whitespace, word characters and case folding are the ASCII ones, which
    is what Python's [str] methods and [re] do on ASCII text ([is_ascii]);
    statements that depend on them are made for such text.  The database is
    the committed content of its tables; the language model, the manual
    retrieval, the debug file, the generator behind the route and [difflib]
    are parameters of the functions that call them. *)

From Stdlib Require Import String Ascii List ZArith Lia Bool Arith Permutation.
From Stdlib Require Import DecimalString DecimalZ DecimalN.
Import ListNotations.
Open Scope string_scope.

(* ===================================================================== *)
(** * Python [str] methods *)
(* ===================================================================== *)

Module PyStr.

(** [c.isspace()] on the ASCII range: TAB..CR, FS..US and the blank. *)
Definition is_space (c : ascii) : bool :=
  let n := nat_of_ascii c in
  (Nat.leb 9 n && Nat.leb n 13) || (Nat.leb 28 n && Nat.leb n 32).

Definition is_digit (c : ascii) : bool :=
  let n := nat_of_ascii c in Nat.leb 48 n && Nat.leb n 57.

(** [c.lower()] for one ASCII character. *)
Definition lower_char (c : ascii) : ascii :=
  let n := nat_of_ascii c in
  if Nat.leb 65 n && Nat.leb n 90 then ascii_of_nat (n + 32) else c.

(** [s.lower()] *)
Fixpoint lower (s : string) : string :=
  match s with
  | EmptyString => EmptyString
  | String c s' => String (lower_char c) (lower s')
  end.

(** Truthiness of a string: [bool(s)]. *)
Definition truthy (s : string) : bool :=
  match s with EmptyString => false | _ => true end.

(** [s.lstrip()] *)
Fixpoint lstrip (s : string) : string :=
  match s with
  | EmptyString => EmptyString
  | String c s' => if is_space c then lstrip s' else s
  end.

(** [s.rstrip()] *)
Fixpoint rstrip (s : string) : string :=
  match s with
  | EmptyString => EmptyString
  | String c s' =>
      let r := rstrip s' in
      if is_space c && negb (truthy r) then EmptyString else String c r
  end.

(** [s.strip()] *)
Definition strip (s : string) : string := rstrip (lstrip s).

(** [s.startswith(p)] *)
Definition startswith (p s : string) : bool := String.prefix p s.

(** [sub in s] *)
Fixpoint contains (sub s : string) : bool :=
  String.prefix sub s ||
  match s with
  | EmptyString => false
  | String _ s' => contains sub s'
  end.

(** [s.split(sep)] for a one-character separator: never the empty list. *)
Fixpoint split_on (sep : ascii) (s : string) : list string :=
  match s with
  | EmptyString => [EmptyString]
  | String c s' =>
      if Ascii.eqb c sep then EmptyString :: split_on sep s'
      else match split_on sep s' with
           | h :: t => String c h :: t
           | [] => [String c EmptyString]
           end
  end.

(** [s.split()]: the maximal runs of non-blank characters.  The auxiliary
    function returns the word that is still open at the head of [s] and the
    words after it. *)
Fixpoint split_ws_aux (s : string) : string * list string :=
  match s with
  | EmptyString => (EmptyString, [])
  | String c s' =>
      let '(w, ws) := split_ws_aux s' in
      if is_space c then (EmptyString, if truthy w then w :: ws else ws)
      else (String c w, ws)
  end.

Definition split_ws (s : string) : list string :=
  let '(w, ws) := split_ws_aux s in
  if truthy w then w :: ws else ws.

(** [s[1:]] *)
Definition tail (s : string) : string :=
  match s with EmptyString => EmptyString | String _ s' => s' end.

(** [s.replace(old, new)] for a non-empty [old]: every occurrence, left to
    right, without overlap.  [skip] counts the characters of an occurrence
    that are still to be dropped. *)
Fixpoint replace_aux (old new s : string) (skip : nat) : string :=
  match s with
  | EmptyString => EmptyString
  | String c s' =>
      match skip with
      | S k => replace_aux old new s' k
      | O =>
          if String.prefix old s
          then new ++ replace_aux old new s' (String.length old - 1)
          else String c (replace_aux old new s' 0)
      end
  end.

Definition replace (old new s : string) : string := replace_aux old new s 0.

(** [sep.join(l)] *)
Definition join (sep : string) (l : list string) : string := String.concat sep l.

Definition newline : ascii := ascii_of_nat 10.
Definition nl : string := String newline EmptyString.

(** [x in l] for a list of strings. *)
Definition mem (x : string) (l : list string) : bool :=
  existsb (String.eqb x) l.

(** Every character of [s] satisfies [p]. *)
Fixpoint all_chars (p : ascii -> bool) (s : string) : bool :=
  match s with
  | EmptyString => true
  | String c s' => p c && all_chars p s'
  end.

(** No character of [s] is [sep]. *)
Fixpoint free_of (sep : ascii) (s : string) : bool :=
  match s with
  | EmptyString => true
  | String c s' => negb (Ascii.eqb c sep) && free_of sep s'
  end.

(** A character that is not a blank. *)
Definition not_space (c : ascii) : bool := negb (is_space c).

(** [s.isascii()]: every character is below 128. *)
Definition is_ascii (s : string) : bool :=
  all_chars (fun c => Nat.ltb (nat_of_ascii c) 128) s.

End PyStr.

(* ===================================================================== *)
(** * core/validation/stage_validator.py *)
(* ===================================================================== *)

Module StageValidator.
Import PyStr.

(** One entry of [result['categorized_issues']]. *)
Record CategorizedIssue := mkIssue {
  severity : string;
  title : string;
  description : string;
  recommended_logic : string
}.

(** The dictionary returned by [_parse_validation_result]. *)
Record ValidationResult := mkResult {
  valid : bool;
  status : string;
  semantic_analysis : string;
  logical_consistency : string;
  safety_compliance : string;
  issues : list string;
  recommendations : list string;
  categorized_issues : list CategorizedIssue
}.

(** The values taken by [current_section]. *)
Inductive Section_ := SecStatus | SecCategorized | SecIssues | SecRecommendations | SecAnalysis.

(** The variables the [for] loop of [_parse_validation_result] updates. *)
Record ParseState := mkState {
  result : ValidationResult;
  current_section : option Section_;
  current_issue : option CategorizedIssue
}.

Definition set_section (st : ParseState) (s : Section_) : ParseState :=
  mkState (result st) (Some s) (current_issue st).

Definition add_issue (r : ValidationResult) (i : string) : ValidationResult :=
  mkResult (valid r) (status r) (semantic_analysis r) (logical_consistency r)
           (safety_compliance r) (issues r ++ [i]) (recommendations r)
           (categorized_issues r).

Definition add_recommendation (r : ValidationResult) (i : string) : ValidationResult :=
  mkResult (valid r) (status r) (semantic_analysis r) (logical_consistency r)
           (safety_compliance r) (issues r) (recommendations r ++ [i])
           (categorized_issues r).

Definition add_categorized (r : ValidationResult) (i : CategorizedIssue) : ValidationResult :=
  mkResult (valid r) (status r) (semantic_analysis r) (logical_consistency r)
           (safety_compliance r) (issues r) (recommendations r)
           (categorized_issues r ++ [i]).

Definition set_semantic (r : ValidationResult) (s : string) : ValidationResult :=
  mkResult (valid r) (status r) s (logical_consistency r)
           (safety_compliance r) (issues r) (recommendations r)
           (categorized_issues r).

Definition set_logical (r : ValidationResult) (s : string) : ValidationResult :=
  mkResult (valid r) (status r) (semantic_analysis r) s
           (safety_compliance r) (issues r) (recommendations r)
           (categorized_issues r).

Definition set_safety (r : ValidationResult) (s : string) : ValidationResult :=
  mkResult (valid r) (status r) (semantic_analysis r) (logical_consistency r)
           s (issues r) (recommendations r) (categorized_issues r).

Definition set_pass (r : ValidationResult) : ValidationResult :=
  mkResult true "PASS" (semantic_analysis r) (logical_consistency r)
           (safety_compliance r) (issues r) (recommendations r)
           (categorized_issues r).

(** Flush [current_issue] into the list when there is one. *)
Definition flush_issue (r : ValidationResult) (cur : option CategorizedIssue) : ValidationResult :=
  match cur with
  | Some i => add_categorized r i
  | None => r
  end.

(** A severity tag opens a new issue: the previous one is appended first. *)
Definition open_issue (st : ParseState) (sev tag line_stripped : string) : ParseState :=
  mkState (flush_issue (result st) (current_issue st))
          (current_section st)
          (Some (mkIssue sev (strip (replace tag "" line_stripped)) "" "")).

(** The lines of an open issue: [Description:], [Recommended Logic:] and the
    text that follows a description. *)
Definition continue_issue (i : CategorizedIssue) (line_stripped : string) : CategorizedIssue :=
  if startswith "Description:" line_stripped then
    mkIssue (severity i) (title i)
            (strip (replace "Description:" "" line_stripped)) (recommended_logic i)
  else if startswith "Recommended Logic:" line_stripped then
    mkIssue (severity i) (title i) (description i) ""
  else if truthy (description i) && negb (startswith "Recommended Logic:" line_stripped) then
    mkIssue (severity i) (title i) (description i)
            (recommended_logic i ++ line_stripped ++ " ")
  else i.

(** The body of the [for] loop, for one line. *)
Definition step (st : ParseState) (line : string) : ParseState :=
  let line_stripped := strip line in
  if contains "VALIDATION STATUS" line then set_section st SecStatus
  else if String.eqb line "==============================" then st
  else if contains "CATEGORIZED ISSUES" line then set_section st SecCategorized
  else if startswith "ISSUES" line_stripped && negb (contains "CATEGORIZED" line)
       then set_section st SecIssues
  else if contains "RECOMMENDATIONS" line then set_section st SecRecommendations
  else if contains "ANALYSIS SUMMARY" line then set_section st SecAnalysis
  else
    match current_section st with
    | Some SecIssues =>
        if startswith "-" line_stripped then
          let issue := strip (tail line_stripped) in
          if truthy issue
          then mkState (add_issue (result st) issue) (current_section st) (current_issue st)
          else st
        else st
    | Some SecRecommendations =>
        if startswith "-" line_stripped then
          let rec := strip (tail line_stripped) in
          if truthy rec
          then mkState (add_recommendation (result st) rec) (current_section st) (current_issue st)
          else st
        else st
    | Some SecCategorized =>
        if truthy line_stripped then
          if startswith "[CRITICAL]" line_stripped
          then open_issue st "critical" "[CRITICAL]" line_stripped
          else if startswith "[MODERATE]" line_stripped
          then open_issue st "moderate" "[MODERATE]" line_stripped
          else if startswith "[OPTIONAL]" line_stripped
          then open_issue st "optional" "[OPTIONAL]" line_stripped
          else match current_issue st with
               | Some i => mkState (result st) (current_section st)
                                   (Some (continue_issue i line_stripped))
               | None => st
               end
        else st
    | Some SecAnalysis =>
        if truthy line_stripped then
          if startswith "Semantic Analysis:" line_stripped then
            mkState (set_semantic (result st)
                       (strip (replace "Semantic Analysis:" "" line_stripped)))
                    (current_section st) (current_issue st)
          else if startswith "Logical Consistency:" line_stripped then
            mkState (set_logical (result st)
                       (strip (replace "Logical Consistency:" "" line_stripped)))
                    (current_section st) (current_issue st)
          else if startswith "Safety Compliance:" line_stripped then
            mkState (set_safety (result st)
                       (strip (replace "Safety Compliance:" "" line_stripped)))
                    (current_section st) (current_issue st)
          else st
        else st
    | _ => st
    end.

(** [result] as it is initialised, after the [Status: PASS] test. *)
Definition initial_result (validation_text : string) : ValidationResult :=
  let r := mkResult false "FAIL" "" "" "" [] [] [] in
  if contains "Status: PASS" validation_text then set_pass r else r.

(** [sum(1 for issue in ... if issue['severity'] == 'critical')] *)
Definition critical_count (l : list CategorizedIssue) : nat :=
  List.length (filter (fun i => String.eqb (severity i) "critical") l).

(** [_parse_validation_result] *)
Definition _parse_validation_result (validation_text : string) : ValidationResult :=
  let lines := split_on newline validation_text in
  let st := fold_left step lines (mkState (initial_result validation_text) None None) in
  let r := flush_issue (result st) (current_issue st) in
  if Nat.eqb (critical_count (categorized_issues r)) 0 then set_pass r else r.

(** A reply in the format the system prompt asks for: the model writes
    [Status: PASS] and still lists a critical issue. *)
Definition pass_with_critical : string :=
  join nl
    [ "==============================";
      "VALIDATION STATUS";
      "==============================";
      "Status: PASS";
      "";
      "==============================";
      "CATEGORIZED ISSUES";
      "==============================";
      "[CRITICAL] Missing emergency stop";
      "Description: The stage never checks the emergency stop input.";
      "Recommended Logic:";
      "If the emergency stop is pressed, stop the conveyor at once." ].

(** The same reply with [Status: FAIL]. *)
Definition fail_with_critical : string :=
  join nl
    [ "Status: FAIL";
      "CATEGORIZED ISSUES";
      "[CRITICAL] Missing emergency stop" ].

End StageValidator.

(* ===================================================================== *)
(** * Python values, dictionaries and integer conversions *)
(* ===================================================================== *)

Module Py.
Import PyStr.

(** The values that travel in the dictionaries of the backend. *)
Inductive pyval :=
| PNone
| PBool (b : bool)
| PInt (z : Z)
| PStr (s : string).

(** [str(n)] for an integer. *)
Definition str_of_Z (z : Z) : string :=
  DecimalString.NilEmpty.string_of_int (Z.to_int z).

(** [str(v)], as an f-string renders a value. *)
Definition py_str (v : pyval) : string :=
  match v with
  | PNone => "None"
  | PBool true => "True"
  | PBool false => "False"
  | PInt z => str_of_Z z
  | PStr s => s
  end.

(** [bool(v)] *)
Definition py_truthy (v : pyval) : bool :=
  match v with
  | PNone => false
  | PBool b => b
  | PInt z => negb (Z.eqb z 0)
  | PStr s => truthy s
  end.

(** A [dict] with string keys, in insertion order, keys unique. *)
Definition dict := list (string * pyval).

Fixpoint dict_lookup (d : dict) (k : string) : option pyval :=
  match d with
  | [] => None
  | (k', v) :: d' => if String.eqb k k' then Some v else dict_lookup d' k
  end.

(** [d.get(k)]: [None] when the key is absent. *)
Definition dict_get (d : dict) (k : string) : pyval :=
  match dict_lookup d k with Some v => v | None => PNone end.

(** [d.get(k, default)] *)
Definition dict_get_default (d : dict) (k : string) (default : pyval) : pyval :=
  match dict_lookup d k with Some v => v | None => default end.

(** [d[k] = v] *)
Fixpoint dict_set (d : dict) (k : string) (v : pyval) : dict :=
  match d with
  | [] => [(k, v)]
  | (k', v') :: d' =>
      if String.eqb k k' then (k', v) :: d' else (k', v') :: dict_set d' k v
  end.

(** [{**d, **e}] *)
Definition dict_merge (d e : dict) : dict :=
  fold_left (fun acc kv => dict_set acc (fst kv) (snd kv)) e d.

(** The digits of an integer literal, with the single underscores Python
    allows between two digits removed; [None] when the text is not of that
    shape.  [prev_digit] tells whether the previous character was a digit. *)
Fixpoint drop_underscores (prev_digit : bool) (s : string) : option string :=
  match s with
  | EmptyString => if prev_digit then Some EmptyString else None
  | String c s' =>
      if Ascii.eqb c "_"
      then (if prev_digit then drop_underscores false s' else None)
      else if is_digit c
           then option_map (String c) (drop_underscores true s')
           else None
  end.

Definition int_of_digits (s : string) : option Z :=
  match drop_underscores false s with
  | Some d => option_map Z.of_uint (DecimalString.NilEmpty.uint_of_string d)
  | None => None
  end.

(** [int(s)] on a string: surrounding blanks, an optional sign, decimal
    digits.  [None] stands for [ValueError].  (CPython's limit on the number
    of digits is left out.) *)
Definition py_int (s : string) : option Z :=
  match strip s with
  | EmptyString => None
  | String c r as t =>
      if Ascii.eqb c "-" then option_map Z.opp (int_of_digits r)
      else if Ascii.eqb c "+" then int_of_digits r
      else int_of_digits t
  end.

End Py.

(* ===================================================================== *)
(** * The artifacts the code parser emits *)
(* ===================================================================== *)

Module Artifacts.

(** One row of a label table, as [_parse_label_table] builds it. *)
Record Label := mkLabel {
  name : string;
  data_type : string;
  class : string;
  device : string;
  initial_value : string;
  constant : bool;
  comment : string
}.

Record ProgramBlock := mkProgramBlock {
  pb_stage : string;
  pb_name : string;
  pb_execution_type : string;
  pb_local_labels : list Label;
  pb_code : string
}.

Record Function_ := mkFunction {
  fn_stage : string;
  fn_name : string;
  fn_with_en : bool;
  fn_result_type : string;
  fn_local_labels : list Label;
  fn_code : string
}.

Record FunctionBlock := mkFunctionBlock {
  fb_stage : string;
  fb_name : string;
  fb_fb_type : string;
  fb_with_en : bool;
  fb_local_labels : list Label;
  fb_code : string
}.

End Artifacts.

(* ===================================================================== *)
(** * db/models and db/repositories *)
(* ===================================================================== *)

Module Project.
Record t := mk {
  id : Z;
  name : string;
  owner_id : Z
}.
End Project.

Module Stage.
Record t := mk {
  id : Z;
  project_id : Z;
  stage_number : Z;
  stage_name : string;
  stage_type : string;
  description : option string;
  original_logic : string;
  edited_logic : option string;
  is_validated : bool;
  is_finalized : bool;
  version_number : option string;
  last_action : option string;
  last_action_timestamp : option Z
}.
End Stage.

Module GeneratedCode.
Record t := mk {
  id : Z;
  project_id : Z;
  stage_id : option Z;
  global_labels : list Artifacts.Label;
  local_labels : list Artifacts.Label;
  program_body : string;
  program_blocks : list Artifacts.ProgramBlock;
  functions : list Artifacts.Function_;
  function_blocks : list Artifacts.FunctionBlock;
  program_name : string;
  execution_type : string;
  code_metadata : Py.dict;
  created_at : Z
}.
End GeneratedCode.

Inductive VersionLevel := EVENT | SESSION | CHECKPOINT.

Module VersionHistory.
Record t := mk {
  id : Z;
  code_id : Z;
  stage_id : Z;
  user_id : Z;
  level : VersionLevel;
  version_number : string;
  old_code : option string;
  new_code : option string;
  diff : string;
  timestamp : Z;
  version_metadata : Py.dict
}.
End VersionHistory.

Module Db.

(** The committed content of the tables the engine writes, the counters of
    the auto-increment keys, and the clock read by [datetime.utcnow]. *)
Record t := mk {
  projects : list Project.t;
  stages : list Stage.t;
  generated_codes : list GeneratedCode.t;
  version_history : list VersionHistory.t;
  next_code_id : Z;
  next_version_id : Z;
  clock : Z
}.

Definition with_stages (d : t) (l : list Stage.t) : t :=
  mk (projects d) l (generated_codes d) (version_history d)
     (next_code_id d) (next_version_id d) (clock d).

Definition with_codes (d : t) (l : list GeneratedCode.t) : t :=
  mk (projects d) (stages d) l (version_history d)
     (next_code_id d) (next_version_id d) (clock d).

(** [datetime.utcnow()]: the reading, and the database with the clock moved on. *)
Definition utcnow (d : t) : Z * t :=
  (clock d,
   mk (projects d) (stages d) (generated_codes d) (version_history d)
      (next_code_id d) (next_version_id d) (clock d + 1)%Z).

End Db.

Module ProjectRepository.
(** [get_by_id] *)
Definition get_by_id (d : Db.t) (project_id : Z) : option Project.t :=
  find (fun p => Z.eqb (Project.id p) project_id) (Db.projects d).
End ProjectRepository.

Module StageRepository.

(** [get_by_id]: [query(Stage).filter(Stage.id == stage_id).first()] *)
Definition get_by_id (d : Db.t) (stage_id : Z) : option Stage.t :=
  find (fun s => Z.eqb (Stage.id s) stage_id) (Db.stages d).

(** Insertion of [s] into a list sorted by [stage_number], before the rows
    with the same number. *)
Fixpoint insert_by_number (s : Stage.t) (l : list Stage.t) : list Stage.t :=
  match l with
  | [] => [s]
  | x :: l' =>
      if Z.leb (Stage.stage_number s) (Stage.stage_number x)
      then s :: l
      else x :: insert_by_number s l'
  end.

(** [get_by_project]: the stages of a project, [order_by(Stage.stage_number)]. *)
Definition get_by_project (d : Db.t) (project_id : Z) : list Stage.t :=
  fold_right insert_by_number []
    (filter (fun s => Z.eqb (Stage.project_id s) project_id) (Db.stages d)).

(** The first row with the given key, rewritten by [f]: what a commit does
    to the object [get_by_id] returned. *)
Fixpoint update_first (stage_id : Z) (f : Stage.t -> Stage.t) (l : list Stage.t) : list Stage.t :=
  match l with
  | [] => []
  | s :: l' =>
      if Z.eqb (Stage.id s) stage_id then f s :: l'
      else s :: update_first stage_id f l'
  end.

(** The row [s] with its [edited_logic] column set. *)
Definition with_edited_logic (s : Stage.t) (edited_logic : option string) : Stage.t :=
  Stage.mk (Stage.id s) (Stage.project_id s) (Stage.stage_number s)
           (Stage.stage_name s) (Stage.stage_type s) (Stage.description s)
           (Stage.original_logic s) edited_logic
           (Stage.is_validated s) (Stage.is_finalized s)
           (Stage.version_number s) (Stage.last_action s) (Stage.last_action_timestamp s).

(** [update_logic]: the edited logic of the stage is written, committed. *)
Definition update_logic (d : Db.t) (stage_id : Z) (edited_logic : string) : Db.t :=
  Db.with_stages d
    (update_first stage_id (fun s => with_edited_logic s (Some edited_logic)) (Db.stages d)).

(** The row [s] with its flags set. *)
Definition with_flags (s : Stage.t) (is_validated is_finalized : bool) : Stage.t :=
  Stage.mk (Stage.id s) (Stage.project_id s) (Stage.stage_number s)
           (Stage.stage_name s) (Stage.stage_type s) (Stage.description s)
           (Stage.original_logic s) (Stage.edited_logic s)
           is_validated is_finalized
           (Stage.version_number s) (Stage.last_action s) (Stage.last_action_timestamp s).

(** [mark_validated] *)
Definition mark_validated (d : Db.t) (stage_id : Z) : Db.t :=
  Db.with_stages d
    (update_first stage_id (fun s => with_flags s true (Stage.is_finalized s)) (Db.stages d)).

(** [mark_finalized] *)
Definition mark_finalized (d : Db.t) (stage_id : Z) : Db.t :=
  Db.with_stages d
    (update_first stage_id (fun s => with_flags s (Stage.is_validated s) true) (Db.stages d)).

(** [delete_project_stages] *)
Definition delete_project_stages (d : Db.t) (project_id : Z) : Db.t :=
  Db.with_stages d
    (filter (fun s => negb (Z.eqb (Stage.project_id s) project_id)) (Db.stages d)).

End StageRepository.

Module CodeRepository.

(** [create]: a new row, committed.  The key of the row is the database's
    choice; it is drawn from a counter here, and no statement below depends
    on its value. *)
Definition create (d : Db.t) (project_id : Z) (stage_id : option Z)
    (global_labels local_labels : list Artifacts.Label)
    (program_body program_name execution_type : string)
    (metadata : Py.dict)
    (program_blocks : list Artifacts.ProgramBlock)
    (functions : list Artifacts.Function_)
    (function_blocks : list Artifacts.FunctionBlock) : Db.t * GeneratedCode.t :=
  let '(now, d1) := Db.utcnow d in
  let code := GeneratedCode.mk (Db.next_code_id d1) project_id stage_id
                global_labels local_labels program_body
                program_blocks functions function_blocks
                program_name execution_type metadata now in
  (Db.mk (Db.projects d1) (Db.stages d1) (Db.generated_codes d1 ++ [code])
         (Db.version_history d1) (Db.next_code_id d1 + 1)%Z
         (Db.next_version_id d1) (Db.clock d1),
   code).

Definition of_stage (stage_id : Z) (c : GeneratedCode.t) : bool :=
  match GeneratedCode.stage_id c with
  | Some i => Z.eqb i stage_id
  | None => false
  end.

(** [get_by_stage]: the most recently created row of the stage. *)
Definition get_by_stage (d : Db.t) (stage_id : Z) : option GeneratedCode.t :=
  find (of_stage stage_id) (rev (Db.generated_codes d)).

(** [delete_by_stage]: every row of the stage is removed, committed. *)
Definition delete_by_stage (d : Db.t) (stage_id : Z) : Db.t :=
  Db.with_codes d (filter (fun c => negb (of_stage stage_id c)) (Db.generated_codes d)).

End CodeRepository.

(* ===================================================================== *)
(** * services/version_history_service.py *)
(* ===================================================================== *)

Module VersionHistoryService.
Import PyStr Py.

(** [f"{major}.{minor}.{patch}"] *)
Definition format_version (major minor patch : Z) : string :=
  str_of_Z major ++ "." ++ str_of_Z minor ++ "." ++ str_of_Z patch.

(** [increment_version] on a string.  Every exception of the [try] block
    (a missing part, a part that is not an integer) yields ["1.0.0"]. *)
Definition increment_version (current_version action_type : string) : string :=
  match split_on "." current_version with
  | p0 :: p1 :: p2 :: _ =>
      match py_int p0, py_int p1, py_int p2 with
      | Some major, Some minor, Some patch =>
          if mem action_type ["validate"; "generate_code"]
          then format_version major (minor + 1) 0
          else if mem action_type ["edit_logic"; "safety_check"]
          then format_version major minor (patch + 1)
          else format_version major minor patch
      | _, _, _ => "1.0.0"
      end
  | _ => "1.0.0"
  end.

(** A bound on the parts of a version, far below the 4300 digits at which
    Python refuses to convert between [int] and [str]: 4000 digits. *)
Definition max_version_part : Z := 10 ^ 4000.

(** [increment_version] on the column value: a NULL version has no [split]
    and takes the [except] branch. *)
Definition increment_version_col (current_version : option string) (action_type : string) : string :=
  match current_version with
  | Some v => increment_version v action_type
  | None => "1.0.0"
  end.

(** The text stored under a key of [old_data] / [new_data]; the callers put
    a string or [None] there. *)
Definition as_text (v : pyval) : option string :=
  match v with PStr s => Some s | _ => None end.

Definition text_or_empty (t : option string) : string :=
  match t with Some s => s | None => "" end.

(** [data.get(key, '') if data else ''] *)
Definition data_text (data : option dict) (key : string) : option string :=
  match data with
  | Some ((_ :: _) as d) => as_text (dict_get_default d key (PStr ""))
  | _ => Some ""
  end.

Section WithDifflib.

(** [''.join(difflib.unified_diff(old.splitlines(keepends=True),
    new.splitlines(keepends=True), lineterm='', n=3))], a function of the
    two texts supplied by the standard library. *)
Variable unified_diff : string -> string -> string.

(** [_generate_diff] *)
Definition _generate_diff (old_text new_text : option string) : string :=
  if negb (truthy (text_or_empty old_text)) && negb (truthy (text_or_empty new_text))
  then ""
  else unified_diff (text_or_empty old_text) (text_or_empty new_text).

Definition opt_pystr (o : option string) : pyval :=
  match o with Some s => PStr s | None => PNone end.

(** [create_version_entry]: the stage's version is bumped, the stage is
    stamped with the action, and one entry is appended to the history. *)
Definition create_version_entry (d : Db.t)
    (code_id stage_id user_id : Z) (action_type : string)
    (old_data new_data metadata : option dict) : Db.t * VersionHistory.t :=
  let stage := StageRepository.get_by_id d stage_id in
  let old_version :=
    match stage with Some s => Stage.version_number s | None => Some "1.0.0" end in
  let new_version := increment_version_col old_version action_type in
  let validation_count :=
    List.length (filter (fun v => Z.eqb (VersionHistory.stage_id v) stage_id)
                        (Db.version_history d)) in
  let d1 :=
    match stage with
    | Some _ =>
        let '(now, d') := Db.utcnow d in
        Db.with_stages d'
          (StageRepository.update_first stage_id
             (fun s => Stage.mk (Stage.id s) (Stage.project_id s) (Stage.stage_number s)
                         (Stage.stage_name s) (Stage.stage_type s) (Stage.description s)
                         (Stage.original_logic s) (Stage.edited_logic s)
                         (Stage.is_validated s) (Stage.is_finalized s)
                         (Some new_version) (Some action_type) (Some now))
             (Db.stages d'))
    | None => d
    end in
  let old_text :=
    if String.eqb action_type "edit_logic" then data_text old_data "edited_logic"
    else if String.eqb action_type "generate_code" then data_text old_data "program_body"
    else Some "" in
  let new_text :=
    if String.eqb action_type "edit_logic" then data_text new_data "edited_logic"
    else if String.eqb action_type "generate_code" then data_text new_data "program_body"
    else Some "" in
  let diff_text := _generate_diff old_text new_text in
  let '(now, d2) := Db.utcnow d1 in
  let version_entry :=
    VersionHistory.mk (Db.next_version_id d2) code_id stage_id user_id EVENT
      new_version old_text new_text diff_text now
      (dict_merge
         [ ("action", PStr action_type);
           ("previous_version", opt_pystr old_version);
           ("new_version", PStr new_version);
           ("validation_count", PInt (Z.of_nat validation_count)) ]
         (match metadata with Some m => m | None => [] end)) in
  (Db.mk (Db.projects d2) (Db.stages d2) (Db.generated_codes d2)
         (Db.version_history d2 ++ [version_entry])
         (Db.next_code_id d2) (Db.next_version_id d2 + 1)%Z (Db.clock d2),
   version_entry).

(** The metadata of a call has no key ["action"] of its own. *)
Definition plain_metadata (m : option dict) : Prop :=
  match m with Some m => dict_lookup m "action" = None | None => True end.

(** One call of [create_version_entry], as a route makes it. *)
Record Call := mkCall {
  call_action : string;
  call_old_data : option dict;
  call_new_data : option dict;
  call_metadata : option dict
}.

(** The calls of a list, one after the other, for one stage and its code. *)
Definition record_all (d : Db.t) (code_id stage_id user_id : Z) (calls : list Call) : Db.t :=
  fold_left
    (fun d c =>
       fst (create_version_entry d code_id stage_id user_id (call_action c)
              (call_old_data c) (call_new_data c) (call_metadata c)))
    calls d.

(** The entries of a stage, oldest first (the table in insertion order). *)
Definition stage_entries (d : Db.t) (stage_id : Z) : list VersionHistory.t :=
  filter (fun v => Z.eqb (VersionHistory.stage_id v) stage_id) (Db.version_history d).

(** [get_latest_version] *)
Definition get_latest_version (d : Db.t) (stage_id : Z) : option (option string) :=
  option_map Stage.version_number (StageRepository.get_by_id d stage_id).

(** The action label of an entry: [version_metadata.get("action")]. *)
Definition entry_action (v : VersionHistory.t) : pyval :=
  dict_get (VersionHistory.version_metadata v) "action".

End WithDifflib.

End VersionHistoryService.

(* ===================================================================== *)
(** * services/global_labels_service.py *)
(* ===================================================================== *)

Module GlobalLabelsService.
Import PyStr Artifacts.

(** [label_device if label_device else label_name] *)
Definition identifier (l : Label) : string :=
  if truthy (device l) then device l else name l.

(** [{label.get('device', '') for label in labels if label.get('device')}] *)
Definition devices_of (labels : list Label) : list string :=
  map device (filter (fun l => truthy (device l)) labels).

(** [{label.get('name', '') for label in labels if label.get('name')}] *)
Definition names_of (labels : list Label) : list string :=
  map name (filter (fun l => truthy (name l)) labels).

(** The variables the loop of [merge_global_labels] updates. *)
Record MergeState := mkMerge {
  merged : list Label;
  existing_devices : list string;
  existing_names : list string
}.

(** The test that lets a new label in. *)
Definition accepts (st : MergeState) (new_label : Label) : bool :=
  truthy (identifier new_label)
  && negb (mem (identifier new_label) (existing_devices st))
  && negb (mem (name new_label) (existing_names st)).

(** The body of the loop. *)
Definition merge_step (st : MergeState) (new_label : Label) : MergeState :=
  if accepts st new_label
  then mkMerge (merged st ++ [new_label])
               (if truthy (device new_label)
                then device new_label :: existing_devices st
                else existing_devices st)
               (if truthy (name new_label)
                then name new_label :: existing_names st
                else existing_names st)
  else st.

(** [merge_global_labels] *)
Definition merge_global_labels (existing_labels new_labels : list Label) : list Label :=
  merged (fold_left merge_step new_labels
            (mkMerge existing_labels (devices_of existing_labels) (names_of existing_labels))).

(** The two sets of the loop hold the devices and the names of [merged]. *)
Definition synced (st : MergeState) : Prop :=
  (forall s, In s (existing_devices st) <-> In s (devices_of (merged st)))
  /\ (forall s, In s (existing_names st) <-> In s (names_of (merged st))).

(** [new_label] is kept out by [x]: its identifier is the device of [x], or
    it has the name of [x]. *)
Definition hits (new_label x : Label) : bool :=
  (truthy (device x) && String.eqb (identifier new_label) (device x))
  || (truthy (name x) && String.eqb (name new_label) (name x)).

(** The loop of [merge_global_labels] on the list alone: a label is appended
    when it has an identifier and no label of the list keeps it out. *)
Fixpoint merge_list (merged new_labels : list Label) : list Label :=
  match new_labels with
  | [] => merged
  | new_label :: rest =>
      merge_list
        (if truthy (identifier new_label) && negb (existsb (hits new_label) merged)
         then merged ++ [new_label] else merged)
        rest
  end.

(** Two lists share a device: some label of each carries the same
    non-empty device. *)
Definition device_collision (A B : list Label) : bool :=
  existsb (fun a => existsb (fun b => truthy (device a) && String.eqb (device a) (device b)) B) A.

(** [A] and [B] are each free of repeated labels, every label has an
    identifier, and two labels of [A] and [B] of which one would keep the
    other out are the same label. *)
Definition compatible (A B : list Label) : Prop :=
  NoDup A /\ NoDup B
  /\ (forall l, In l (A ++ B) -> truthy (identifier l) = true)
  /\ (forall l1 l2, In l1 (A ++ B) -> In l2 (A ++ B) -> hits l1 l2 = true -> l1 = l2).

(** [update_all_stages_with_global_labels]: every row of the project that
    belongs to a stage gets the given list. *)
Definition update_all_stages_with_global_labels (d : Db.t) (project_id : Z)
    (global_labels : list Label) : Db.t * nat :=
  let hit (c : GeneratedCode.t) :=
    Z.eqb (GeneratedCode.project_id c) project_id
    && match GeneratedCode.stage_id c with Some _ => true | None => false end in
  (Db.with_codes d
     (map (fun c =>
             if hit c
             then GeneratedCode.mk (GeneratedCode.id c) (GeneratedCode.project_id c)
                    (GeneratedCode.stage_id c) global_labels
                    (GeneratedCode.local_labels c) (GeneratedCode.program_body c)
                    (GeneratedCode.program_blocks c) (GeneratedCode.functions c)
                    (GeneratedCode.function_blocks c) (GeneratedCode.program_name c)
                    (GeneratedCode.execution_type c) (GeneratedCode.code_metadata c)
                    (GeneratedCode.created_at c)
             else c)
          (Db.generated_codes d)),
   List.length (filter hit (Db.generated_codes d))).

(** The rows [get_project_global_labels] and
    [update_all_stages_with_global_labels] select: those of the project that
    belong to a stage. *)
Definition stage_code_of (project_id : Z) (c : GeneratedCode.t) : bool :=
  Z.eqb (GeneratedCode.project_id c) project_id
  && match GeneratedCode.stage_id c with Some _ => true | None => false end.

(** The body of the inner loop of [get_project_global_labels]: the labels
    kept so far and [seen_devices]. *)
Definition collect_step (st : list Label * list string) (label : Label)
    : list Label * list string :=
  let '(all_labels, seen_devices) := st in
  if truthy (identifier label) && negb (mem (identifier label) seen_devices)
  then ((all_labels ++ [label])%list, identifier label :: seen_devices)
  else st.

(** The labels of a list of labels, one per identifier, first seen first. *)
Definition collect (labels : list Label) : list Label :=
  fst (fold_left collect_step labels ([], [])).

(** A label that has a device or a name. *)
Definition identified (l : Label) : Prop := truthy (identifier l) = true.

(** The loop of [get_project_global_labels] on the list alone: a label is
    appended when it has an identifier that no label kept so far has. *)
Fixpoint collect_list (all_labels labels : list Label) : list Label :=
  match labels with
  | [] => all_labels
  | label :: rest =>
      collect_list
        (if truthy (identifier label)
            && negb (mem (identifier label) (map identifier all_labels))
         then all_labels ++ [label] else all_labels)%list
        rest
  end.

(** [get_project_global_labels] *)
Definition get_project_global_labels (d : Db.t) (project_id : Z) : list Label :=
  collect (flat_map GeneratedCode.global_labels
             (filter (stage_code_of project_id) (Db.generated_codes d))).

(** The row [c] with the list [labels], when it is a stage row of the project. *)
Definition with_global_labels (project_id : Z) (labels : list Label) (c : GeneratedCode.t)
    : GeneratedCode.t :=
  if stage_code_of project_id c
  then GeneratedCode.mk (GeneratedCode.id c) (GeneratedCode.project_id c)
         (GeneratedCode.stage_id c) labels
         (GeneratedCode.local_labels c) (GeneratedCode.program_body c)
         (GeneratedCode.program_blocks c) (GeneratedCode.functions c)
         (GeneratedCode.function_blocks c) (GeneratedCode.program_name c)
         (GeneratedCode.execution_type c) (GeneratedCode.code_metadata c)
         (GeneratedCode.created_at c)
  else c.

(** [ensure_common_global_labels]: the database after the update, and the
    labels returned. *)
Definition ensure_common_global_labels (d : Db.t) (project_id : Z) : Db.t * list Label :=
  let all_global_labels := get_project_global_labels d project_id in
  (fst (update_all_stages_with_global_labels d project_id all_global_labels),
   all_global_labels).

End GlobalLabelsService.

(* ===================================================================== *)
(** * core/input_processing/input_validator.py *)
(* ===================================================================== *)

Module InputValidator.
Import PyStr Py.

Definition min_word_count : Z := 50.
Definition max_word_count : Z := 5000.

(** [len(text.split())] *)
Definition word_count (text : string) : Z :=
  Z.of_nat (List.length (split_ws text)).

(** [validate] *)
Definition validate (text : string) : dict :=
  if negb (truthy text) || negb (truthy (strip text)) then
    [ ("valid", PBool false);
      ("error", PStr "Control logic cannot be empty") ]
  else
    let word_count := word_count text in
    if Z.ltb word_count min_word_count then
      [ ("valid", PBool false);
        ("error", PStr ("Control logic too brief (" ++ str_of_Z word_count
                        ++ " words). Please provide at least " ++ str_of_Z min_word_count
                        ++ " words describing the complete control process."));
        ("word_count", PInt word_count);
        ("required", PInt min_word_count) ]
    else if Z.gtb word_count max_word_count then
      [ ("valid", PBool false);
        ("error", PStr ("Control logic too long (" ++ str_of_Z word_count
                        ++ " words). Maximum " ++ str_of_Z max_word_count
                        ++ " words allowed."));
        ("word_count", PInt word_count);
        ("max_allowed", PInt max_word_count) ]
    else
      [ ("valid", PBool true);
        ("word_count", PInt word_count) ].

End InputValidator.

(* ===================================================================== *)
(** * core/planner/dependency_mapper.py *)
(* ===================================================================== *)

Module DependencyMapper.
Import PyStr Py.

(** A stage of the plan, as the segregator returns it. *)
Record StageInfo := mkStageInfo {
  stage_number : Z;
  stage_name : string;
  stage_type : string;
  description : string;
  original_logic : string
}.

(** A transition of the plan. *)
Record Dependency := mkDependency {
  from_stage : Z;
  to_stage : Z;
  condition : string
}.

(** The dictionary [validate_dependencies] returns. *)
Record DependencyValidation := mkValidation {
  valid : bool;
  errors : list string;
  warnings : list string
}.

Definition in_numbers (n : Z) (stage_numbers : list Z) : bool :=
  existsb (Z.eqb n) stage_numbers.

Definition missing_stage_error (n : Z) : string :=
  "Dependency references non-existent stage: " ++ str_of_Z n.

(** The arrow of the message is U+2192, three bytes in UTF-8. *)
Definition arrow : string :=
  String (ascii_of_nat 226) (String (ascii_of_nat 134) (String (ascii_of_nat 146) "")).

Definition backwards_warning (f t : Z) : string :=
  "Backwards dependency: Stage " ++ str_of_Z f ++ " " ++ arrow ++ " " ++ str_of_Z t.

Definition unreachable_warning (n : Z) : string :=
  "Stage " ++ str_of_Z n ++ " may be unreachable".

(** The errors of one dependency, in the order the loop appends them. *)
Definition dep_errors (stage_numbers : list Z) (dep : Dependency) : list string :=
  (if in_numbers (from_stage dep) stage_numbers then []
   else [missing_stage_error (from_stage dep)])
  ++ (if in_numbers (to_stage dep) stage_numbers then []
      else [missing_stage_error (to_stage dep)]).

Definition dep_warnings (dep : Dependency) : list string :=
  if Z.geb (from_stage dep) (to_stage dep)
  then [backwards_warning (from_stage dep) (to_stage dep)]
  else [].

(** The second loop: one pass over the dependencies in the order given,
    growing the set that starts as [{0}]. *)
Definition reach_step (reachable_stages : list Z) (dep : Dependency) : list Z :=
  if in_numbers (from_stage dep) reachable_stages
  then to_stage dep :: reachable_stages
  else reachable_stages.

Definition reachable_stages (dependencies : list Dependency) : list Z :=
  fold_left reach_step dependencies [0%Z].

Definition flagged (reachable : list Z) (stage_num : Z) : bool :=
  negb (in_numbers stage_num reachable) && negb (Z.eqb stage_num 0).

(** [validate_dependencies] *)
Definition validate_dependencies (stages : list StageInfo)
    (dependencies : list Dependency) : DependencyValidation :=
  let stage_numbers := map stage_number stages in
  let errors := flat_map (dep_errors stage_numbers) dependencies in
  let warnings1 := flat_map dep_warnings dependencies in
  let reachable := reachable_stages dependencies in
  let warnings2 :=
    map unreachable_warning (filter (flagged reachable) stage_numbers) in
  mkValidation (Nat.eqb (List.length errors) 0) errors (warnings1 ++ warnings2).

(** Nodes and edges of [build_transition_graph]. *)
Record Node := mkNode { node_id : Z; node_label : string; node_type : string }.
Record Edge := mkEdge { edge_from : Z; edge_to : Z; edge_label : string }.

Definition build_transition_graph (stages : list StageInfo)
    (dependencies : list Dependency) : list Node * list Edge :=
  (map (fun s => mkNode (stage_number s) (stage_name s) (stage_type s)) stages,
   map (fun d => mkEdge (from_stage d) (to_stage d) (condition d)) dependencies).

(** Reachability in the transition graph: a path of dependencies. *)
Inductive path (dependencies : list Dependency) (a : Z) : Z -> Prop :=
| path_here : path dependencies a a
| path_next : forall dep,
    path dependencies a (from_stage dep) ->
    In dep dependencies ->
    path dependencies a (to_stage dep).

End DependencyMapper.

(* ===================================================================== *)
(** * core/planner/planner_orchestrator.py *)
(* ===================================================================== *)

Module PlannerOrchestrator.
Import PyStr Py.

(** [_validate_input] *)
Definition _validate_input (control_logic : string) : dict :=
  if negb (truthy control_logic) || negb (truthy (strip control_logic)) then
    [ ("valid", PBool false);
      ("error", PStr "Control logic cannot be empty") ]
  else
    let word_count := Z.of_nat (List.length (split_ws control_logic)) in
    if Z.ltb word_count 50 then
      [ ("valid", PBool false);
        ("error", PStr ("Control logic too brief (" ++ str_of_Z word_count
                        ++ " words). Please provide at least 50 words describing the complete control process.")) ]
    else
      [ ("valid", PBool true) ].

(** What [create_plan] returns. *)
Inductive Plan :=
| PlanError (error : pyval)
| PlanSuccess (stages : list DependencyMapper.StageInfo)
              (dependencies : list DependencyMapper.Dependency)
              (dependency_validation : DependencyMapper.DependencyValidation)
              (transition_graph : list DependencyMapper.Node * list DependencyMapper.Edge)
              (total_stages : nat).

Section WithSegregator.

(** The flow analysis followed by the LLM-driven segregation: the stages
    and transitions obtained for a control logic. *)
Variable segregate :
  string -> list DependencyMapper.StageInfo * list DependencyMapper.Dependency.

(** [create_plan] *)
Definition create_plan (control_logic : string) : Plan :=
  let validation := _validate_input control_logic in
  if negb (py_truthy (dict_get validation "valid")) then
    PlanError (dict_get validation "error")
  else
    let '(stages, dependencies) := segregate control_logic in
    PlanSuccess stages dependencies
      (DependencyMapper.validate_dependencies stages dependencies)
      (DependencyMapper.build_transition_graph stages dependencies)
      (List.length stages).

End WithSegregator.

End PlannerOrchestrator.

(* ===================================================================== *)
(** * The fragment of Python's [re] the code parser uses *)
(* ===================================================================== *)

(** A backtracking matcher in continuation-passing style.  Alternatives are
    tried left to right, a greedy quantifier tries the longest run first, a
    lazy one the shortest, as [re] does.  Every quantifier of the parser's
    patterns ranges over a character class, so a quantifier is indexed by a
    predicate on characters; every pattern has at most one capturing group. *)

Module Re.
Import PyStr.

Inductive regex :=
| Eps
| Chr (p : ascii -> bool)        (* one character of a class *)
| Seq (r1 r2 : regex)
| Alt (r1 r2 : regex)            (* r1|r2 *)
| Star (p : ascii -> bool)       (* p*  *)
| LazyStar (p : ascii -> bool)   (* p*? *)
| Group (r : regex)              (* (r), group 1 *)
| Ahead (r : regex)              (* (?=r) *)
| NotAhead (r : regex)           (* (?!r) *)
| NotBehind (s : string)         (* (?<!s), s a literal *)
| Eos.                           (* $ *)

(** A position in the subject: the characters before it, nearest first, and
    the characters after it. *)
Definition pos := (list ascii * list ascii)%type.

(** The text of group 1, when it has been closed. *)
Definition capture := option string.

Definition cont := pos -> capture -> option (pos * capture).

(** The first [n] characters of a list, as a string. *)
Fixpoint take_string (n : nat) (l : list ascii) : string :=
  match n, l with
  | S n', c :: l' => String c (take_string n' l')
  | _, _ => EmptyString
  end.

(** The text between two positions of the same subject. *)
Definition between (p q : pos) : string :=
  take_string (List.length (snd p) - List.length (snd q)) (snd p).

(** Two characters equal under [re.IGNORECASE]. *)
Definition eq_nocase (a b : ascii) : bool :=
  Ascii.eqb (lower_char a) (lower_char b).

(** [l] starts with the characters of [s], case ignored. *)
Fixpoint starts_nocase (s : list ascii) (l : list ascii) : bool :=
  match s, l with
  | [], _ => true
  | a :: s', b :: l' => eq_nocase a b && starts_nocase s' l'
  | _ :: _, [] => false
  end.

Fixpoint star_greedy (p : ascii -> bool) (k : cont) (cap : capture)
    (before after : list ascii) : option (pos * capture) :=
  match after with
  | c :: after' =>
      if p c then
        match star_greedy p k cap (c :: before) after' with
        | Some x => Some x
        | None => k (before, after) cap
        end
      else k (before, after) cap
  | [] => k (before, after) cap
  end.

Fixpoint star_lazy (p : ascii -> bool) (k : cont) (cap : capture)
    (before after : list ascii) : option (pos * capture) :=
  match k (before, after) cap with
  | Some x => Some x
  | None =>
      match after with
      | c :: after' => if p c then star_lazy p k cap (c :: before) after' else None
      | [] => None
      end
  end.

Definition done : cont := fun q cap => Some (q, cap).

(** [run r k q cap]: match [r] at [q], then go on with [k]. *)
Fixpoint run (r : regex) (k : cont) (q : pos) (cap : capture) : option (pos * capture) :=
  match r with
  | Eps => k q cap
  | Chr p =>
      match snd q with
      | c :: after' => if p c then k (c :: fst q, after') cap else None
      | [] => None
      end
  | Seq r1 r2 => run r1 (fun q' cap' => run r2 k q' cap') q cap
  | Alt r1 r2 =>
      match run r1 k q cap with
      | Some x => Some x
      | None => run r2 k q cap
      end
  | Star p => star_greedy p k cap (fst q) (snd q)
  | LazyStar p => star_lazy p k cap (fst q) (snd q)
  | Group r' => run r' (fun q' _ => k q' (Some (between q q'))) q cap
  | Ahead r' =>
      match run r' done q cap with
      | Some (_, cap') => k q cap'
      | None => None
      end
  | NotAhead r' =>
      match run r' done q cap with
      | Some _ => None
      | None => k q cap
      end
  | NotBehind s =>
      if starts_nocase (rev (list_ascii_of_string s)) (fst q) then None else k q cap
  | Eos =>
      match snd q with
      | [] => k q cap
      | [c] => if Ascii.eqb c newline then k q cap else None
      | _ => None
      end
  end.

(** A literal under [re.IGNORECASE]. *)
Fixpoint lit (s : string) : regex :=
  match s with
  | EmptyString => Eps
  | String c s' => Seq (Chr (eq_nocase c)) (lit s')
  end.

Definition opt (r : regex) : regex := Alt r Eps.              (* r? *)
Definition plus (p : ascii -> bool) : regex := Seq (Chr p) (Star p).   (* p+ *)
Definition any : ascii -> bool := fun _ => true.              (* . with DOTALL *)
Definition not_newline : ascii -> bool := fun c => negb (Ascii.eqb c newline).  (* . *)
Definition char (a : ascii) : ascii -> bool := Ascii.eqb a.

(** A match: where it starts, where it ends, and the text of group 1. *)
Record Match := mkMatch {
  match_start : pos;
  match_end : pos;
  group1 : capture
}.

(** The leftmost match starting at or after the given position. *)
Fixpoint search_from (r : regex) (before after : list ascii) : option Match :=
  match run r done (before, after) None with
  | Some (q, cap) => Some (mkMatch (before, after) q cap)
  | None =>
      match after with
      | c :: after' => search_from r (c :: before) after'
      | [] => None
      end
  end.

(** [re.search(r, text)] *)
Definition search (r : regex) (text : string) : option Match :=
  search_from r [] (list_ascii_of_string text).

(** [match.group(1)] of a pattern whose group always takes part. *)
Definition group (m : Match) : string :=
  match group1 m with Some s => s | None => EmptyString end.

(** [re.finditer(r, text)]: the successive matches, each search starting
    where the previous match ended.  The patterns of the parser begin with
    a literal, so a match is never empty; after an empty match the search
    would resume one character further. *)
Fixpoint finditer_from (fuel : nat) (r : regex) (before after : list ascii) : list Match :=
  match fuel with
  | O => []
  | S fuel' =>
      match search_from r before after with
      | None => []
      | Some m =>
          let '(b, a) := match_end m in
          if Nat.ltb (List.length a) (List.length (snd (match_start m)))
          then m :: finditer_from fuel' r b a
          else match a with
               | c :: a' => m :: finditer_from fuel' r (c :: b) a'
               | [] => [m]
               end
      end
  end.

Definition finditer (r : regex) (text : string) : list Match :=
  let l := list_ascii_of_string text in
  finditer_from (S (List.length l)) r [] l.

End Re.

(** What a call that may raise yields. *)
Inductive Outcome (A : Type) :=
| Returned (a : A)
| Raised (message : string).
Arguments Returned {A} a.
Arguments Raised {A} message.

(** The manual context the generator and the validator put in their system
    prompt: [retrieval.retrieve_context(query, max_chunks=2)] for each query
    in turn, the non-empty answers joined by a blank line.  A call of the
    retrieval engine that raises makes the whole loop raise. *)
Module Retrieval.
Import PyStr.

Section WithEngine.

Variable retrieve_context : string -> Outcome string.

Fixpoint contexts (queries : list string) : Outcome (list string) :=
  match queries with
  | [] => Returned []
  | query :: rest =>
      match retrieve_context query with
      | Raised e => Raised e
      | Returned context =>
          match contexts rest with
          | Raised e => Raised e
          | Returned l => Returned (if truthy context then context :: l else l)
          end
      end
  end.

Definition manual_context (queries : list string) : Outcome string :=
  match contexts queries with
  | Raised e => Raised e
  | Returned l => Returned (join (nl ++ nl) l)
  end.

End WithEngine.

End Retrieval.

(* ===================================================================== *)
(** * core/code_generation/structured_text_generator.py *)
(* ===================================================================== *)

Module StructuredTextGenerator.
Import PyStr Py Artifacts Re.

Declare Scope re_scope.
Delimit Scope re_scope with re.
Infix ">>" := Seq (at level 41, right associativity) : re_scope.
Infix "<|>" := Alt (at level 42, right associativity) : re_scope.
Local Open Scope re_scope.

Definition dquote : string := String (ascii_of_nat 34) EmptyString.

(** ** The request sent to the model *)

(** [_build_generation_request]; [project_context] is the rendering of a
    non-empty context dictionary, when there is one. *)
Definition _build_generation_request (stage : dict) (project_context : option string) : string :=
  let stage_number := dict_get stage "stage_number" in
  let stage_name := dict_get stage "stage_name" in
  let request :=
    "Generate Structured Text code for this stage:" ++ nl
    ++ nl
    ++ "STAGE INFORMATION:" ++ nl
    ++ "- Stage Number: " ++ py_str stage_number ++ nl
    ++ "- Stage Name: " ++ py_str stage_name ++ nl
    ++ "- Stage Type: " ++ py_str (dict_get stage "stage_type") ++ nl
    ++ "- Description: " ++ py_str (dict_get stage "description") ++ nl
    ++ nl
    ++ "CONTROL LOGIC:" ++ nl
    ++ py_str (dict_get_default stage "original_logic"
                 (dict_get_default stage "edited_logic" (PStr ""))) ++ nl
    ++ nl in
  let request :=
    match project_context with
    | Some c => request ++ nl ++ "PROJECT CONTEXT:" ++ nl ++ c ++ nl
    | None => request
    end in
  request
  ++ nl
  ++ "Generate the complete code following the EXACT format specified in your instructions." ++ nl
  ++ nl
  ++ "CRITICAL: For ALL Program Blocks, Functions, and Function Blocks you generate:" ++ nl
  ++ "- Include " ++ dquote ++ "Stage: " ++ py_str stage_number ++ " - " ++ py_str stage_name
  ++ dquote ++ " in the metadata section" ++ nl
  ++ "- This ensures proper identification and organization" ++ nl
  ++ nl
  ++ "Remember:" ++ nl
  ++ "- Generate Program Blocks, Functions, and Function Blocks as needed based on the control logic" ++ nl
  ++ "- Use proper device ranges" ++ nl
  ++ "- All variables must be in label tables" ++ nl
  ++ "- No device symbols in code body" ++ nl
  ++ "- Industrial-grade logic" ++ nl
  ++ "- Safety-first approach" ++ nl.

(** [_determine_execution_type] *)
Definition _determine_execution_type (stage_type : pyval) : string :=
  match stage_type with
  | PStr s =>
      if String.eqb s "idle" then "Initial"
      else if String.eqb s "safety" then "Scan"
      else if String.eqb s "operation" then "Scan"
      else if String.eqb s "fault" then "Event"
      else if String.eqb s "shutdown" then "Scan"
      else "Scan"
  | _ => "Scan"
  end.

(** ** The label tables *)

(** [any(kw in s for kw in kws)] *)
Definition any_in (kws : list string) (s : string) : bool :=
  existsb (fun kw => contains kw s) kws.

(** [parts[i] if len(parts) > i else ""] *)
Definition part (parts : list string) (i : nat) : string := nth i parts "".

(** The row of a table, from its non-empty cells. *)
Definition label_of_parts (parts : list string) : Label :=
  mkLabel (part parts 0) (part parts 1) (part parts 2) (part parts 3) (part parts 4)
    (if Nat.ltb 5 (List.length parts)
     then mem (lower (part parts 5)) ["yes"; "true"; "1"]
     else false)
    (if Nat.ltb 6 (List.length parts) then part parts 6
     else if Nat.ltb 5 (List.length parts)
             && negb (mem (lower (part parts 5)) ["yes"; "no"; "true"; "false"])
          then part parts 5
          else "").

(** The body of the loop of [_parse_label_table], for one stripped line. *)
Definition parse_label_line (line : string) : list Label :=
  if contains "|" line then
    let parts := filter truthy (map strip (split_on "|" line)) in
    if Nat.leb 3 (List.length parts)
       && negb (any_in ["label name"; "name"; "column"; "label"] (lower (part parts 0)))
    then
      let label := label_of_parts parts in
      if truthy (name label) && negb (mem (name label) [""; "-"; "N/A"])
      then [label] else []
    else []
  else [].

(** [_parse_label_table] *)
Definition _parse_label_table (table_text : string) : list Label :=
  let lines :=
    map strip
      (filter (fun l => truthy (strip l) && negb (startswith "=" l) && negb (startswith "-" l))
              (split_on newline table_text)) in
  flat_map parse_label_line lines.

(** ** The code region *)

Definition is_table_header (line : string) : bool :=
  contains "|" line
  && any_in ["label name"; "data type"; "class"; "initial value"; "constant"; "english"]
            (lower line).

Definition is_code_header (line : string) : bool :=
  mem (strip (lower line)) ["structured text code:"; "structured text code"].

(** The body of the clean-up loop: the lines kept so far and [skip_next_empty]. *)
Definition clean_step (st : list string * bool) (line : string) : list string * bool :=
  let '(cleaned_lines, skip_next_empty) := st in
  if negb (truthy (strip line)) then
    ((if negb skip_next_empty then (cleaned_lines ++ [line])%list else cleaned_lines), false)
  else if is_table_header line then (cleaned_lines, true)
  else if is_code_header line then (cleaned_lines, true)
  else ((cleaned_lines ++ [line])%list, skip_next_empty).

(** The clean-up the three block parsers apply to the captured code. *)
Definition clean_code (captured : string) : string :=
  let code_text := strip captured in
  let lines := split_on newline code_text in
  strip (join nl (fst (fold_left clean_step lines ([], false)))).

(** ** The patterns

    Each definition is preceded by the pattern of the source; a blank is
    written between a star and a closing parenthesis that follows it. *)

(** Pattern: (?:\d+\)\s* )? *)
Definition numbered : regex := opt (plus is_digit >> Chr (char ")") >> Star is_space).

(** Pattern: FUNCTION(?!\s+BLOCK) *)
Definition function_not_block : regex :=
  lit "FUNCTION" >> NotAhead (plus is_space >> lit "BLOCK").

(** Pattern: (?:\d+\)\s* )?GLOBAL LABEL TABLE(.*?)(?=(?:\d+\)\s* )?PROGRAM BLOCK|(?:\d+\)\s* )?FUNCTION(?!\s+BLOCK)|(?:\d+\)\s* )?FUNCTION BLOCK|$) *)
Definition global_pattern : regex :=
  numbered >> lit "GLOBAL LABEL TABLE" >> Group (LazyStar any)
  >> Ahead ((numbered >> lit "PROGRAM BLOCK")
            <|> (numbered >> function_not_block)
            <|> (numbered >> lit "FUNCTION BLOCK")
            <|> Eos).

(** Pattern: (?:\d+\)\s* )?PROGRAM BLOCK\s*\n(.*?)(?=(?:\d+\)\s* )?(?:PROGRAM BLOCK|FUNCTION(?!\s+BLOCK)|FUNCTION BLOCK|$)) *)
Definition program_pattern : regex :=
  numbered >> lit "PROGRAM BLOCK" >> Star is_space >> Chr (char newline)
  >> Group (LazyStar any)
  >> Ahead (numbered
            >> (lit "PROGRAM BLOCK" <|> function_not_block <|> lit "FUNCTION BLOCK" <|> Eos)).

(** Pattern: (?:\d+\)\s* )?(?<!FUNCTION )FUNCTION\s*\n(.*?)(?=(?:\d+\)\s* )?(?:PROGRAM BLOCK|(?<!FUNCTION )FUNCTION\s|FUNCTION BLOCK|$)) *)
Definition function_pattern : regex :=
  numbered >> NotBehind "FUNCTION " >> lit "FUNCTION" >> Star is_space >> Chr (char newline)
  >> Group (LazyStar any)
  >> Ahead (numbered
            >> (lit "PROGRAM BLOCK"
                <|> (NotBehind "FUNCTION " >> lit "FUNCTION" >> Chr is_space)
                <|> lit "FUNCTION BLOCK"
                <|> Eos)).

(** Pattern: (?:\d+\)\s* )?FUNCTION BLOCK\s*\n(.*?)(?=(?:\d+\)\s* )?(?:PROGRAM BLOCK|FUNCTION(?!\s+BLOCK)|FUNCTION BLOCK|$)) *)
Definition fb_pattern : regex :=
  numbered >> lit "FUNCTION BLOCK" >> Star is_space >> Chr (char newline)
  >> Group (LazyStar any)
  >> Ahead (numbered
            >> (lit "PROGRAM BLOCK" <|> function_not_block <|> lit "FUNCTION BLOCK" <|> Eos)).

(** Pattern: <label>\s*(.+)   as in   Stage:\s*(.+) *)
Definition field_pattern (label : string) : regex :=
  lit label >> Star is_space >> Group (plus not_newline).

(** Pattern: LOCAL LABEL TABLE[:\s]*(.*?)(?=STRUCTURED TEXT|$) *)
Definition local_table_pattern : regex :=
  lit "LOCAL LABEL TABLE" >> Star (fun c => char ":" c || is_space c)
  >> Group (LazyStar any) >> Ahead (lit "STRUCTURED TEXT" <|> Eos).

(** Pattern: STRUCTURED TEXT CODE:\s*\n(.* ) *)
Definition code_pattern : regex :=
  lit "STRUCTURED TEXT CODE:" >> Star is_space >> Chr (char newline) >> Group (Star any).

(** Pattern: STRUCTURED TEXT\s*\n(.* ) *)
Definition code_pattern_short : regex :=
  lit "STRUCTURED TEXT" >> Star is_space >> Chr (char newline) >> Group (Star any).

(** ** The block parsers *)

(** [m.group(1).strip() if m else default] *)
Definition field (label default block_text : string) : string :=
  match search (field_pattern label) block_text with
  | Some m => strip (group m)
  | None => default
  end.

(** ['with en' in m.group(1).lower() if m else False] *)
Definition with_en_field (block_text : string) : bool :=
  match search (field_pattern "With EN or Without EN:") block_text with
  | Some m => contains "with en" (lower (group m))
  | None => false
  end.

Definition local_labels_of (block_text : string) : list Label :=
  match search local_table_pattern block_text with
  | Some m => _parse_label_table (group m)
  | None => []
  end.

Definition code_of (block_text : string) : string :=
  let code_match :=
    match search code_pattern block_text with
    | Some m => Some m
    | None => search code_pattern_short block_text
    end in
  match code_match with
  | Some m => clean_code (group m)
  | None => ""
  end.

(** [_parse_program_block]: [None] when the name is empty. *)
Definition _parse_program_block (block_text : string) : option ProgramBlock :=
  let program :=
    mkProgramBlock (field "Stage:" "" block_text)
                   (field "Program Name:" "" block_text)
                   (field "Execution Type:" "Scan" block_text)
                   (local_labels_of block_text)
                   (code_of block_text) in
  if truthy (pb_name program) then Some program else None.

(** [_parse_function] *)
Definition _parse_function (func_text : string) : option Function_ :=
  let function :=
    mkFunction (field "Stage:" "" func_text)
               (field "Function Name:" "" func_text)
               (with_en_field func_text)
               (field "Result Type:" "BOOL" func_text)
               (local_labels_of func_text)
               (code_of func_text) in
  if truthy (fn_name function) then Some function else None.

(** [_parse_function_block] *)
Definition _parse_function_block (fb_text : string) : option FunctionBlock :=
  let fb :=
    mkFunctionBlock (field "Stage:" "" fb_text)
                    (field "Function Block Name:" "" fb_text)
                    (field "Function Block Type:" "Subroutine Type" fb_text)
                    (with_en_field fb_text)
                    (local_labels_of fb_text)
                    (code_of fb_text) in
  if truthy (fb_name fb) then Some fb else None.

(** The dictionary [_parse_generated_code] returns. *)
Record ParsedCode := mkParsed {
  global_labels : list Label;
  program_blocks : list ProgramBlock;
  functions : list Function_;
  function_blocks : list FunctionBlock;
  local_labels : list Label;
  program_body : string
}.

(** The blocks of the matches of a pattern that parse to something. *)
Definition parse_matches {A : Type} (parse : string -> option A)
    (pattern : regex) (code_text : string) : list A :=
  flat_map (fun m => match parse (group m) with Some b => [b] | None => [] end)
           (finditer pattern code_text).

(** [_parse_generated_code] *)
Definition _parse_generated_code (code_text : string) : ParsedCode :=
  let global_labels :=
    match search global_pattern code_text with
    | Some m => _parse_label_table (group m)
    | None => []
    end in
  let program_blocks := parse_matches _parse_program_block program_pattern code_text in
  let functions := parse_matches _parse_function function_pattern code_text in
  let function_blocks := parse_matches _parse_function_block fb_pattern code_text in
  match program_blocks with
  | first :: _ =>
      mkParsed global_labels program_blocks functions function_blocks
               (pb_local_labels first) (pb_code first)
  | [] =>
      mkParsed global_labels program_blocks functions function_blocks [] ""
  end.

(** ** Generation *)

(** The dictionary [generate_code] returns. *)
Record GenResult := mkGenResult {
  success : bool;
  gen_stage_id : pyval;
  gen_stage_name : pyval;
  gen_global_labels : list Label;
  gen_local_labels : list Label;
  gen_program_body : string;
  gen_program_blocks : list ProgramBlock;
  gen_functions : list Function_;
  gen_function_blocks : list FunctionBlock;
  gen_metadata : dict
}.

Section WithModel.

(** [retrieval_engine.retrieve_context] *)
Variable retrieve_context : string -> Outcome string.

(** The language model behind [chat_completion] and [extract_response_text]:
    the text of the reply to the system prompt built from the manual context
    (first argument) and to the user request (second argument), or the
    exception of a failed call. *)
Variable chat_completion : string -> string -> Outcome string.

(** The write of the reply to the debug file
    [debug_response_<stage_number>.txt], which may fail. *)
Variable write_debug_file : pyval -> string -> Outcome unit.

(** [_get_code_generation_context] *)
Definition _get_code_generation_context : Outcome string :=
  Retrieval.manual_context retrieve_context
    [ "FX5U Structured Text syntax rules";
      "Mitsubishi device symbols M D X Y";
      "GX Works3 program structure global local labels" ].

(** [generate_code] of the generator: it returns a successful result or
    raises; every step of the [try] block that may raise is a step here. *)
Definition generate_code (stage : dict) (project_context : option string) : Outcome GenResult :=
  match _get_code_generation_context with
  | Raised e => Raised e
  | Returned manual_context =>
      let user_request := _build_generation_request stage project_context in
      match chat_completion manual_context user_request with
      | Raised e => Raised e
      | Returned code_text =>
          if negb (truthy code_text)
          then Raised "No response received from code generation service"
          else
            match write_debug_file (dict_get_default stage "stage_number" (PInt 0)) code_text with
            | Raised e => Raised e
            | Returned _ =>
                let parsed_code := _parse_generated_code code_text in
                Returned
                  (mkGenResult true (dict_get stage "id") (dict_get stage "stage_name")
                     (global_labels parsed_code) (local_labels parsed_code)
                     (program_body parsed_code) (program_blocks parsed_code)
                     (functions parsed_code) (function_blocks parsed_code)
                     [ ("program_name",
                        PStr ("STAGE_" ++ py_str (dict_get_default stage "stage_number" (PInt 0))));
                       ("execution_type",
                        PStr (_determine_execution_type (dict_get stage "stage_type")));
                       ("generated_at", PStr "timestamp") ])
            end
      end
  end.

End WithModel.

End StructuredTextGenerator.

(* ===================================================================== *)
(** * api/routes/code_generation.py *)
(* ===================================================================== *)

(** What a route hands back: its response model, or the [HTTPException] it raised. *)
Inductive HttpResult (A : Type) :=
| Ok (a : A)
| HTTPException (status_code : Z) (detail : string).
Arguments Ok {A} a.
Arguments HTTPException {A} status_code detail.

Module CodeGenerationRoute.
Import PyStr Py Artifacts.
Module G := StructuredTextGenerator.

(** [GeneratedCodeResponse] *)
Record GeneratedCodeResponse := mkResponse {
  success : bool;
  stage_id : pyval;
  stage_name : pyval;
  global_labels : list Label;
  local_labels : list Label;
  program_body : string;
  metadata : dict;
  program_blocks : list ProgramBlock;
  functions : list Function_;
  function_blocks : list FunctionBlock
}.

Definition opt_str (o : option string) : pyval :=
  match o with Some s => PStr s | None => PNone end.

(** The [stage_data] dictionary built for a stage row. *)
Definition stage_data (stg : Stage.t) : dict :=
  [ ("id", PInt (Stage.id stg));
    ("stage_number", PInt (Stage.stage_number stg));
    ("stage_name", PStr (Stage.stage_name stg));
    ("stage_type", PStr (Stage.stage_type stg));
    ("description", opt_str (Stage.description stg));
    ("original_logic", PStr (Stage.original_logic stg));
    ("edited_logic", opt_str (Stage.edited_logic stg)) ].

(** The key of a stage row. *)
Definition stage_key (s : Stage.t) : Z * Z := (Stage.id s, Stage.project_id s).


(** The generation of a stage failed: the generator raised, or returned a
    result that is not a success. *)
Definition generation_failed (o : Outcome G.GenResult) : Prop :=
  match o with
  | Raised _ => True
  | Returned result => G.success result = false
  end.

Section WithGenerator.

(** [st_generator.generate_code(stage_data)]: what the generator answers
    for a stage. *)
Variable st_generate_code : dict -> Outcome G.GenResult.

(** [difflib.unified_diff], as the version service uses it. *)
Variable unified_diff : string -> string -> string.

(** The first loop: generate for every stage, stop at the first failure.
    It yields [generated_results] and [all_global_labels]. *)
Fixpoint generate_all (all_stages : list Stage.t)
    : Outcome (list (Stage.t * G.GenResult) * list Label) :=
  match all_stages with
  | [] => Returned ([], [])
  | stg :: rest =>
      match st_generate_code (stage_data stg) with
      | Raised e => Raised e
      | Returned result =>
          if G.success result then
            match generate_all rest with
            | Raised e => Raised e
            | Returned (generated_results, all_global_labels) =>
                Returned ((stg, result) :: generated_results,
                          (G.gen_global_labels result ++ all_global_labels)%list)
            end
          else Raised ("Failed to generate code for stage: " ++ Stage.stage_name stg)
      end
  end.

(** The body of the second loop: the stage's rows are deleted, the new row
    is created with the unified labels, and the version entry is written. *)
Definition save_stage (user_id : Z) (merged_global_labels : list Label)
    (d : Db.t) (sr : Stage.t * G.GenResult) : Db.t :=
  let '(stg, result) := sr in
  let d1 := CodeRepository.delete_by_stage d (Stage.id stg) in
  let '(d2, new_code) :=
    CodeRepository.create d1 (Stage.project_id stg) (Some (Stage.id stg))
      merged_global_labels (G.gen_local_labels result) (G.gen_program_body result)
      (py_str (dict_get_default (G.gen_metadata result) "program_name" (PStr "")))
      (py_str (dict_get_default (G.gen_metadata result) "execution_type" (PStr "Scan")))
      (G.gen_metadata result)
      (G.gen_program_blocks result) (G.gen_functions result)
      (G.gen_function_blocks result) in
  fst (VersionHistoryService.create_version_entry unified_diff d2
         (GeneratedCode.id new_code) (Stage.id stg) user_id "generate_code"
         None
         (Some [ ("program_body", PStr (G.gen_program_body result));
                 ("global_labels_count", PInt (Z.of_nat (List.length merged_global_labels)));
                 ("local_labels_count", PInt (Z.of_nat (List.length (G.gen_local_labels result))));
                 ("program_blocks_count", PInt (Z.of_nat (List.length (G.gen_program_blocks result))));
                 ("functions_count", PInt (Z.of_nat (List.length (G.gen_functions result))));
                 ("function_blocks_count", PInt (Z.of_nat (List.length (G.gen_function_blocks result)))) ])
         (Some [ ("description", PStr "Code generated for all stages");
                 ("program_name", dict_get_default (G.gen_metadata result) "program_name" (PStr "")) ])).

(** [generate_code]: the route, for the stage of the request and the
    authenticated user. *)
Definition generate_code (d : Db.t) (request_stage_id current_user_id : Z)
    : Db.t * HttpResult GeneratedCodeResponse :=
  match StageRepository.get_by_id d request_stage_id with
  | None => (d, HTTPException 404 "Stage not found")
  | Some stage =>
      let authorized :=
        match ProjectRepository.get_by_id d (Stage.project_id stage) with
        | Some project => Z.eqb (Project.owner_id project) current_user_id
        | None => false
        end in
      if negb authorized then (d, HTTPException 403 "Not authorized")
      else
        let all_stages := StageRepository.get_by_project d (Stage.project_id stage) in
        let unvalidated_stages := filter (fun s => negb (Stage.is_validated s)) all_stages in
        match unvalidated_stages with
        | _ :: _ =>
            (d, HTTPException 400
                  ("All stages must be validated before generating code. Unvalidated stages: "
                   ++ join ", " (map Stage.stage_name unvalidated_stages)))
        | [] =>
            match generate_all all_stages with
            | Raised e => (d, HTTPException 500 ("Code generation error: " ++ e))
            | Returned (generated_results, all_global_labels) =>
                let merged_global_labels :=
                  GlobalLabelsService.merge_global_labels [] all_global_labels in
                let d' :=
                  fold_left (save_stage current_user_id merged_global_labels)
                            generated_results d in
                match find (fun sr => Z.eqb (Stage.id (fst sr)) (Stage.id stage))
                           generated_results with
                | Some (_, r) =>
                    (d', Ok (mkResponse true (G.gen_stage_id r) (G.gen_stage_name r)
                               merged_global_labels (G.gen_local_labels r)
                               (G.gen_program_body r) (G.gen_metadata r)
                               (G.gen_program_blocks r) (G.gen_functions r)
                               (G.gen_function_blocks r)))
                | None =>
                    (d', HTTPException 500
                           "Code generation error: Could not find result for requested stage")
                end
            end
        end
  end.

End WithGenerator.

End CodeGenerationRoute.

(* ===================================================================== *)
(** * core/validation/stage_validator.py: the request and the fallback *)
(* ===================================================================== *)

Module StageValidatorRules.
Import PyStr Py StageValidator.

(** A severity the parser can produce. *)
Definition severity_known (i : CategorizedIssue) : Prop :=
  severity i = "critical" \/ severity i = "moderate" \/ severity i = "optional".

(** The verdict is one of the two pairs the parser writes. *)
Definition verdict_consistent (r : ValidationResult) : Prop :=
  (valid r = true /\ status r = "PASS") \/ (valid r = false /\ status r = "FAIL").

Definition result_well_formed (r : ValidationResult) : Prop :=
  verdict_consistent r
  /\ Forall severity_known (categorized_issues r)
  /\ Forall (fun s => s <> EmptyString) (issues r)
  /\ Forall (fun s => s <> EmptyString) (recommendations r).

Definition state_well_formed (st : ParseState) : Prop :=
  result_well_formed (result st)
  /\ match current_issue st with Some i => severity_known i | None => True end.

(** [a or b] *)
Definition py_or (a b : pyval) : pyval := if py_truthy a then a else b.

(** [stage.get('edited_logic') or stage.get('original_logic', '')] *)
Definition stage_logic (stage : dict) : pyval :=
  py_or (dict_get stage "edited_logic") (dict_get_default stage "original_logic" (PStr "")).

(** [_build_validation_request] *)
Definition _build_validation_request (stage : dict) : string :=
  "Validate this stage logic:" ++ nl
  ++ nl
  ++ "STAGE INFORMATION:" ++ nl
  ++ "- Stage Number: " ++ py_str (dict_get stage "stage_number") ++ nl
  ++ "- Stage Name: " ++ py_str (dict_get stage "stage_name") ++ nl
  ++ "- Stage Type: " ++ py_str (dict_get stage "stage_type") ++ nl
  ++ nl
  ++ "LOGIC TO VALIDATE:" ++ nl
  ++ py_str (stage_logic stage) ++ nl
  ++ nl
  ++ "Perform complete validation and provide detailed analysis.".

(** [any(keyword in text for keyword in keywords)] *)
Definition any_keyword (keywords : list string) (text : string) : bool :=
  existsb (fun keyword => contains keyword text) keywords.

(** [_fallback_validation] on a logic that is a string. *)
Definition fallback_on (logic : string) : ValidationResult :=
  let too_short := negb (truthy logic) || Nat.ltb (String.length (strip logic)) 10 in
  let issues := if too_short then ["Logic appears too short or empty"] else [] in
  let recommendations :=
    if too_short then ["Provide more detailed logic description"] else [] in
  let has_safety :=
    any_keyword ["emergency"; "stop"; "safety"; "interlock"; "alarm"] (lower logic) in
  let has_conditions := any_keyword ["if"; "when"; "while"; "condition"] (lower logic) in
  let has_actions :=
    any_keyword ["then"; "set"; "turn"; "activate"; "start"] (lower logic) in
  let semantic_analysis :=
    "Basic structural validation performed. "
    ++ (if has_conditions && has_actions
        then "Logic contains conditional statements and actions. "
        else "Logic may lack proper conditional structure. ") in
  let issues :=
    if has_conditions && has_actions then issues
    else (issues ++ ["Missing clear conditional logic (if/when/then)"])%list in
  let detailed := Nat.ltb 5 (List.length (split_ws logic)) in
  let logical_consistency :=
    "Basic consistency check performed. "
    ++ (if detailed then "Logic has sufficient detail. " else "Logic may need more detail. ") in
  let recommendations :=
    if detailed then recommendations
    else (recommendations
          ++ ["Add more specific details about inputs, conditions, and outputs"])%list in
  let safety_compliance :=
    if has_safety then "Safety-related keywords detected in logic. "
    else "No explicit safety keywords found. " in
  let recommendations :=
    if has_safety then recommendations
    else (recommendations
          ++ ["Consider adding safety interlocks or emergency stop conditions"])%list in
  let n := List.length issues in
  let status :=
    if Nat.eqb n 0 then "PASS" else if Nat.leb n 2 then "WARNING" else "FAIL" in
  let valid := Nat.leb n 2 in
  let semantic_analysis :=
    semantic_analysis
    ++ (if Nat.eqb n 0 then "Stage logic appears valid."
        else if Nat.leb n 2 then "Stage has minor issues but can proceed."
        else "Stage has significant issues that should be addressed.") in
  let recommendations :=
    (recommendations
     ++ ["Note: Full AI validation unavailable. Basic rule-based validation applied.";
         "Configure Perplexity API key for comprehensive validation."])%list in
  mkResult valid status semantic_analysis logical_consistency safety_compliance
           issues recommendations [].

(** The name Python gives to the type of a value. *)
Definition type_name (v : pyval) : string :=
  match v with
  | PNone => "NoneType"
  | PBool _ => "bool"
  | PInt _ => "int"
  | PStr _ => "str"
  end.

(** [_fallback_validation]: a logic that is not a string has no [strip] and
    no [lower], and the call raises [AttributeError]. *)
Definition _fallback_validation (stage : dict) : Outcome ValidationResult :=
  match stage_logic stage with
  | PStr logic => Returned (fallback_on logic)
  | v =>
      Raised ("'" ++ type_name v ++ "' object has no attribute '"
              ++ (if py_truthy v then "strip" else "lower") ++ "'")
  end.

Section WithModel.

(** [retrieval_engine.retrieve_context] *)
Variable retrieve_context : string -> Outcome string.

(** The language model behind [chat_completion] and [extract_response_text]:
    the text of the reply to the system prompt built from the manual context
    (first argument) and to the validation request (second argument), or the
    exception of a failed call. *)
Variable chat_completion : string -> string -> Outcome string.

(** [_get_validation_context] *)
Definition _get_validation_context : Outcome string :=
  Retrieval.manual_context retrieve_context
    [ "PLC safety requirements interlocks";
      "FX5U device constraints limits";
      "Structured Text programming rules" ].

(** [validate_stage] of the validator. *)
Definition validate_stage (stage : dict) : Outcome ValidationResult :=
  match _get_validation_context with
  | Raised e => Raised e
  | Returned manual_context =>
      match chat_completion manual_context (_build_validation_request stage) with
      | Raised e => Raised e
      | Returned validation_text =>
          if negb (truthy validation_text)
          then Raised "No response received from validation service"
          else Returned (_parse_validation_result validation_text)
      end
  end.

End WithModel.

End StageValidatorRules.

(* ===================================================================== *)
(** * core/planner/process_flow_analyzer.py *)
(* ===================================================================== *)

Module ProcessFlowAnalyzer.
Import PyStr Py.

(** [self.flow_keywords] *)
Definition flow_keywords (kind : string) : list string :=
  if String.eqb kind "start" then ["start"; "begin"; "initialize"; "init"; "startup"]
  else if String.eqb kind "stop" then ["stop"; "end"; "shutdown"; "halt"; "terminate"]
  else if String.eqb kind "emergency" then ["emergency"; "e-stop"; "estop"; "abort"; "panic"]
  else if String.eqb kind "safety" then ["safety"; "interlock"; "guard"; "protect"; "secure"]
  else if String.eqb kind "sensor" then ["sensor"; "detect"; "check"; "verify"; "confirm"]
  else if String.eqb kind "actuator"
       then ["motor"; "valve"; "cylinder"; "conveyor"; "pump"; "heater"]
  else if String.eqb kind "condition" then ["if"; "when"; "while"; "until"; "after"; "before"]
  else if String.eqb kind "sequence"
       then ["then"; "next"; "after"; "following"; "subsequently"]
  else [].

(** [_detect_keywords] *)
Definition _detect_keywords (text : string) (keywords : list string) : bool :=
  existsb (fun keyword => contains keyword (lower text)) keywords.

(** A character of the class [\w]. *)
Definition is_word (c : ascii) : bool :=
  let n := nat_of_ascii c in
  is_digit c
  || (Nat.leb 65 n && Nat.leb n 90)
  || (Nat.leb 97 n && Nat.leb n 122)
  || Nat.eqb n 95.

(** The longest run of word characters at the head of [s]. *)
Fixpoint word_run (s : string) : string :=
  match s with
  | EmptyString => EmptyString
  | String c s' => if is_word c then String c (word_run s') else EmptyString
  end.

(** [s[n:]] *)
Fixpoint drop (n : nat) (s : string) : string :=
  match n, s with
  | S n', String _ s' => drop n' s'
  | _, _ => s
  end.

(** [re.findall(r'\b' + keyword + r'\w*\b', s)] for a keyword that starts
    and ends with a word character: the words of [s] that start with the
    keyword, a word starting where the previous character is not a word
    character.  [prev_word] tells whether the previous character is one;
    [skip] counts the characters of a match still to be passed. *)
Fixpoint findall_keyword (keyword s : string) (prev_word : bool) (skip : nat) : list string :=
  match s with
  | EmptyString => []
  | String c s' =>
      match skip with
      | S k => findall_keyword keyword s' (is_word c) k
      | O =>
          if negb prev_word && String.prefix keyword s then
            let m := keyword ++ word_run (drop (String.length keyword) s) in
            m :: findall_keyword keyword s' (is_word c) (String.length m - 1)
          else findall_keyword keyword s' (is_word c) 0
      end
  end.

(** [list(set(l))], in the order of first occurrence (Python leaves the
    order open). *)
Fixpoint distinct (l : list string) : list string :=
  match l with
  | [] => []
  | x :: l' => x :: filter (fun y => negb (String.eqb x y)) (distinct l')
  end.

(** [_extract_devices] *)
Definition _extract_devices (text device_type : string) : list string :=
  distinct
    (flat_map (fun keyword => findall_keyword keyword (lower text) false 0)
              (flow_keywords device_type)).

(** [_calculate_complexity] *)
Definition _calculate_complexity (text : string) : nat :=
  let word_count := List.length (split_ws text) in
  let condition_count :=
    List.length (filter (fun kw => contains kw (lower text)) (flow_keywords "condition")) in
  let actuator_count := List.length (_extract_devices text "actuator") in
  Nat.min (word_count / 50) 5 + Nat.min condition_count 5 + Nat.min actuator_count 5.

(** The dictionary [analyze] returns. *)
Record Analysis := mkAnalysis {
  has_start_logic : bool;
  has_stop_logic : bool;
  has_emergency_logic : bool;
  has_safety_logic : bool;
  detected_sensors : list string;
  detected_actuators : list string;
  has_conditions : bool;
  has_sequence : bool;
  complexity_score : nat;
  word_count : nat;
  line_count : nat
}.

(** [analyze] *)
Definition analyze (control_logic : string) : Analysis :=
  mkAnalysis
    (_detect_keywords control_logic (flow_keywords "start"))
    (_detect_keywords control_logic (flow_keywords "stop"))
    (_detect_keywords control_logic (flow_keywords "emergency"))
    (_detect_keywords control_logic (flow_keywords "safety"))
    (_extract_devices control_logic "sensor")
    (_extract_devices control_logic "actuator")
    (_detect_keywords control_logic (flow_keywords "condition"))
    (_detect_keywords control_logic (flow_keywords "sequence"))
    (_calculate_complexity control_logic)
    (List.length (split_ws control_logic))
    (List.length (split_on newline control_logic)).

End ProcessFlowAnalyzer.

(* ===================================================================== *)
(** * api/routes/stages.py *)
(* ===================================================================== *)

Module StagesRoute.
Import PyStr Py StageValidator.

(** [ValidationResponse] *)
Record ValidationResponse := mkValidationResponse {
  success : bool;
  resp_valid : bool;
  resp_status : string;
  resp_semantic_analysis : string;
  resp_logical_consistency : string;
  resp_safety_compliance : string;
  resp_issues : list string;
  resp_recommendations : list string;
  resp_categorized_issues : list CategorizedIssue;
  error : option string
}.

(** The response of the route when the validator raised [e]. *)
Definition is_error_response (response : ValidationResponse) (e : string) : Prop :=
  success response = false /\ resp_valid response = false
  /\ resp_status response = "ERROR" /\ error response = Some e.

(** The owner check the routes share. *)
Definition authorized (d : Db.t) (stage : Stage.t) (current_user_id : Z) : bool :=
  match ProjectRepository.get_by_id d (Stage.project_id stage) with
  | Some project => Z.eqb (Project.owner_id project) current_user_id
  | None => false
  end.

(** [stage.edited_logic or stage.original_logic] *)
Definition effective_logic (stage : Stage.t) : string :=
  match Stage.edited_logic stage with
  | Some e => if truthy e then e else Stage.original_logic stage
  | None => Stage.original_logic stage
  end.

(** The [stage_data] dictionary of the validation route. *)
Definition stage_data (stage : Stage.t) : dict :=
  [ ("id", PInt (Stage.id stage));
    ("stage_number", PInt (Stage.stage_number stage));
    ("stage_name", PStr (Stage.stage_name stage));
    ("stage_type", PStr (Stage.stage_type stage));
    ("original_logic", PStr (Stage.original_logic stage));
    ("edited_logic", CodeGenerationRoute.opt_str (Stage.edited_logic stage)) ].

Section WithServices.

(** [stage_validator.validate_stage(stage_data)] *)
Variable validate : dict -> Outcome ValidationResult.

(** [difflib.unified_diff], as the version service uses it. *)
Variable unified_diff : string -> string -> string.

(** [update_stage_logic] *)
Definition update_stage_logic (d : Db.t) (request_stage_id : Z) (edited_logic : string)
    (current_user_id : Z) : Db.t * HttpResult string :=
  match StageRepository.get_by_id d request_stage_id with
  | None => (d, HTTPException 404 "Stage not found")
  | Some stage =>
      if negb (authorized d stage current_user_id)
      then (d, HTTPException 403 "Not authorized")
      else
        let old_logic := effective_logic stage in
        let d1 := StageRepository.update_logic d request_stage_id edited_logic in
        let d2 :=
          match CodeRepository.get_by_stage d1 (Stage.id stage) with
          | Some code =>
              fst (VersionHistoryService.create_version_entry unified_diff d1
                     (GeneratedCode.id code) (Stage.id stage) current_user_id "edit_logic"
                     (Some [("edited_logic", PStr old_logic)])
                     (Some [("edited_logic", PStr edited_logic)])
                     (Some [("description", PStr "Stage logic edited")]))
          | None => d1
          end in
        (d2, Ok "Stage logic updated successfully")
  end.

(** [validate_stage] *)
Definition validate_stage (d : Db.t) (request_stage_id current_user_id : Z)
    : Db.t * HttpResult ValidationResponse :=
  match StageRepository.get_by_id d request_stage_id with
  | None => (d, HTTPException 404 "Stage not found")
  | Some stage =>
      if negb (authorized d stage current_user_id)
      then (d, HTTPException 403 "Not authorized")
      else
        match validate (stage_data stage) with
        | Returned result =>
            let d' :=
              if valid result then
                let d1 := StageRepository.mark_validated d (Stage.id stage) in
                match CodeRepository.get_by_stage d1 (Stage.id stage) with
                | Some code =>
                    fst (VersionHistoryService.create_version_entry unified_diff d1
                           (GeneratedCode.id code) (Stage.id stage) current_user_id "validate"
                           None None
                           (Some [ ("description", PStr "Stage validated");
                                   ("validation_status", PStr (status result));
                                   ("valid", PBool (valid result)) ]))
                | None => d1
                end
              else d in
            (d', Ok (mkValidationResponse true (valid result) (status result)
                       (semantic_analysis result) (logical_consistency result)
                       (safety_compliance result) (issues result)
                       (recommendations result) (categorized_issues result) None))
        | Raised e =>
            (d, Ok (mkValidationResponse false false "ERROR"
                      ("Validation error occurred: " ++ e)
                      "Unable to perform validation due to error"
                      "Unable to perform validation due to error"
                      ["Validation system error occurred"]
                      ["Please check backend logs and try again"]
                      [ mkIssue "critical" "Validation System Error"
                                "An error occurred during validation"
                                ("Please check backend logs. Error: " ++ e) ]
                      (Some e)))
        end
  end.

(** [finalize_stage] *)
Definition finalize_stage (d : Db.t) (request_stage_id current_user_id : Z)
    : Db.t * HttpResult string :=
  match StageRepository.get_by_id d request_stage_id with
  | None => (d, HTTPException 404 "Stage not found")
  | Some stage =>
      if negb (authorized d stage current_user_id)
      then (d, HTTPException 403 "Not authorized")
      else if negb (Stage.is_validated stage)
      then (d, HTTPException 400 "Stage must be validated before finalizing")
      else (StageRepository.mark_finalized d request_stage_id,
            Ok "Stage finalized successfully")
  end.

End WithServices.

End StagesRoute.

(* ===================================================================== *)
(** * api/routes/code_generation.py: the update route *)
(* ===================================================================== *)

Module CodeUpdateRoute.
Import PyStr Py Artifacts.

(** [UpdateCodeRequest] *)
Record UpdateCodeRequest := mkRequest {
  stage_id : Z;
  program_body : string;
  global_labels : option (list Label);
  local_labels : option (list Label)
}.

(** [s[:n]] *)
Fixpoint take (n : nat) (s : string) : string :=
  match n, s with
  | S n', String c s' => String c (take n' s')
  | _, _ => EmptyString
  end.

(** The first row that satisfies [p], rewritten by [f]. *)
Fixpoint update_first_code (p : GeneratedCode.t -> bool)
    (f : GeneratedCode.t -> GeneratedCode.t) (l : list GeneratedCode.t)
    : list GeneratedCode.t :=
  match l with
  | [] => []
  | c :: l' => if p c then f c :: l' else c :: update_first_code p f l'
  end.

(** The row [get_by_stage] returns, the last of the stage in the table,
    rewritten by [f]: what a commit does to that object. *)
Definition update_current (stage_id : Z) (f : GeneratedCode.t -> GeneratedCode.t)
    (l : list GeneratedCode.t) : list GeneratedCode.t :=
  rev (update_first_code (CodeRepository.of_stage stage_id) f (rev l)).

(** The assignments of the route to the row. *)
Definition apply_request (request : UpdateCodeRequest) (code : GeneratedCode.t)
    : GeneratedCode.t :=
  GeneratedCode.mk (GeneratedCode.id code) (GeneratedCode.project_id code)
    (GeneratedCode.stage_id code)
    (match global_labels request with
     | Some l => l
     | None => GeneratedCode.global_labels code
     end)
    (match local_labels request with
     | Some l => l
     | None => GeneratedCode.local_labels code
     end)
    (program_body request)
    (GeneratedCode.program_blocks code) (GeneratedCode.functions code)
    (GeneratedCode.function_blocks code) (GeneratedCode.program_name code)
    (GeneratedCode.execution_type code) (GeneratedCode.code_metadata code)
    (GeneratedCode.created_at code).

Section WithDifflib.

Variable unified_diff : string -> string -> string.

(** [update_generated_code]; the response carries the stage id. *)
Definition update_generated_code (d : Db.t) (request : UpdateCodeRequest)
    (current_user_id : Z) : Db.t * HttpResult Z :=
  match StageRepository.get_by_id d (stage_id request) with
  | None => (d, HTTPException 404 "Stage not found")
  | Some stage =>
      if negb (StagesRoute.authorized d stage current_user_id)
      then (d, HTTPException 403 "Not authorized")
      else
        match CodeRepository.get_by_stage d (stage_id request) with
        | None => (d, HTTPException 404 "No generated code found")
        | Some code =>
            let code' := apply_request request code in
            let d1 :=
              Db.with_codes d
                (update_current (stage_id request) (apply_request request)
                   (Db.generated_codes d)) in
            let d2 :=
              fst (VersionHistoryService.create_version_entry unified_diff d1
                     (GeneratedCode.id code') (Stage.id stage) current_user_id "edit_code"
                     None
                     (Some [ ("program_body",
                              PStr (if Nat.ltb 200 (String.length (program_body request))
                                    then take 200 (program_body request) ++ "..."
                                    else program_body request));
                             ("global_labels_count",
                              PInt (Z.of_nat (List.length (GeneratedCode.global_labels code'))));
                             ("local_labels_count",
                              PInt (Z.of_nat (List.length (GeneratedCode.local_labels code')))) ])
                     (Some [("description", PStr "Code manually edited")])) in
            (d2, Ok (Stage.id stage))
        end
  end.

End WithDifflib.

End CodeUpdateRoute.

(* ===================================================================== *)
(** * Sample data *)
(* ===================================================================== *)

Module Samples.
Import PyStr Py Artifacts.

(** A project of user 7 with one stage at version 1.0.0 and its code row. *)
Definition conveyor_stage : Stage.t :=
  Stage.mk 10 1 2 "Conveyor Operation" "operation" (Some "Run the conveyor")
           "Start conveyor on button" (Some "Run conveyor only while guard is closed")
           true false (Some "1.0.0") None None.

Definition conveyor_code : GeneratedCode.t :=
  GeneratedCode.mk 100 1 (Some 10%Z) [] [] "Motor := Start;" [] [] []
                   "STAGE_2" "Scan" [] 0.

Definition one_stage_db : Db.t :=
  Db.mk [Project.mk 1 "Plant" 7] [conveyor_stage] [conveyor_code] [] 101 1 1.

(** The calls of the routes for: edit the logic, validate, edit the logic
    again, generate the code. *)
Definition edit_call (old new : string) : VersionHistoryService.Call :=
  VersionHistoryService.mkCall "edit_logic"
    (Some [("edited_logic", PStr old)]) (Some [("edited_logic", PStr new)])
    (Some [("description", PStr "Stage logic edited")]).

Definition validate_call : VersionHistoryService.Call :=
  VersionHistoryService.mkCall "validate" None None
    (Some [("description", PStr "Stage validated");
           ("validation_status", PStr "PASS"); ("valid", PBool true)]).

Definition generate_call (body : string) : VersionHistoryService.Call :=
  VersionHistoryService.mkCall "generate_code" None
    (Some [("program_body", PStr body)])
    (Some [("description", PStr "Code generated for all stages");
           ("program_name", PStr "STAGE_2")]).

Definition s5_calls : list VersionHistoryService.Call :=
  [ edit_call "Start conveyor on button" "Start conveyor on button, stop on emergency";
    validate_call;
    edit_call "Start conveyor on button, stop on emergency" "Start conveyor when guard closed";
    generate_call "Motor := Start AND Guard;" ].

(** The global labels of scenario S4. *)
Definition start_button : Label :=
  mkLabel "Start_Button" "Bit" "VAR_GLOBAL" "X0" "" false "".

Definition sensor1 : Label :=
  mkLabel "Sensor1" "Bit" "VAR_GLOBAL" "X1" "" false "".

(** A project of user 7 with two validated stages, each with a code row
    from an earlier generation; the two rows hold different global labels. *)
Definition idle_stage : Stage.t :=
  Stage.mk 11 2 0 "Idle" "idle" None "Wait for the start button" None
           true false (Some "1.1.0") None None.

Definition safety_stage : Stage.t :=
  Stage.mk 12 2 1 "Safety Check" "safety" None "Check the guard sensor" None
           true false (Some "1.1.0") None None.

Definition old_idle_code : GeneratedCode.t :=
  GeneratedCode.mk 200 2 (Some 11%Z) [start_button] [] "old idle" [] [] []
                   "STAGE_0" "Initial" [] 0.

Definition old_safety_code : GeneratedCode.t :=
  GeneratedCode.mk 201 2 (Some 12%Z) [sensor1] [] "old safety" [] [] []
                   "STAGE_1" "Scan" [] 1.

Definition two_stage_db : Db.t :=
  Db.mk [Project.mk 2 "Line" 7] [idle_stage; safety_stage]
        [old_idle_code; old_safety_code] [] 202 1 2.

(** A generator that answers scenario S4: the idle stage emits the start
    button, the other stages the start button and the sensor. *)
Definition s4_result (stage : dict) (labels : list Label) : StructuredTextGenerator.GenResult :=
  StructuredTextGenerator.mkGenResult true
    (dict_get stage "id") (dict_get stage "stage_name")
    labels [] "Motor := Start_Button;" [] [] []
    [("program_name", PStr "STAGE"); ("execution_type", PStr "Scan")].

Definition s4_generator (stage : dict) : Outcome StructuredTextGenerator.GenResult :=
  match dict_get stage "stage_number" with
  | PInt 0 => Returned (s4_result stage [start_button])
  | _ => Returned (s4_result stage [start_button; sensor1])
  end.

(** A generator whose call fails on every stage but the idle one. *)
Definition failing_generator (stage : dict) : Outcome StructuredTextGenerator.GenResult :=
  match dict_get stage "stage_number" with
  | PInt 0 => Returned (s4_result stage [start_button])
  | _ => Raised "No response received from code generation service"
  end.

(** A reply of the model in the format of the system prompt: a global
    table, then three program blocks, the second of which has no
    [Program Name:] line and the third an empty one, then a function. *)
Definition generated_document : string :=
  join nl
    [ "==============================";
      "1) GLOBAL LABEL TABLE";
      "==============================";
      "Label Name | Data Type | Class | Device | Initial Value | Constant | English | Remark";
      "Start_Button | Bit | VAR_GLOBAL | X0 | FALSE | No | Start push button | -";
      "Motor_Run | Bit | VAR_GLOBAL | Y0 | FALSE | No | Motor output | -";
      "==============================";
      "2) PROGRAM BLOCKS";
      "==============================";
      "----------------------";
      "PROGRAM BLOCK";
      "Stage: 2 - Conveyor";
      "Program Name: Conveyor_Main";
      "Execution Type: Scan";
      "----------------------";
      "LOCAL LABEL TABLE:";
      "Label Name | Data Type | Class | Initial Value | Constant | English";
      "Run_Flag | Bit | VAR | FALSE | No | Running";
      "STRUCTURED TEXT CODE:";
      "IF Start_Button THEN";
      "    Motor_Run := TRUE;";
      "END_IF;";
      "";
      "----------------------";
      "PROGRAM BLOCK";
      "Stage: 2 - Conveyor";
      "Execution Type: Scan";
      "----------------------";
      "STRUCTURED TEXT CODE:";
      "Motor_Run := FALSE;";
      "----------------------";
      "PROGRAM BLOCK";
      "Stage: 2 - Conveyor";
      "Program Name:   ";
      "3) FUNCTION";
      "Stage: 2 - Conveyor";
      "Function Name: Calc";
      "Result Type: INT";
      "STRUCTURED TEXT CODE:";
      "Calc := 1;";
      "" ].

(** The text of a program block without a [Program Name:] line. *)
Definition nameless_block : string :=
  join nl
    [ "Stage: 2 - Conveyor";
      "Execution Type: Scan";
      "----------------------";
      "STRUCTURED TEXT CODE:";
      "Motor_Run := FALSE;";
      "----------------------";
      "" ].

(** A control logic of 5001 words. *)
Fixpoint repeat_word (n : nat) : string :=
  match n with
  | O => EmptyString
  | S n' => "valve " ++ repeat_word n'
  end.

Definition long_logic : string := repeat_word (50 * 100 + 1).

(** A plan whose transitions are listed out of order: 1 -> 2 before 0 -> 1. *)
Definition plan_stages : list DependencyMapper.StageInfo :=
  [ DependencyMapper.mkStageInfo 0 "Idle" "idle" "" "";
    DependencyMapper.mkStageInfo 1 "Safety Check" "safety" "" "";
    DependencyMapper.mkStageInfo 2 "Conveyor Operation" "operation" "" "" ].

Definition plan_dependencies : list DependencyMapper.Dependency :=
  [ DependencyMapper.mkDependency 1 2 "safety ok";
    DependencyMapper.mkDependency 0 1 "start" ].

(** A stand-in for [difflib.unified_diff] in the examples. *)
Definition no_diff : string -> string -> string := fun _ _ => "".

End Samples.

(** Further sample data: the sample project with a third stage that is not
    validated yet, a validator whose model answers every request with the
    failing reply, and a request to edit the code of the conveyor stage. *)
Module MoreSamples.
Import PyStr Py Artifacts Samples.

Definition draft_stage : Stage.t :=
  Stage.mk 13 2 2 "Fill" "operation" None "Fill the tank until the level switch trips" None
           false false (Some "1.0.0") None None.

Definition draft_db : Db.t :=
  Db.mk [Project.mk 2 "Line" 7] [idle_stage; safety_stage; draft_stage]
        [old_idle_code; old_safety_code] [] 202 1 2.

(** A retrieval engine without manuals, and a debug file that is written. *)
Definition no_manuals (query : string) : Outcome string := Returned "".

Definition debug_file_written (stage_number : pyval) (code_text : string) : Outcome unit :=
  Returned tt.

Definition failing_validator (stage : dict) : Outcome StageValidator.ValidationResult :=
  StageValidatorRules.validate_stage no_manuals
    (fun _ _ => Returned StageValidator.fail_with_critical) stage.





(** A program block whose metadata has no [Program Name:] line and whose
    code mentions the label in a comment, and a reply that holds it. *)
Definition sheet_block_metadata : list string :=
  [ "Stage: 2 - Conveyor Operation";
    "Execution Type: Scan" ].

Definition sheet_block_body : list string :=
  [ "";
    "LOCAL LABEL TABLE";
    "Label Name | Data Type | Class | Device | Initial Value | Constant | English | Remark";
    "Run_Request | Bit | VAR | M10 | FALSE | No | Run request | -";
    "";
    "STRUCTURED TEXT CODE:";
    "// Program Name: see the project sheet";
    "Motor_Run := Run_Request;" ].

Definition sheet_block : string := join nl (sheet_block_metadata ++ sheet_block_body).

Definition sheet_document : string :=
  join nl [ "=============================="; "2) PROGRAM BLOCK";
            "=============================="; sheet_block ].

Definition edit_request : CodeUpdateRoute.UpdateCodeRequest :=
  CodeUpdateRoute.mkRequest 10 "Motor := Start AND Guard;" (Some [start_button]) None.

End MoreSamples.

(* ===================================================================== *)
(** * Properties *)
(* ===================================================================== *)

(** ** Strings *)

Section StringFacts.
Import PyStr.

Lemma split_on_nonempty : forall sep s, split_on sep s <> [].
Proof.
  intros sep s; induction s as [|c s IH]; simpl; [discriminate|].
  destruct (Ascii.eqb c sep); [discriminate|].
  destruct (split_on sep s); [contradiction|discriminate].
Qed.

Lemma split_on_free : forall sep s, free_of sep s = true -> split_on sep s = [s].
Proof.
  intros sep s; induction s as [|c s IH]; simpl; intros H; [reflexivity|].
  apply andb_true_iff in H as [Hc Hs].
  apply negb_true_iff in Hc. rewrite Hc, (IH Hs). reflexivity.
Qed.

Lemma split_on_app : forall sep a r,
  free_of sep a = true ->
  split_on sep (a ++ String sep r) = a :: split_on sep r.
Proof.
  intros sep a r; induction a as [|c a IH]; simpl; intros H.
  - rewrite Ascii.eqb_refl. reflexivity.
  - apply andb_true_iff in H as [Hc Ha].
    apply negb_true_iff in Hc. rewrite Hc, (IH Ha). reflexivity.
Qed.

Lemma digit_not_space : forall c, is_digit c = true -> is_space c = false.
Proof.
  intros c; unfold is_digit, is_space.
  destruct (Nat.leb_spec 48 (nat_of_ascii c)); simpl; [|discriminate].
  intros _.
  destruct (Nat.leb_spec (nat_of_ascii c) 13); [lia|].
  rewrite andb_false_r; simpl.
  destruct (Nat.leb_spec (nat_of_ascii c) 32); [lia|].
  apply andb_false_r.
Qed.

Lemma rstrip_digits : forall s, all_chars is_digit s = true -> rstrip s = s.
Proof.
  induction s as [|c s IH]; simpl; intros H; [reflexivity|].
  apply andb_true_iff in H as [Hc Hs].
  rewrite (IH Hs), (digit_not_space c Hc). reflexivity.
Qed.

Lemma strip_digits : forall s, all_chars is_digit s = true -> strip s = s.
Proof.
  intros s H; unfold strip.
  destruct s as [|c s]; [reflexivity|].
  simpl in H. apply andb_true_iff in H as [Hc Hs].
  simpl lstrip. rewrite (digit_not_space c Hc).
  apply rstrip_digits; simpl; now rewrite Hc, Hs.
Qed.

End StringFacts.

(** ** Integer conversions *)

Section IntFacts.
Import PyStr Py.

Lemma string_of_uint_digits : forall d,
  all_chars is_digit (NilEmpty.string_of_uint d) = true.
Proof. induction d; simpl; auto. Qed.

Lemma string_of_uint_free_of_dot : forall d,
  free_of "." (NilEmpty.string_of_uint d) = true.
Proof. induction d; simpl; auto. Qed.

Lemma drop_underscores_digits : forall s,
  all_chars is_digit s = true ->
  drop_underscores true s = Some s.
Proof.
  induction s as [|c s IH]; simpl; intros H; [reflexivity|].
  apply andb_true_iff in H as [Hc Hs].
  destruct (Ascii.eqb_spec c "_") as [->|_]; [discriminate Hc|].
  rewrite Hc, (IH Hs). reflexivity.
Qed.

Lemma drop_underscores_digits_start : forall s,
  all_chars is_digit s = true -> s <> EmptyString ->
  drop_underscores false s = Some s.
Proof.
  intros [|c s] H Hne; [contradiction|]. simpl in *.
  apply andb_true_iff in H as [Hc Hs].
  destruct (Ascii.eqb_spec c "_") as [->|_]; [discriminate Hc|].
  rewrite Hc, (drop_underscores_digits s Hs). reflexivity.
Qed.

Lemma str_of_N : forall n : N,
  str_of_Z (Z.of_N n) = NilEmpty.string_of_uint (N.to_uint n).
Proof. intros [|p]; reflexivity. Qed.

Lemma to_uint_nonempty : forall n : N,
  NilEmpty.string_of_uint (N.to_uint n) <> EmptyString.
Proof.
  intros n E.
  assert (H : N.to_uint n = Decimal.Nil) by (destruct (N.to_uint n); simpl in E; congruence).
  pose proof (DecimalN.Unsigned.of_to n) as R. rewrite H in R.
  destruct n as [|p]; [discriminate H|].
  simpl in R. discriminate R.
Qed.

(** [int(str(n)) == n] for a natural number. *)
Lemma py_int_str_of_N : forall n : N, py_int (str_of_Z (Z.of_N n)) = Some (Z.of_N n).
Proof.
  intros n. rewrite str_of_N. unfold py_int.
  rewrite (strip_digits _ (string_of_uint_digits _)).
  pose proof (to_uint_nonempty n) as Hne.
  pose proof (string_of_uint_digits (N.to_uint n)) as Hd.
  destruct (NilEmpty.string_of_uint (N.to_uint n)) as [|c r] eqn:E; [contradiction|].
  assert (Hc : is_digit c = true) by (simpl in Hd; now apply andb_true_iff in Hd as [? _]).
  destruct (Ascii.eqb_spec c "-") as [->|_]; [discriminate Hc|].
  destruct (Ascii.eqb_spec c "+") as [->|_]; [discriminate Hc|].
  unfold int_of_digits.
  rewrite (drop_underscores_digits_start _ Hd) by discriminate.
  rewrite <- E, NilEmpty.usu. simpl.
  unfold Z.of_uint. f_equal. f_equal. apply DecimalN.Unsigned.of_to.
Qed.

Lemma str_of_N_free_of_dot : forall n : N, free_of "." (str_of_Z (Z.of_N n)) = true.
Proof. intros n. rewrite str_of_N. apply string_of_uint_free_of_dot. Qed.

End IntFacts.

(** ** Stage validator *)

Section StageValidatorFacts.
Import PyStr StageValidator.

Lemma step_keeps_verdict : forall st line,
  valid (result (step st line)) = valid (result st)
  /\ status (result (step st line)) = status (result st).
Proof.
  intros st line. unfold step.
  repeat match goal with
         | |- context [if ?b then _ else _] => destruct b
         | |- context [match ?x with _ => _ end] => destruct x
         end; simpl; auto.
  all: unfold flush_issue; destruct (current_issue st); simpl; auto.
Qed.

Lemma fold_step_keeps_verdict : forall lines st,
  valid (result (fold_left step lines st)) = valid (result st).
Proof.
  induction lines as [|l lines IH]; intros st; simpl; [reflexivity|].
  rewrite IH. apply step_keeps_verdict.
Qed.

Lemma flush_keeps_verdict : forall r cur, valid (flush_issue r cur) = valid r.
Proof. intros r [i|]; reflexivity. Qed.

(** The verdict of the parser: a literal [Status: PASS] anywhere in the
    text, or no critical categorized issue. *)
Lemma parse_valid_characterisation : forall validation_text,
  valid (_parse_validation_result validation_text)
  = contains "Status: PASS" validation_text
    || Nat.eqb (critical_count
                  (categorized_issues (_parse_validation_result validation_text))) 0.
Proof.
  intros t. unfold _parse_validation_result.
  set (st := fold_left step _ _).
  assert (Hv : valid (flush_issue (result st) (current_issue st))
               = contains "Status: PASS" t).
  { rewrite flush_keeps_verdict. unfold st. rewrite fold_step_keeps_verdict.
    simpl. unfold initial_result. destruct (contains "Status: PASS" t); reflexivity. }
  destruct (Nat.eqb (critical_count (categorized_issues (flush_issue (result st) (current_issue st)))) 0) eqn:E.
  - simpl. rewrite E. now rewrite orb_true_r.
  - rewrite E, orb_false_r. exact Hv.
Qed.

(** Without a literal [Status: PASS] the gate holds: a critical issue makes
    the result invalid. *)
Lemma critical_fails_without_literal_pass : forall validation_text,
  contains "Status: PASS" validation_text = false ->
  critical_count (categorized_issues (_parse_validation_result validation_text)) <> 0 ->
  valid (_parse_validation_result validation_text) = false.
Proof.
  intros t Hc Hn. rewrite parse_valid_characterisation, Hc. simpl.
  now apply Nat.eqb_neq.
Qed.

(** C1 (defect).  The verdict is [valid = True] whenever the text holds a
    literal [Status: PASS], whatever the categorized issues.  The reply
    [pass_with_critical] carries a [CRITICAL] categorized issue and the line
    [Status: PASS]: the parser returns [valid = True] and status [PASS]
    together with the critical issue, where the critical-issue gate asks for
    [valid = False] and [FAIL]. *)
Theorem status_pass_line_overrides_critical_issue :
  (forall validation_text,
     valid (_parse_validation_result validation_text)
     = contains "Status: PASS" validation_text
       || Nat.eqb (critical_count
                     (categorized_issues (_parse_validation_result validation_text))) 0)
  /\ let r := _parse_validation_result pass_with_critical in
     valid r = true
     /\ status r = "PASS"
     /\ exists i, In i (categorized_issues r) /\ severity i = "critical".
Proof.
  split; [exact parse_valid_characterisation|].
  vm_compute. repeat split.
  eexists; split; [left; reflexivity | reflexivity].
Qed.

End StageValidatorFacts.

(** ** Version ledger *)

Section VersionFacts.
Import PyStr Py VersionHistoryService.

Lemma split_version : forall a b c : N,
  split_on "." (format_version (Z.of_N a) (Z.of_N b) (Z.of_N c))
  = [str_of_Z (Z.of_N a); str_of_Z (Z.of_N b); str_of_Z (Z.of_N c)].
Proof.
  intros a b c. unfold format_version.
  change (str_of_Z (Z.of_N a) ++ "." ++ str_of_Z (Z.of_N b) ++ "." ++ str_of_Z (Z.of_N c))
    with (str_of_Z (Z.of_N a) ++ String "." (str_of_Z (Z.of_N b) ++ String "." (str_of_Z (Z.of_N c)))).
  rewrite split_on_app by apply str_of_N_free_of_dot.
  rewrite split_on_app by apply str_of_N_free_of_dot.
  rewrite split_on_free by apply str_of_N_free_of_dot.
  reflexivity.
Qed.

(** What [increment_version] does to [major.minor.patch], by action. *)
Lemma increment_version_formatted : forall (major minor patch : N) action_type,
  increment_version (format_version (Z.of_N major) (Z.of_N minor) (Z.of_N patch)) action_type
  = if mem action_type ["validate"; "generate_code"]
    then format_version (Z.of_N major) (Z.of_N minor + 1) 0
    else if mem action_type ["edit_logic"; "safety_check"]
    then format_version (Z.of_N major) (Z.of_N minor) (Z.of_N patch + 1)
    else format_version (Z.of_N major) (Z.of_N minor) (Z.of_N patch).
Proof.
  intros. unfold increment_version.
  rewrite split_version, !py_int_str_of_N. reflexivity.
Qed.

(** [validate] and [generate_code] bump the minor number and zero the patch. *)
Lemma increment_version_minor : forall (major minor patch : N) action_type,
  action_type = "validate" \/ action_type = "generate_code" ->
  increment_version (format_version (Z.of_N major) (Z.of_N minor) (Z.of_N patch)) action_type
  = format_version (Z.of_N major) (Z.of_N minor + 1) 0.
Proof.
  intros ? ? ? ? [-> | ->]; now rewrite increment_version_formatted.
Qed.

(** [edit_logic] and [safety_check] bump the patch number. *)
Lemma increment_version_patch : forall (major minor patch : N) action_type,
  action_type = "edit_logic" \/ action_type = "safety_check" ->
  increment_version (format_version (Z.of_N major) (Z.of_N minor) (Z.of_N patch)) action_type
  = format_version (Z.of_N major) (Z.of_N minor) (Z.of_N patch + 1).
Proof.
  intros ? ? ? ? [-> | ->]; now rewrite increment_version_formatted.
Qed.

(** C4 (defect).  [edit_code], the action the code-update route records, is
    in neither list of [increment_version]: the version comes back
    unchanged, e.g. 1.0.0 stays 1.0.0 where the bump table asks for 1.0.1. *)
Theorem increment_version_edit_code_unchanged : forall major minor patch : N,
  increment_version (format_version (Z.of_N major) (Z.of_N minor) (Z.of_N patch)) "edit_code"
  = format_version (Z.of_N major) (Z.of_N minor) (Z.of_N patch)
  /\ increment_version "1.0.0" "edit_code" = "1.0.0".
Proof.
  intros. split; [now rewrite increment_version_formatted | reflexivity].
Qed.

End VersionFacts.

Section LedgerFacts.
Import PyStr Py VersionHistoryService.

Variable unified_diff : string -> string -> string.

Lemma dict_lookup_set_other : forall d k k' v,
  k <> k' -> dict_lookup (dict_set d k' v) k = dict_lookup d k.
Proof.
  induction d as [|[k0 v0] d IH]; intros k k' v Hne; simpl.
  - destruct (String.eqb_spec k k'); [contradiction|reflexivity].
  - destruct (String.eqb_spec k' k0) as [->|Hk]; simpl.
    + destruct (String.eqb_spec k k0); [contradiction|reflexivity].
    + destruct (String.eqb_spec k k0); [reflexivity|]. now apply IH.
Qed.

Lemma dict_lookup_merge_absent : forall e d k,
  dict_lookup e k = None -> dict_lookup (dict_merge d e) k = dict_lookup d k.
Proof.
  unfold dict_merge.
  induction e as [|[k0 v0] e IH]; intros d k H; simpl; [reflexivity|].
  simpl in H. destruct (String.eqb_spec k k0) as [E|Hne]; [discriminate|].
  rewrite (IH _ _ H). now apply dict_lookup_set_other.
Qed.

Lemma find_update_first : forall stage_id f l s,
  find (fun s => Z.eqb (Stage.id s) stage_id) l = Some s ->
  Stage.id (f s) = stage_id ->
  find (fun s => Z.eqb (Stage.id s) stage_id) (StageRepository.update_first stage_id f l)
  = Some (f s).
Proof.
  intros stage_id f l s; induction l as [|x l IH]; simpl; intros H Hid; [discriminate|].
  destruct (Z.eqb_spec (Stage.id x) stage_id) as [E|E].
  - injection H as ->. simpl. rewrite Hid, Z.eqb_refl. reflexivity.
  - simpl. destruct (Z.eqb_spec (Stage.id x) stage_id); [contradiction|]. now apply IH.
Qed.

(** One call of [create_version_entry] on an existing stage: the stage
    carries the bumped version, and the history grows by one entry that
    bears that version and the action. *)
Lemma create_version_entry_spec :
  forall d code_id stage_id user_id action_type old_data new_data metadata s,
  StageRepository.get_by_id d stage_id = Some s ->
  plain_metadata metadata ->
  let d' := fst (create_version_entry unified_diff d code_id stage_id user_id
                   action_type old_data new_data metadata) in
  let e := snd (create_version_entry unified_diff d code_id stage_id user_id
                   action_type old_data new_data metadata) in
  let v := increment_version_col (Stage.version_number s) action_type in
  (exists s', StageRepository.get_by_id d' stage_id = Some s'
              /\ Stage.version_number s' = Some v)
  /\ Db.version_history d' = (Db.version_history d ++ [e])%list
  /\ Db.generated_codes d' = Db.generated_codes d
  /\ VersionHistory.stage_id e = stage_id
  /\ VersionHistory.version_number e = v
  /\ entry_action e = PStr action_type.
Proof.
  intros d code_id stage_id user_id action_type old_data new_data metadata s Hs Hm.
  unfold create_version_entry. rewrite Hs. cbn zeta.
  unfold Db.utcnow, Db.with_stages. cbn [fst snd Db.projects Db.stages Db.generated_codes
    Db.version_history Db.next_code_id Db.next_version_id Db.clock].
  repeat split.
  - eexists. split.
    + unfold StageRepository.get_by_id. cbn [Db.stages].
      apply find_update_first; [exact Hs|].
      cbn [Stage.id].
      unfold StageRepository.get_by_id in Hs. apply find_some in Hs as [_ Hid].
      now apply Z.eqb_eq in Hid.
    + reflexivity.
  - unfold entry_action, dict_get. cbn [VersionHistory.version_metadata].
    rewrite dict_lookup_merge_absent.
    + reflexivity.
    + destruct metadata as [m|]; [exact Hm|reflexivity].
Qed.

Lemma stage_entries_snoc : forall d d' e stage_id,
  Db.version_history d' = (Db.version_history d ++ [e])%list ->
  VersionHistory.stage_id e = stage_id ->
  stage_entries d' stage_id = (stage_entries d stage_id ++ [e])%list.
Proof.
  intros d d' e stage_id H He. unfold stage_entries.
  rewrite H, filter_app. simpl. rewrite He, Z.eqb_refl. reflexivity.
Qed.

End LedgerFacts.

Section S5Versioning.
Import PyStr Py VersionHistoryService.

(** C5 (as stated, refuted).  On the sample stage at 1.0.0 the sequence
    [edit_logic], [validate], [edit_logic], [generate_code] does not end at
    1.2.1: [generate_code] zeroes the patch number. *)
Lemma s5_final_version_is_not_1_2_1 :
  get_latest_version
    (record_all Samples.no_diff Samples.one_stage_db 100 10 7 Samples.s5_calls) 10
  <> Some (Some "1.2.1").
Proof. vm_compute. discriminate. Qed.

(** C5 (amended).  For a stage at version 1.0.0, recording [edit_logic],
    [validate], [edit_logic], [generate_code] leaves the stage at version
    1.2.0; the ledger of the stage grows by exactly four entries, in that
    order, labelled with those actions and numbered 1.0.1, 1.1.0, 1.1.1, 1.2.0. *)
Theorem s5_ledger_after_four_actions :
  forall unified_diff d code_id stage_id user_id s c1 c2 c3 c4,
  StageRepository.get_by_id d stage_id = Some s ->
  Stage.version_number s = Some "1.0.0" ->
  map call_action [c1; c2; c3; c4]
    = ["edit_logic"; "validate"; "edit_logic"; "generate_code"] ->
  Forall (fun c => plain_metadata (call_metadata c)) [c1; c2; c3; c4] ->
  let d' := record_all unified_diff d code_id stage_id user_id [c1; c2; c3; c4] in
  get_latest_version d' stage_id = Some (Some "1.2.0")
  /\ exists e1 e2 e3 e4,
       stage_entries d' stage_id = (stage_entries d stage_id ++ [e1; e2; e3; e4])%list
       /\ map entry_action [e1; e2; e3; e4]
          = [PStr "edit_logic"; PStr "validate"; PStr "edit_logic"; PStr "generate_code"]
       /\ map VersionHistory.version_number [e1; e2; e3; e4]
          = ["1.0.1"; "1.1.0"; "1.1.1"; "1.2.0"].
Proof.
  intros ud d code_id stage_id user_id s c1 c2 c3 c4 Hs Hv Hact Hmeta.
  injection Hact as A1 A2 A3 A4.
  inversion Hmeta as [|? ? M1 Hm1]; subst.
  inversion Hm1 as [|? ? M2 Hm2]; subst.
  inversion Hm2 as [|? ? M3 Hm3]; subst.
  inversion Hm3 as [|? ? M4 _]; subst.
  unfold record_all. cbn [fold_left].
  destruct (create_version_entry_spec ud d code_id stage_id user_id
              (call_action c1) (call_old_data c1) (call_new_data c1) (call_metadata c1)
              s Hs M1) as ([s1 [Hs1 V1]] & H1 & _ & I1 & N1 & L1).
  set (d1 := fst (create_version_entry ud d code_id stage_id user_id (call_action c1)
                    (call_old_data c1) (call_new_data c1) (call_metadata c1))) in *.
  set (e1 := snd (create_version_entry ud d code_id stage_id user_id (call_action c1)
                    (call_old_data c1) (call_new_data c1) (call_metadata c1))) in *.
  clearbody d1 e1.
  destruct (create_version_entry_spec ud d1 code_id stage_id user_id
              (call_action c2) (call_old_data c2) (call_new_data c2) (call_metadata c2)
              s1 Hs1 M2) as ([s2 [Hs2 V2]] & H2 & _ & I2 & N2 & L2).
  set (d2 := fst (create_version_entry ud d1 code_id stage_id user_id (call_action c2)
                    (call_old_data c2) (call_new_data c2) (call_metadata c2))) in *.
  set (e2 := snd (create_version_entry ud d1 code_id stage_id user_id (call_action c2)
                    (call_old_data c2) (call_new_data c2) (call_metadata c2))) in *.
  clearbody d2 e2.
  destruct (create_version_entry_spec ud d2 code_id stage_id user_id
              (call_action c3) (call_old_data c3) (call_new_data c3) (call_metadata c3)
              s2 Hs2 M3) as ([s3 [Hs3 V3]] & H3 & _ & I3 & N3 & L3).
  set (d3 := fst (create_version_entry ud d2 code_id stage_id user_id (call_action c3)
                    (call_old_data c3) (call_new_data c3) (call_metadata c3))) in *.
  set (e3 := snd (create_version_entry ud d2 code_id stage_id user_id (call_action c3)
                    (call_old_data c3) (call_new_data c3) (call_metadata c3))) in *.
  clearbody d3 e3.
  destruct (create_version_entry_spec ud d3 code_id stage_id user_id
              (call_action c4) (call_old_data c4) (call_new_data c4) (call_metadata c4)
              s3 Hs3 M4) as ([s4 [Hs4 V4]] & H4 & _ & I4 & N4 & L4).
  set (d4 := fst (create_version_entry ud d3 code_id stage_id user_id (call_action c4)
                    (call_old_data c4) (call_new_data c4) (call_metadata c4))) in *.
  set (e4 := snd (create_version_entry ud d3 code_id stage_id user_id (call_action c4)
                    (call_old_data c4) (call_new_data c4) (call_metadata c4))) in *.
  clearbody d4 e4.
  (* the four versions *)
  rewrite Hv, A1 in V1, N1. cbn in V1, N1.
  rewrite V1, A2 in V2, N2. cbn in V2, N2.
  rewrite V2, A3 in V3, N3. cbn in V3, N3.
  rewrite V3, A4 in V4, N4. cbn in V4, N4.
  split.
  - unfold get_latest_version. rewrite Hs4. simpl. now rewrite V4.
  - exists e1, e2, e3, e4. repeat split.
    + rewrite (stage_entries_snoc d3 d4 e4 stage_id H4 I4).
      rewrite (stage_entries_snoc d2 d3 e3 stage_id H3 I3).
      rewrite (stage_entries_snoc d1 d2 e2 stage_id H2 I2).
      rewrite (stage_entries_snoc d d1 e1 stage_id H1 I1).
      rewrite <- !app_assoc. reflexivity.
    + cbn [map]. rewrite L1, L2, L3, L4, A1, A2, A3, A4. reflexivity.
    + cbn [map]. rewrite N1, N2, N3, N4. reflexivity.
Qed.

(** The theorem at the sample stage. *)
Lemma s5_ledger_after_four_actions_witness :
  get_latest_version
    (record_all Samples.no_diff Samples.one_stage_db 100 10 7 Samples.s5_calls) 10
  = Some (Some "1.2.0").
Proof.
  apply (s5_ledger_after_four_actions Samples.no_diff Samples.one_stage_db 100 10 7
           Samples.conveyor_stage _ _ _ _).
  - reflexivity.
  - reflexivity.
  - reflexivity.
  - repeat constructor.
Defined.

End S5Versioning.

(** ** The generation request *)

Section RequestFacts.
Import PyStr Py StructuredTextGenerator.

(** The value put under [CONTROL LOGIC:] for a stage row: the route always
    supplies the key ['original_logic'], so the default is never read. *)
Lemma control_logic_slot : forall stg,
  dict_get_default (CodeGenerationRoute.stage_data stg) "original_logic"
    (dict_get_default (CodeGenerationRoute.stage_data stg) "edited_logic" (PStr ""))
  = PStr (Stage.original_logic stg).
Proof. intros stg. reflexivity. Qed.

(** The request does not depend on the edited logic of the stage row. *)
Lemma generation_request_same_for_any_edit : forall stg edited_logic project_context,
  _build_generation_request
    (CodeGenerationRoute.stage_data (StageRepository.with_edited_logic stg edited_logic))
    project_context
  = _build_generation_request (CodeGenerationRoute.stage_data stg) project_context.
Proof. intros. reflexivity. Qed.

(** C6 (defect).  For a stage that has an edited logic, the request embeds
    the original logic and not the edited one: [stage.get('original_logic',
    ...)] reads the edited text only when the key is missing, and the route
    always supplies the key.  Whatever the edited logic of a stage row, the
    request is the one built for the row without it. *)
Theorem generation_request_ignores_edited_logic :
  (forall stg edited_logic project_context,
     _build_generation_request
       (CodeGenerationRoute.stage_data (StageRepository.with_edited_logic stg edited_logic))
       project_context
     = _build_generation_request
         (CodeGenerationRoute.stage_data (StageRepository.with_edited_logic stg None))
         project_context)
  /\ let stg := Samples.conveyor_stage in
     let request := _build_generation_request (CodeGenerationRoute.stage_data stg) None in
     Stage.edited_logic stg = Some "Run conveyor only while guard is closed"
     /\ Stage.original_logic stg = "Start conveyor on button"
     /\ contains "Run conveyor only while guard is closed" request = false
     /\ contains "Start conveyor on button" request = true.
Proof.
  split.
  - intros. now rewrite !generation_request_same_for_any_edit.
  - vm_compute. repeat split.
Qed.

End RequestFacts.

(** ** Input validation *)

Section InputFacts.
Import PyStr Py.

(** The planner's own check accepts a text iff it is not blank and has at
    least 50 words: there is no upper bound. *)
Lemma planner_validate_input_accepts : forall control_logic,
  py_truthy (dict_get (PlannerOrchestrator._validate_input control_logic) "valid")
  = truthy control_logic && truthy (strip control_logic)
    && Z.leb 50 (InputValidator.word_count control_logic).
Proof.
  intros t. unfold PlannerOrchestrator._validate_input, InputValidator.word_count.
  destruct (truthy t); simpl; [|reflexivity].
  destruct (truthy (strip t)); simpl; [|reflexivity].
  destruct (Z.ltb_spec (Z.of_nat (List.length (split_ws t))) 50);
    destruct (Z.leb_spec 50 (Z.of_nat (List.length (split_ws t)))); try lia; reflexivity.
Qed.

(** [InputValidator.validate] accepts a text iff it is not blank and its
    word count lies in [50, 5000]. *)
Lemma input_validator_accepts : forall text,
  py_truthy (dict_get (InputValidator.validate text) "valid")
  = truthy text && truthy (strip text)
    && Z.leb 50 (InputValidator.word_count text)
    && Z.leb (InputValidator.word_count text) 5000.
Proof.
  intros t. unfold InputValidator.validate,
    InputValidator.min_word_count, InputValidator.max_word_count.
  destruct (truthy t); simpl; [|reflexivity].
  destruct (truthy (strip t)); simpl; [|reflexivity].
  destruct (Z.ltb_spec (InputValidator.word_count t) 50);
    destruct (Z.leb_spec 50 (InputValidator.word_count t)); try lia; simpl; try reflexivity.
  destruct (Z.gtb_spec (InputValidator.word_count t) 5000);
    destruct (Z.leb_spec (InputValidator.word_count t) 5000); try lia; reflexivity.
Qed.

(** C8 (defect).  The input check of [create_plan] accepts every text that
    is not blank and has at least 50 words: it has no upper bound.  A
    control logic of 5001 words passes it, whatever the segregator returns,
    while the input validator of the upload route rejects the same text as
    too long. *)
Theorem create_plan_accepts_5001_words :
  (forall control_logic,
     py_truthy (dict_get (PlannerOrchestrator._validate_input control_logic) "valid")
     = truthy control_logic && truthy (strip control_logic)
       && Z.leb 50 (InputValidator.word_count control_logic))
  /\ InputValidator.word_count Samples.long_logic = 5001%Z
  /\ py_truthy (dict_get (PlannerOrchestrator._validate_input Samples.long_logic) "valid") = true
  /\ (forall segregate, exists stages deps dv tg n,
        PlannerOrchestrator.create_plan segregate Samples.long_logic
        = PlannerOrchestrator.PlanSuccess stages deps dv tg n)
  /\ py_truthy (dict_get (InputValidator.validate Samples.long_logic) "valid") = false.
Proof.
  assert (W : InputValidator.word_count Samples.long_logic = 5001%Z)
    by (vm_compute; reflexivity).
  assert (V : PlannerOrchestrator._validate_input Samples.long_logic = [("valid", PBool true)])
    by (vm_compute; reflexivity).
  split; [exact planner_validate_input_accepts|].
  split; [exact W|].
  split; [rewrite V; reflexivity|].
  split.
  - intros segregate. unfold PlannerOrchestrator.create_plan. rewrite V.
    change (py_truthy (dict_get [("valid", PBool true)] "valid")) with true.
    cbn [negb].
    destruct (segregate Samples.long_logic) as [stages deps].
    do 5 eexists. reflexivity.
  - vm_compute. reflexivity.
Qed.

End InputFacts.

(** ** Dependency validation *)

Section DependencyFacts.
Import PyStr Py DependencyMapper.

Lemma in_numbers_In : forall n l, in_numbers n l = true <-> In n l.
Proof.
  intros n l. unfold in_numbers. rewrite existsb_exists. split.
  - intros [x [Hx E]]. apply Z.eqb_eq in E. now subst.
  - intros H. exists n. split; [exact H | apply Z.eqb_refl].
Qed.

(** [valid] holds iff both endpoints of every dependency are stage numbers. *)
Lemma validate_dependencies_valid : forall stages dependencies,
  valid (validate_dependencies stages dependencies) = true
  <-> forall dep, In dep dependencies ->
        In (from_stage dep) (map stage_number stages)
        /\ In (to_stage dep) (map stage_number stages).
Proof.
  intros stages deps. unfold validate_dependencies. cbn [valid].
  rewrite Nat.eqb_eq, length_zero_iff_nil.
  induction deps as [|dep deps IH]; simpl.
  - split; [intros _ ? []|reflexivity].
  - split.
    + intros H. apply app_eq_nil in H as [Hd Hr].
      unfold dep_errors in Hd. apply app_eq_nil in Hd as [Hf Ht].
      intros dep' [<-|Hin].
      * split; apply in_numbers_In.
        -- destruct (in_numbers (from_stage dep) _); [reflexivity|discriminate].
        -- destruct (in_numbers (to_stage dep) _); [reflexivity|discriminate].
      * now apply IH.
    + intros H.
      destruct (H dep (or_introl eq_refl)) as [Hf Ht].
      apply in_numbers_In in Hf, Ht. unfold dep_errors. rewrite Hf, Ht. simpl.
      apply IH. intros dep' Hin. apply H. now right.
Qed.

(** Every dependency with [from_stage >= to_stage] gets its warning. *)
Lemma validate_dependencies_backwards : forall stages dependencies dep,
  In dep dependencies -> (from_stage dep >= to_stage dep)%Z ->
  In (backwards_warning (from_stage dep) (to_stage dep))
     (warnings (validate_dependencies stages dependencies)).
Proof.
  intros stages deps dep Hin Hge. unfold validate_dependencies. cbn [warnings].
  apply in_or_app. left. apply in_flat_map. exists dep. split; [exact Hin|].
  unfold dep_warnings. destruct (Z.geb_spec (from_stage dep) (to_stage dep)); [now left|lia].
Qed.

Lemma reach_step_sound : forall deps seen,
  (forall n, In n seen -> path deps 0%Z n) ->
  forall todo, incl todo deps ->
  forall n, In n (fold_left reach_step todo seen) -> path deps 0%Z n.
Proof.
  intros deps seen Hseen todo. revert seen Hseen.
  induction todo as [|dep todo IH]; intros seen Hseen Hincl n Hn; simpl in Hn.
  - now apply Hseen.
  - apply (IH (reach_step seen dep)); [|intros x Hx; apply Hincl; now right|exact Hn].
    intros m Hm. unfold reach_step in Hm.
    destruct (in_numbers (from_stage dep) seen) eqn:E; [|now apply Hseen].
    destruct Hm as [<-|Hm]; [|now apply Hseen].
    apply path_next; [apply Hseen; now apply in_numbers_In|apply Hincl; now left].
Qed.

(** What the single pass marks reachable is reachable in the graph. *)
Lemma reachable_stages_sound : forall dependencies n,
  In n (reachable_stages dependencies) -> path dependencies 0%Z n.
Proof.
  intros deps n. unfold reachable_stages.
  apply reach_step_sound; [|apply incl_refl].
  intros m [<-|[]]. constructor.
Qed.

(** So every stage other than 0 that no path reaches is warned about. *)
Lemma validate_dependencies_warns_unreachable : forall stages dependencies s,
  In s stages -> stage_number s <> 0%Z ->
  ~ path dependencies 0%Z (stage_number s) ->
  In (unreachable_warning (stage_number s))
     (warnings (validate_dependencies stages dependencies)).
Proof.
  intros stages deps s Hin Hz Hp. unfold validate_dependencies. cbn [warnings].
  apply in_or_app. right. apply in_map. apply filter_In. split.
  - now apply in_map.
  - unfold flagged. apply andb_true_iff. split; apply negb_true_iff.
    + destruct (in_numbers (stage_number s) (reachable_stages deps)) eqn:E; [|reflexivity].
      exfalso. apply Hp. apply reachable_stages_sound. now apply in_numbers_In.
    + now apply Z.eqb_neq.
Qed.

(** C9 (defect).  With the transitions listed as 1 -> 2, 0 -> 1, stage 2 is
    reachable from stage 0 through stage 1, yet the validator warns that it
    may be unreachable: the reachable set is grown in one pass over the
    list, so an edge listed before the edge that reaches its source is lost. *)
Theorem reachable_stage_flagged_unreachable :
  path Samples.plan_dependencies 0%Z 2%Z
  /\ warnings (validate_dependencies Samples.plan_stages Samples.plan_dependencies)
     = [unreachable_warning 2]
  /\ unreachable_warning 2 = "Stage 2 may be unreachable".
Proof.
  split; [|split; reflexivity].
  apply (path_next Samples.plan_dependencies 0%Z (mkDependency 1 2 "safety ok")).
  - apply (path_next Samples.plan_dependencies 0%Z (mkDependency 0 1 "start")).
    + constructor.
    + right; left; reflexivity.
  - left; reflexivity.
Qed.

End DependencyFacts.

(** ** Global-label merge *)

Section MergeFacts.
Import PyStr Artifacts GlobalLabelsService.

Lemma mem_In : forall x l, mem x l = true <-> In x l.
Proof.
  intros x l. unfold mem. rewrite existsb_exists. split.
  - intros [y [Hy E]]. apply String.eqb_eq in E. now subst.
  - intros H. exists x. split; [exact H | apply String.eqb_refl].
Qed.

Lemma mem_ext : forall x l l',
  (forall s, In s l <-> In s l') -> mem x l = mem x l'.
Proof.
  intros x l l' H. apply eq_true_iff_eq. rewrite !mem_In. apply H.
Qed.

Lemma mem_devices_of : forall s M,
  mem s (devices_of M) = existsb (fun x => truthy (device x) && String.eqb s (device x)) M.
Proof.
  intros s M. unfold devices_of. induction M as [|x M IH]; simpl; [reflexivity|].
  destruct (truthy (device x)); simpl; [|exact IH].
  unfold mem in *. simpl. now rewrite IH.
Qed.

Lemma mem_names_of : forall s M,
  mem s (names_of M) = existsb (fun x => truthy (name x) && String.eqb s (name x)) M.
Proof.
  intros s M. unfold names_of. induction M as [|x M IH]; simpl; [reflexivity|].
  destruct (truthy (name x)); simpl; [|exact IH].
  unfold mem in *. simpl. now rewrite IH.
Qed.

Lemma existsb_orb : forall (A : Type) (f g : A -> bool) l,
  existsb (fun x => f x || g x) l = existsb f l || existsb g l.
Proof.
  intros A f g l. induction l as [|x l IH]; simpl; [reflexivity|].
  rewrite IH. destruct (f x), (g x), (existsb f l), (existsb g l); reflexivity.
Qed.

Lemma accepts_synced : forall st b,
  synced st ->
  accepts st b = truthy (identifier b) && negb (existsb (hits b) (merged st)).
Proof.
  intros st b [Hd Hn]. unfold accepts.
  rewrite (mem_ext _ _ _ Hd), (mem_ext _ _ _ Hn).
  rewrite mem_devices_of, mem_names_of.
  unfold hits. rewrite existsb_orb, negb_orb, andb_assoc. reflexivity.
Qed.

Lemma devices_of_snoc : forall M b,
  devices_of (M ++ [b]) = (devices_of M ++ if truthy (device b) then [device b] else [])%list.
Proof.
  intros. unfold devices_of. rewrite filter_app, map_app. simpl.
  destruct (truthy (device b)); reflexivity.
Qed.

Lemma names_of_snoc : forall M b,
  names_of (M ++ [b]) = (names_of M ++ if truthy (name b) then [name b] else [])%list.
Proof.
  intros. unfold names_of. rewrite filter_app, map_app. simpl.
  destruct (truthy (name b)); reflexivity.
Qed.

Lemma merge_step_synced : forall st b, synced st -> synced (merge_step st b).
Proof.
  intros st b [Hd Hn]. unfold merge_step.
  destruct (accepts st b); [|now split].
  split; intros s; cbn [merged existing_devices existing_names].
  - rewrite devices_of_snoc, in_app_iff, <- Hd.
    destruct (truthy (device b)); simpl; tauto.
  - rewrite names_of_snoc, in_app_iff, <- Hn.
    destruct (truthy (name b)); simpl; tauto.
Qed.

Lemma fold_merge_step : forall new_labels st,
  synced st ->
  merged (fold_left merge_step new_labels st) = merge_list (merged st) new_labels.
Proof.
  induction new_labels as [|b rest IH]; intros st Hs; simpl; [reflexivity|].
  rewrite (IH _ (merge_step_synced st b Hs)).
  unfold merge_step. rewrite (accepts_synced st b Hs).
  destruct (truthy (identifier b) && negb (existsb (hits b) (merged st))); reflexivity.
Qed.

(** [merge_global_labels] is the loop on the list. *)
Lemma merge_global_labels_list : forall existing_labels new_labels,
  merge_global_labels existing_labels new_labels = merge_list existing_labels new_labels.
Proof.
  intros A B. unfold merge_global_labels.
  rewrite fold_merge_step; [reflexivity|]. split; intros s; reflexivity.
Qed.

Lemma hits_self : forall b, truthy (identifier b) = true -> hits b b = true.
Proof.
  intros b. unfold hits, identifier.
  destruct (truthy (device b)) eqn:D; simpl.
  - intros _. now rewrite String.eqb_refl.
  - intros N. now rewrite N, String.eqb_refl.
Qed.

(** The merge only appends. *)
Lemma merge_list_extends : forall B M, exists suffix,
  merge_list M B = (M ++ suffix)%list /\ incl suffix B.
Proof.
  induction B as [|b B IH]; intros M; simpl.
  - exists []. split; [now rewrite app_nil_r | apply incl_refl].
  - destruct (truthy (identifier b) && negb (existsb (hits b) M)).
    + destruct (IH (M ++ [b])%list) as [suf [E I]].
      exists (b :: suf). split.
      * rewrite E, <- app_assoc. reflexivity.
      * intros x [<-|Hx]; [now left | right; now apply I].
    + destruct (IH M) as [suf [E I]].
      exists suf. split; [exact E | intros x Hx; right; now apply I].
Qed.

Lemma existsb_app_l : forall (A : Type) (f : A -> bool) l l',
  existsb f l = true -> existsb f (l ++ l') = true.
Proof. intros. rewrite existsb_app, H. reflexivity. Qed.

(** After the merge every new label that has an identifier is kept out by
    some label of the result. *)
Lemma merge_list_covers : forall B M b,
  In b B -> truthy (identifier b) = true ->
  existsb (hits b) (merge_list M B) = true.
Proof.
  induction B as [|b0 B IH]; intros M b Hin Ht; simpl; [destruct Hin|].
  destruct Hin as [->|Hin]; [|now apply IH].
  rewrite Ht. simpl.
  destruct (existsb (hits b) M) eqn:E; simpl.
  - destruct (merge_list_extends B M) as [suf [-> _]]. now apply existsb_app_l.
  - destruct (merge_list_extends B (M ++ [b])%list) as [suf [-> _]].
    apply existsb_app_l. rewrite existsb_app. simpl.
    rewrite (hits_self b Ht). now rewrite orb_true_r.
Qed.

(** Labels that are all kept out leave the list as it is. *)
Lemma merge_list_fixed : forall B M,
  (forall b, In b B -> truthy (identifier b) = true -> existsb (hits b) M = true) ->
  merge_list M B = M.
Proof.
  induction B as [|b B IH]; intros M H; simpl; [reflexivity|].
  destruct (truthy (identifier b)) eqn:T; simpl.
  - rewrite (H b (or_introl eq_refl) T). simpl. apply IH.
    intros b' Hb'. apply H. now right.
  - apply IH. intros b' Hb'. apply H. now right.
Qed.

(** Merging the same labels a second time changes nothing. *)
Lemma merge_idempotent : forall A B,
  merge_global_labels (merge_global_labels A B) B = merge_global_labels A B.
Proof.
  intros A B. rewrite !merge_global_labels_list.
  apply merge_list_fixed. intros b Hb Ht. now apply merge_list_covers.
Qed.

Section Universe.

(** A set of labels in which keeping out means being the same label. *)
Variable U : list Label.
Hypothesis U_identified : forall l, In l U -> truthy (identifier l) = true.
Hypothesis U_consistent : forall l1 l2, In l1 U -> In l2 U -> hits l1 l2 = true -> l1 = l2.

Lemma kept_out_iff_member : forall M b,
  incl M U -> In b U -> (existsb (hits b) M = true <-> In b M).
Proof.
  intros M b HM Hb. rewrite existsb_exists. split.
  - intros [x [Hx Hh]]. rewrite (U_consistent b x Hb (HM x Hx) Hh). exact Hx.
  - intros Hin. exists b. split; [exact Hin | apply hits_self; now apply U_identified].
Qed.

Lemma merge_list_as_set : forall B M,
  incl B U -> incl M U -> NoDup M ->
  NoDup (merge_list M B)
  /\ forall x, In x (merge_list M B) <-> In x M \/ In x B.
Proof.
  induction B as [|b B IH]; intros M HB HM HN; simpl.
  - split; [exact HN | intros x; tauto].
  - assert (Hb : In b U) by (apply HB; now left).
    assert (HB' : incl B U) by (intros x Hx; apply HB; now right).
    rewrite (U_identified b Hb). simpl.
    destruct (existsb (hits b) M) eqn:E; simpl.
    + apply (kept_out_iff_member M b HM Hb) in E.
      destruct (IH M HB' HM HN) as [N I]. split; [exact N|].
      intros x. rewrite I. split; [tauto|].
      intros [H|[<-|H]]; tauto.
    + assert (Hn : ~ In b M).
      { intros Hin. apply (kept_out_iff_member M b HM Hb) in Hin. congruence. }
      destruct (IH (M ++ [b])%list HB') as [N I].
      * intros x Hx. apply in_app_iff in Hx as [Hx|[<-|[]]]; [now apply HM | exact Hb].
      * apply NoDup_app; [exact HN | repeat constructor; intros [] |].
        intros x Hx [<-|[]]. contradiction.
      * split; [exact N|]. intros x. rewrite I, in_app_iff. simpl. tauto.
Qed.

End Universe.

(** C7 (as stated, refuted).  Two labels with different names and different
    devices share no device, and merging them in the two orders gives two
    different lists. *)
Lemma merge_is_not_commutative :
  device_collision [Samples.start_button] [Samples.sensor1] = false
  /\ merge_global_labels [Samples.start_button] [Samples.sensor1]
     <> merge_global_labels [Samples.sensor1] [Samples.start_button].
Proof. split; [reflexivity | vm_compute; discriminate]. Qed.

(** C7 (amended).  The merge is idempotent: merging [B] into the merge of
    [A] and [B] changes nothing.  It is commutative up to the order of the
    result: when [A] and [B] are compatible, the merge of [A] and [B] and
    the merge of [B] and [A] hold the same labels, each with the labels of
    its first argument first. *)
Theorem merge_idempotent_and_commutative_up_to_order : forall A B,
  merge_global_labels (merge_global_labels A B) B = merge_global_labels A B
  /\ (compatible A B ->
      Permutation (merge_global_labels A B) (merge_global_labels B A)
      /\ firstn (List.length A) (merge_global_labels A B) = A
      /\ firstn (List.length B) (merge_global_labels B A) = B).
Proof.
  intros A B. split; [apply merge_idempotent|].
  intros (NA & NB & Hid & Hcons).
  rewrite !merge_global_labels_list.
  destruct (merge_list_as_set (A ++ B) Hid Hcons B A) as [N1 I1];
    [apply incl_appr, incl_refl | apply incl_appl, incl_refl | exact NA |].
  destruct (merge_list_as_set (A ++ B) Hid Hcons A B) as [N2 I2];
    [apply incl_appl, incl_refl | apply incl_appr, incl_refl | exact NB |].
  split; [|split].
  - apply NoDup_Permutation; [exact N1 | exact N2 |].
    intros x. rewrite I1, I2. tauto.
  - destruct (merge_list_extends B A) as [suf [-> _]].
    rewrite firstn_app, Nat.sub_diag, firstn_all. simpl. apply app_nil_r.
  - destruct (merge_list_extends A B) as [suf [-> _]].
    rewrite firstn_app, Nat.sub_diag, firstn_all. simpl. apply app_nil_r.
Qed.

(** The theorem at scenario S4: stage A emits the start button, stage B the
    start button and a sensor. *)
Lemma merge_idempotent_and_commutative_up_to_order_witness :
  compatible [Samples.start_button] [Samples.start_button; Samples.sensor1]
  /\ Permutation
       (merge_global_labels [Samples.start_button] [Samples.start_button; Samples.sensor1])
       (merge_global_labels [Samples.start_button; Samples.sensor1] [Samples.start_button]).
Proof.
  assert (C : compatible [Samples.start_button] [Samples.start_button; Samples.sensor1]).
  { repeat split.
    - repeat constructor; simpl; tauto.
    - repeat constructor; simpl; intuition discriminate.
    - intros l H; simpl in H; intuition (subst; reflexivity).
    - intros l1 l2 H1 H2; simpl in H1, H2;
        intuition (subst; try reflexivity; discriminate). }
  split; [exact C|].
  exact (proj1 (proj2 (merge_idempotent_and_commutative_up_to_order
                         [Samples.start_button]
                         [Samples.start_button; Samples.sensor1]) C)).
Defined.

End MergeFacts.

(** ** The generate-all-stages route *)

Section RouteFacts.
Import PyStr Py Artifacts CodeGenerationRoute.

Variable st_generate_code : dict -> Outcome G.GenResult.
Variable unified_diff : string -> string -> string.

(** A failure on any stage makes the first loop raise. *)
Lemma generate_all_raises : forall all_stages stg,
  In stg all_stages ->
  generation_failed (st_generate_code (stage_data stg)) ->
  exists e, generate_all st_generate_code all_stages = Raised e.
Proof.
  induction all_stages as [|s rest IH]; intros stg Hin Hf; [destruct Hin|].
  simpl. destruct Hin as [->|Hin].
  - destruct (st_generate_code (stage_data stg)) as [r|e]; simpl in Hf.
    + rewrite Hf. eauto.
    + eauto.
  - destruct (st_generate_code (stage_data s)) as [r|e]; [|eauto].
    destruct (G.success r); [|eauto].
    destruct (IH stg Hin Hf) as [e ->]. eauto.
Qed.

(** When the first loop returns, it has a result for every stage, in order. *)
Lemma generate_all_results : forall all_stages generated_results all_global_labels,
  generate_all st_generate_code all_stages = Returned (generated_results, all_global_labels) ->
  map fst generated_results = all_stages.
Proof.
  induction all_stages as [|s rest IH]; intros res labels H; simpl in H.
  - injection H as <- <-. reflexivity.
  - destruct (st_generate_code (stage_data s)) as [r|e]; [|discriminate].
    destruct (G.success r); [|discriminate].
    destruct (generate_all st_generate_code rest) as [[res' labels']|e]; [|discriminate].
    injection H as <- <-. simpl. f_equal. now apply (IH res' labels').
Qed.

(** C2.  If the generation of any stage of the project fails (the generator
    raises or returns an unsuccessful result), the route leaves the database
    as it was: no [GeneratedCode] row is deleted, created or modified, and
    the caller gets an [HTTPException]. *)
Theorem failed_generation_leaves_codes_untouched :
  forall d request_stage_id current_user_id stage stg,
  StageRepository.get_by_id d request_stage_id = Some stage ->
  In stg (StageRepository.get_by_project d (Stage.project_id stage)) ->
  generation_failed (st_generate_code (stage_data stg)) ->
  let r := generate_code st_generate_code unified_diff d request_stage_id current_user_id in
  Db.generated_codes (fst r) = Db.generated_codes d
  /\ fst r = d
  /\ exists status_code detail, snd r = HTTPException status_code detail.
Proof.
  intros d sid uid stage stg Hs Hin Hf. unfold generate_code. rewrite Hs.
  destruct (negb _); [simpl; eauto|].
  destruct (filter _ _); [|simpl; eauto].
  destruct (generate_all_raises _ stg Hin Hf) as [e ->]. simpl; eauto.
Qed.

Lemma update_first_keys : forall sid f l,
  (forall s, stage_key (f s) = stage_key s) ->
  map stage_key (StageRepository.update_first sid f l) = map stage_key l.
Proof.
  intros sid f l Hf; induction l as [|x l IH]; simpl; [reflexivity|].
  destruct (Z.eqb (Stage.id x) sid); simpl; [now rewrite Hf | now rewrite IH].
Qed.

(** A version entry touches neither the code rows nor the keys of the stages. *)
Lemma create_version_entry_frame :
  forall d code_id sid user_id action_type old_data new_data meta,
  let d' := fst (VersionHistoryService.create_version_entry unified_diff d code_id sid
                   user_id action_type old_data new_data meta) in
  Db.generated_codes d' = Db.generated_codes d
  /\ map stage_key (Db.stages d') = map stage_key (Db.stages d).
Proof.
  intros. unfold d', VersionHistoryService.create_version_entry.
  destruct (StageRepository.get_by_id d sid); cbn; split; try reflexivity.
  now apply update_first_keys.
Qed.

(** What [save_stage] does to the code rows: the rows of the stage go, one
    row of the stage with the unified labels comes. *)
Lemma save_stage_codes : forall user_id merged_global_labels d stg result,
  exists c,
    Db.generated_codes (save_stage unified_diff user_id merged_global_labels d (stg, result))
    = (filter (fun c => negb (CodeRepository.of_stage (Stage.id stg) c)) (Db.generated_codes d)
       ++ [c])%list
    /\ CodeRepository.of_stage (Stage.id stg) c = true
    /\ GeneratedCode.global_labels c = merged_global_labels.
Proof.
  intros. unfold save_stage, CodeRepository.create. cbn [Db.utcnow]. cbv zeta.
  eexists. split; [|split].
  - match goal with |- context [fst (VersionHistoryService.create_version_entry ?u ?x ?a ?b ?c ?e ?f ?g ?h)] =>
      rewrite (proj1 (create_version_entry_frame x a b c e f g h)) end.
    cbn. reflexivity.
  - unfold CodeRepository.of_stage. cbn. apply Z.eqb_refl.
  - reflexivity.
Qed.


Lemma of_stage_other : forall i j c,
  CodeRepository.of_stage i c = true -> i <> j -> CodeRepository.of_stage j c = false.
Proof.
  intros i j c. unfold CodeRepository.of_stage.
  destruct (GeneratedCode.stage_id c) as [k|]; [|discriminate].
  intros H Hne. apply Z.eqb_eq in H. subst. now apply Z.eqb_neq.
Qed.









End RouteFacts.

Section RouteWitnesses.
Import PyStr Py Artifacts CodeGenerationRoute Samples.

(** C2 at the sample project: the generator fails on the safety stage. *)
Lemma failed_generation_leaves_codes_untouched_witness :
  Db.generated_codes
    (fst (generate_code failing_generator no_diff two_stage_db 11 7))
  = [old_idle_code; old_safety_code].
Proof.
  refine (proj1 (failed_generation_leaves_codes_untouched failing_generator no_diff
                   two_stage_db 11 7 idle_stage safety_stage _ _ _)).
  - reflexivity.
  - right; left; reflexivity.
  - exact I.
Defined.



End RouteWitnesses.

(** ** Code parser *)

Section ParserFacts.
Import PyStr Py Artifacts Re StructuredTextGenerator.

Lemma truthy_nonempty : forall s, truthy s = true -> s <> EmptyString.
Proof. intros [|c s] H; [discriminate H | discriminate]. Qed.

(** A block parser that answers has put a non-empty name in the block. *)
Lemma parse_program_block_named : forall block_text b,
  _parse_program_block block_text = Some b -> pb_name b <> EmptyString.
Proof.
  intros t b. unfold _parse_program_block. cbn [pb_name].
  destruct (truthy (field "Program Name:" "" t)) eqn:E; [|discriminate].
  intros [= <-]. cbn [pb_name]. now apply truthy_nonempty.
Qed.

Lemma parse_function_named : forall func_text f,
  _parse_function func_text = Some f -> fn_name f <> EmptyString.
Proof.
  intros t f. unfold _parse_function. cbn [fn_name].
  destruct (truthy (field "Function Name:" "" t)) eqn:E; [|discriminate].
  intros [= <-]. cbn [fn_name]. now apply truthy_nonempty.
Qed.

Lemma parse_function_block_named : forall fb_text b,
  _parse_function_block fb_text = Some b -> fb_name b <> EmptyString.
Proof.
  intros t b. unfold _parse_function_block. cbn [fb_name].
  destruct (truthy (field "Function Block Name:" "" t)) eqn:E; [|discriminate].
  intros [= <-]. cbn [fb_name]. now apply truthy_nonempty.
Qed.

(** The blocks collected from the matches are blocks a parser answered. *)
Lemma parse_matches_Forall : forall (A : Type) (parse : string -> option A)
    (P : A -> Prop) pattern code_text,
  (forall t b, parse t = Some b -> P b) ->
  Forall P (parse_matches parse pattern code_text).
Proof.
  intros A parse P pattern code_text H. unfold parse_matches.
  apply Forall_forall. intros b Hb.
  apply in_flat_map in Hb as [m [_ Hm]].
  destruct (parse (group m)) as [b'|] eqn:E; [|destruct Hm].
  destruct Hm as [<-|[]]. now apply (H (group m)).
Qed.

(** A literal matches only where the subject starts with it, case ignored. *)
Lemma run_lit_starts : forall s k before after cap x,
  run (lit s) k (before, after) cap = Some x ->
  starts_nocase (list_ascii_of_string s) after = true.
Proof.
  induction s as [|c s IH]; intros k before after cap x H; [reflexivity|].
  simpl in H. destruct after as [|a after]; [discriminate|].
  simpl. destruct (eq_nocase c a); [|discriminate].
  simpl. exact (IH _ _ _ _ _ H).
Qed.

Lemma lower_char_idem : forall c, lower_char (lower_char c) = lower_char c.
Proof.
  intros c. unfold lower_char at 2 3.
  destruct (Nat.leb 65 (nat_of_ascii c) && Nat.leb (nat_of_ascii c) 90) eqn:E.
  - apply andb_true_iff in E as [E1 E2].
    apply Nat.leb_le in E1, E2.
    unfold lower_char. rewrite nat_ascii_embedding by lia.
    destruct (Nat.leb_spec (nat_of_ascii c + 32) 90); [lia|].
    now rewrite andb_false_r.
  - unfold lower_char. now rewrite E.
Qed.

Lemma starts_nocase_prefix : forall s t,
  starts_nocase (list_ascii_of_string s) (list_ascii_of_string t) = true ->
  String.prefix (lower (lower s)) (lower t) = true.
Proof.
  induction s as [|a s IH]; intros t H; [destruct t; reflexivity|].
  destruct t as [|b t]; [discriminate|].
  simpl in H. apply andb_true_iff in H as [Hab Hst].
  unfold eq_nocase in Hab. apply Ascii.eqb_eq in Hab.
  simpl. rewrite lower_char_idem, Hab.
  destruct (ascii_dec (lower_char b) (lower_char b)); [|contradiction].
  now apply IH.
Qed.

Lemma search_from_lit : forall s rest after before m,
  search_from (Seq (lit s) rest) before after = Some m ->
  contains (lower (lower s)) (lower (string_of_list_ascii after)) = true.
Proof.
  intros s rest. induction after as [|a after IH]; intros before m H.
  - simpl in H. destruct (run (lit s) _ (before, []) None) as [[q c]|] eqn:R; [|discriminate].
    apply run_lit_starts in R.
    apply (starts_nocase_prefix s EmptyString) in R.
    cbn [string_of_list_ascii lower]. cbn [lower] in R.
    unfold contains. now rewrite R.
  - simpl in H. cbn [string_of_list_ascii lower contains].
    destruct (run (lit s) _ (before, a :: after) None) as [[q c]|] eqn:R.
    + apply run_lit_starts in R.
      assert (R' : starts_nocase (list_ascii_of_string s)
                     (list_ascii_of_string (String a (string_of_list_ascii after))) = true).
      { simpl. now rewrite list_ascii_of_string_of_list_ascii. }
      apply starts_nocase_prefix in R'. cbn [lower] in R'. now rewrite R'.
    + rewrite (IH _ _ H). apply orb_true_r.
Qed.

(** A field whose label does not occur in the block, case ignored, takes
    its default value. *)
Lemma field_absent : forall label default block_text,
  contains (lower (lower label)) (lower block_text) = false ->
  field label default block_text = default.
Proof.
  intros label default t H. unfold field, search, field_pattern.
  destruct (search_from _ [] (list_ascii_of_string t)) as [m|] eqn:S; [|reflexivity].
  apply search_from_lit in S.
  rewrite string_of_list_ascii_of_string in S. congruence.
Qed.

(** C10 (defect).  Every block the code parser returns has a non-empty
    name, and a block of ASCII text in which the name label occurs nowhere
    makes its parser answer nothing.  But the name is searched in the whole
    block, not in its metadata: the block [sheet_block] has no
    [Program Name:] line in its metadata and mentions the label in a comment
    of its code, and the parser returns it, named after the rest of that
    comment line, where the claim has it left out. *)
Theorem nameless_block_named_from_its_code :
  (forall code_text,
     Forall (fun b => pb_name b <> EmptyString)
            (program_blocks (_parse_generated_code code_text))
     /\ Forall (fun f => fn_name f <> EmptyString)
               (functions (_parse_generated_code code_text))
     /\ Forall (fun b => fb_name b <> EmptyString)
               (function_blocks (_parse_generated_code code_text)))
  /\ (forall block_text,
        is_ascii block_text = true ->
        contains "program name:" (lower block_text) = false ->
        _parse_program_block block_text = None)
  /\ Forall (fun line => contains "program name:" (lower line) = false)
            MoreSamples.sheet_block_metadata
  /\ (exists b,
        _parse_program_block MoreSamples.sheet_block = Some b
        /\ pb_name b = "see the project sheet"
        /\ pb_code b = "// Program Name: see the project sheet" ++ nl
                       ++ "Motor_Run := Run_Request;")
  /\ map pb_name (program_blocks (_parse_generated_code MoreSamples.sheet_document))
     = ["see the project sheet"].
Proof.
  split; [|split; [|split; [|split]]].
  - intros code_text.
    assert (HP : Forall (fun b => pb_name b <> EmptyString)
                   (parse_matches _parse_program_block program_pattern code_text))
      by (apply parse_matches_Forall, parse_program_block_named).
    assert (HF : Forall (fun f => fn_name f <> EmptyString)
                   (parse_matches _parse_function function_pattern code_text))
      by (apply parse_matches_Forall, parse_function_named).
    assert (HB : Forall (fun b => fb_name b <> EmptyString)
                   (parse_matches _parse_function_block fb_pattern code_text))
      by (apply parse_matches_Forall, parse_function_block_named).
    unfold _parse_generated_code.
    destruct (parse_matches _parse_program_block program_pattern code_text);
      repeat split; assumption.
  - intros t _ H. unfold _parse_program_block. cbn [pb_name].
    now rewrite (field_absent "Program Name:" "" t H).
  - vm_compute. repeat constructor.
  - eexists. split; [vm_compute; reflexivity|]. split; vm_compute; reflexivity.
  - vm_compute. reflexivity.
Qed.

End ParserFacts.

Section ParserExamples.
Import PyStr Py Artifacts Re StructuredTextGenerator Samples.

(** The sample reply: of the three program blocks only the named one is
    returned, and the function is cut short at its [Function Name:] line,
    where the look-ahead of the function pattern already sees a [FUNCTION]. *)
Example sample_document_blocks :
  map pb_name (program_blocks (_parse_generated_code generated_document)) = ["Conveyor_Main"]
  /\ functions (_parse_generated_code generated_document) = []
  /\ map name (global_labels (_parse_generated_code generated_document))
     = ["Start_Button"; "Motor_Run"].
Proof. vm_compute. repeat split. Qed.

End ParserExamples.

Section UnifyFacts.
Import PyStr Py Artifacts GlobalLabelsService.

(** [update_all_stages_with_global_labels] leaves the given list in every
    row of the project that belongs to a stage. *)
Lemma update_all_stages_unifies : forall d project_id labels c,
  In c (Db.generated_codes (fst (update_all_stages_with_global_labels d project_id labels))) ->
  GeneratedCode.project_id c = project_id ->
  GeneratedCode.stage_id c <> None ->
  GeneratedCode.global_labels c = labels.
Proof.
  intros d pid labels c Hin Hp Hs.
  unfold update_all_stages_with_global_labels in Hin. cbn in Hin.
  apply in_map_iff in Hin as [c0 [E _]].
  destruct (Z.eqb_spec (GeneratedCode.project_id c0) pid) as [E0|N0]; cbn in E.
  - destruct (GeneratedCode.stage_id c0) eqn:S0; subst c; [reflexivity|].
    contradiction.
  - subst c. contradiction.
Qed.

End UnifyFacts.

Section PipelineExample.
Import PyStr Py Artifacts Samples MoreSamples.

(** The route over the generator of [StructuredTextGenerator], with a model
    that answers every request with the sample reply: both stages of the
    sample project end with the two global labels of the reply. *)
Example pipeline_on_sample_reply :
  let model := fun _ _ : string => Returned generated_document in
  let generator := fun stage =>
    StructuredTextGenerator.generate_code no_manuals model debug_file_written stage None in
  let d' := fst (CodeGenerationRoute.generate_code generator no_diff two_stage_db 11 7) in
  map (fun c => (GeneratedCode.stage_id c, map name (GeneratedCode.global_labels c)))
      (Db.generated_codes d')
  = [ (Some 11%Z, ["Start_Button"; "Motor_Run"]);
      (Some 12%Z, ["Start_Button"; "Motor_Run"]) ].
Proof. vm_compute. reflexivity. Qed.

(** An empty reply makes the generator raise, and the route answers 500
    without touching the database. *)
Example pipeline_on_empty_reply :
  let model := fun _ _ : string => Returned EmptyString in
  let generator := fun stage =>
    StructuredTextGenerator.generate_code no_manuals model debug_file_written stage None in
  CodeGenerationRoute.generate_code generator no_diff two_stage_db 11 7
  = (two_stage_db,
     HTTPException 500
       "Code generation error: No response received from code generation service").
Proof. vm_compute. reflexivity. Qed.

End PipelineExample.

(* ===================================================================== *)
(** * Further properties *)
(* ===================================================================== *)

(** ** Stage validator: shape of the result, request, fallback *)

Section ValidatorShape.
Import PyStr Py StageValidator StageValidatorRules.

Lemma Forall_snoc : forall (A : Type) (P : A -> Prop) l x,
  Forall P l -> P x -> Forall P (l ++ [x]).
Proof. intros. apply Forall_app. split; [assumption | now constructor]. Qed.

Lemma flush_well_formed : forall r cur,
  result_well_formed r ->
  match cur with Some i => severity_known i | None => True end ->
  result_well_formed (flush_issue r cur).
Proof.
  intros r [i|] (V & C & I & R) Hc; simpl; [|now repeat split].
  repeat split; simpl; auto. now apply Forall_snoc.
Qed.

Lemma continue_issue_severity : forall i line,
  severity (continue_issue i line) = severity i.
Proof.
  intros i line. unfold continue_issue.
  repeat match goal with |- context [if ?b then _ else _] => destruct b end; reflexivity.
Qed.

Lemma step_well_formed : forall st line,
  state_well_formed st -> state_well_formed (step st line).
Proof.
  intros [r sec cur] line [W Hc]. cbn [result current_issue] in *.
  pose proof W as (V & C & Hi & Hr).
  unfold step. cbn [result current_section current_issue].
  destruct sec as [[]|]; destruct cur as [i|];
    repeat match goal with
           | |- context [if ?b then _ else _] => destruct b eqn:?
           end;
    unfold set_section, open_issue; cbn [result current_section current_issue];
    (split;
     [ first [ exact W
             | apply flush_well_formed; assumption
             | repeat split; simpl; auto;
               apply Forall_snoc; [assumption | now apply truthy_nonempty] ]
     | first [ exact Hc
             | exact Logic.I
             | cbn; unfold severity_known in *; rewrite ?continue_issue_severity; cbn; tauto ] ]).
Qed.

Lemma fold_step_well_formed : forall lines st,
  state_well_formed st -> state_well_formed (fold_left step lines st).
Proof.
  induction lines as [|l lines IH]; intros st H; simpl; [exact H|].
  apply IH. now apply step_well_formed.
Qed.

(** The result of [_parse_validation_result] is well formed for every text:
    the verdict is (True, PASS) or (False, FAIL), every categorized issue has
    one of the three severities, and no issue or recommendation is empty. *)
Theorem parse_validation_result_well_formed : forall validation_text,
  result_well_formed (_parse_validation_result validation_text).
Proof.
  intros t. unfold _parse_validation_result.
  set (st := fold_left step _ _).
  assert (S : state_well_formed st).
  { apply fold_step_well_formed. split; [|exact I].
    unfold initial_result. destruct (contains "Status: PASS" t); cbn [result].
    - repeat split; simpl; auto. left; auto.
    - repeat split; simpl; auto. right; auto. }
  destruct S as [W Hc].
  pose proof (flush_well_formed _ _ W Hc) as (V & C & I & R).
  destruct (Nat.eqb _ 0); [|now repeat split].
  repeat split; simpl; auto. left; auto.
Qed.

End ValidatorShape.

Section ValidatorRules.
Import PyStr Py StageValidator StageValidatorRules.

Lemma prefix_self_app : forall x s, String.prefix x (x ++ s) = true.
Proof.
  induction x as [|c x IH]; intros s; simpl; [now destruct s|].
  destruct (ascii_dec c c); [apply IH | contradiction].
Qed.

Lemma contains_self_app : forall x s, contains x (x ++ s) = true.
Proof.
  intros x s. destruct (x ++ s) eqn:E; unfold contains; fold contains;
    rewrite <- E, prefix_self_app; reflexivity.
Qed.

Lemma contains_app_r : forall x p s, contains x s = true -> contains x (p ++ s) = true.
Proof.
  induction p as [|c p IH]; intros s H; simpl; [exact H|].
  rewrite (IH s H). apply orb_true_r.
Qed.

(** The validation request is built on the edited logic of the stage row
    when that is not empty and on the original logic otherwise, and the
    request contains that text. *)
Theorem validation_request_embeds_effective_logic : forall stg,
  stage_logic (StagesRoute.stage_data stg) = PStr (StagesRoute.effective_logic stg)
  /\ contains (StagesRoute.effective_logic stg)
              (_build_validation_request (StagesRoute.stage_data stg)) = true.
Proof.
  intros stg.
  assert (L : stage_logic (StagesRoute.stage_data stg)
              = PStr (StagesRoute.effective_logic stg)).
  { unfold stage_logic, StagesRoute.effective_logic, py_or. cbn.
    destruct (Stage.edited_logic stg) as [e|]; cbn; [|reflexivity].
    destruct (truthy e); reflexivity. }
  split; [exact L|].
  unfold _build_validation_request. rewrite L. cbn [py_str].
  repeat match goal with
         | |- contains ?x (?x ++ _) = true => apply contains_self_app
         | |- contains _ (_ ++ _) = true => apply contains_app_r
         end.
Qed.

(** The rule-based fallback never fails a stage: when it returns, the
    result is valid with status PASS or WARNING, at most two issues and no
    categorized issue; it raises only when the logic is not a string. *)
Theorem fallback_validation_never_fails : forall stage,
  match _fallback_validation stage with
  | Returned r =>
      valid r = true
      /\ (status r = "PASS" \/ status r = "WARNING")
      /\ List.length (issues r) <= 2
      /\ categorized_issues r = []
  | Raised _ => forall logic, stage_logic stage = PStr logic -> False
  end.
Proof.
  intros stage. unfold _fallback_validation.
  destruct (stage_logic stage) as [| b | z | logic]; try (intros l H; discriminate H).
  unfold fallback_on.
  destruct (negb (truthy logic) || Nat.ltb (String.length (strip logic)) 10);
    destruct (any_keyword ["if"; "when"; "while"; "condition"] (lower logic)
              && any_keyword ["then"; "set"; "turn"; "activate"; "start"] (lower logic));
    cbn; repeat split; auto.
Qed.

End ValidatorRules.

(** ** Version ledger: every version, every entry *)

Section VersionClosure.
Import PyStr Py VersionHistoryService.

Lemma rstrip_no_space : forall s, all_chars not_space s = true -> rstrip s = s.
Proof.
  induction s as [|c s IH]; simpl; intros H; [reflexivity|].
  apply andb_true_iff in H as [Hc Hs]. unfold not_space in Hc.
  apply negb_true_iff in Hc. rewrite (IH Hs), Hc. reflexivity.
Qed.

Lemma strip_no_space : forall s, all_chars not_space s = true -> strip s = s.
Proof.
  intros s H. unfold strip.
  destruct s as [|c s]; [reflexivity|].
  pose proof H as H'. simpl in H'. apply andb_true_iff in H' as [Hc _].
  unfold not_space in Hc. apply negb_true_iff in Hc.
  simpl lstrip. rewrite Hc. now apply rstrip_no_space.
Qed.

Lemma digits_no_space : forall s, all_chars is_digit s = true -> all_chars not_space s = true.
Proof.
  induction s as [|c s IH]; simpl; intros H; [reflexivity|].
  apply andb_true_iff in H as [Hc Hs].
  unfold not_space at 1. rewrite (digit_not_space c Hc), (IH Hs). reflexivity.
Qed.

Lemma pos_to_uint_nonempty : forall p,
  NilEmpty.string_of_uint (Pos.to_uint p) <> EmptyString.
Proof. intros p. exact (to_uint_nonempty (Npos p)). Qed.

(** [int(str(z)) == z] for every integer. *)
Lemma py_int_str_of_Z : forall z : Z, py_int (str_of_Z z) = Some z.
Proof.
  intros [|p|p].
  - exact (py_int_str_of_N 0%N).
  - exact (py_int_str_of_N (Npos p)).
  - unfold str_of_Z. cbn [Z.to_int NilEmpty.string_of_int].
    unfold py_int.
    rewrite strip_no_space
      by (simpl; apply digits_no_space, string_of_uint_digits).
    rewrite Ascii.eqb_refl. unfold int_of_digits.
    rewrite (drop_underscores_digits_start _ (string_of_uint_digits _)
               (pos_to_uint_nonempty p)).
    rewrite NilEmpty.usu. simpl. unfold Z.of_uint.
    pose proof (DecimalN.Unsigned.of_to (Npos p)) as R. simpl in R.
    unfold N.of_uint in R. rewrite R. reflexivity.
Qed.

Lemma str_of_Z_free_of_dot : forall z : Z, free_of "." (str_of_Z z) = true.
Proof.
  intros [|p|p].
  - reflexivity.
  - exact (str_of_N_free_of_dot (Npos p)).
  - unfold str_of_Z. cbn [Z.to_int NilEmpty.string_of_int]. simpl.
    apply string_of_uint_free_of_dot.
Qed.

Lemma split_version_Z : forall a b c : Z,
  split_on "." (format_version a b c) = [str_of_Z a; str_of_Z b; str_of_Z c].
Proof.
  intros a b c. unfold format_version.
  change (str_of_Z a ++ "." ++ str_of_Z b ++ "." ++ str_of_Z c)
    with (str_of_Z a ++ String "." (str_of_Z b ++ String "." (str_of_Z c))).
  rewrite split_on_app by apply str_of_Z_free_of_dot.
  rewrite split_on_app by apply str_of_Z_free_of_dot.
  rewrite split_on_free by apply str_of_Z_free_of_dot.
  reflexivity.
Qed.

Lemma max_version_part_above_one : (1 < max_version_part)%Z.
Proof. unfold max_version_part. apply Z.pow_gt_1; lia. Qed.

(** The bump table of [increment_version] on every version [a.b.c] of
    integers of at most 4000 digits (negative ones included), which Python
    converts to text and back without reaching its digit limit: minor + 1
    and patch 0 for [validate] and [generate_code], patch + 1 for
    [edit_logic] and [safety_check], no change for any other action.  The
    result is again a version text, [format_version] of three integers of
    at most 4001 digits. *)
Theorem increment_version_closed : forall major minor patch action_type,
  (Z.abs major < max_version_part)%Z ->
  (Z.abs minor < max_version_part)%Z ->
  (Z.abs patch < max_version_part)%Z ->
  increment_version (format_version major minor patch) action_type
  = (if mem action_type ["validate"; "generate_code"]
     then format_version major (minor + 1) 0
     else if mem action_type ["edit_logic"; "safety_check"]
     then format_version major minor (patch + 1)
     else format_version major minor patch)
  /\ exists major' minor' patch' : Z,
       increment_version (format_version major minor patch) action_type
       = format_version major' minor' patch'
       /\ (Z.abs major' <= max_version_part)%Z
       /\ (Z.abs minor' <= max_version_part)%Z
       /\ (Z.abs patch' <= max_version_part)%Z.
Proof.
  intros a b c act Ha Hb Hc.
  assert (E : increment_version (format_version a b c) act
              = if mem act ["validate"; "generate_code"]
                then format_version a (b + 1) 0
                else if mem act ["edit_logic"; "safety_check"]
                then format_version a b (c + 1)
                else format_version a b c).
  { unfold increment_version. rewrite split_version_Z, !py_int_str_of_Z. reflexivity. }
  pose proof max_version_part_above_one as P.
  split; [exact E|]. rewrite E.
  destruct (mem act ["validate"; "generate_code"]);
    [|destruct (mem act ["edit_logic"; "safety_check"])].
  - exists a, (b + 1)%Z, 0%Z. repeat split; lia.
  - exists a, b, (c + 1)%Z. repeat split; lia.
  - exists a, b, c. repeat split; lia.
Qed.

(** The table at 1.0.0. *)
Lemma increment_version_closed_witness :
  increment_version "1.0.0" "validate" = "1.1.0"
  /\ increment_version "1.0.0" "safety_check" = "1.0.1".
Proof.
  pose proof max_version_part_above_one as P.
  split.
  - apply (increment_version_closed 1 0 0 "validate");
      change (Z.abs 1) with 1%Z; change (Z.abs 0) with 0%Z; lia.
  - apply (increment_version_closed 1 0 0 "safety_check");
      change (Z.abs 1) with 1%Z; change (Z.abs 0) with 0%Z; lia.
Defined.

End VersionClosure.

(** ** Global labels: the shape of a merge and of a project's label list *)

Section MergeShape.
Import PyStr Artifacts GlobalLabelsService.

Lemma merge_list_shape : forall B M, exists suffix,
  merge_list M B = (M ++ suffix)%list /\ incl suffix B /\ Forall identified suffix.
Proof.
  induction B as [|b B IH]; intros M; simpl.
  - exists []. rewrite app_nil_r. repeat split; [apply incl_refl | constructor].
  - destruct (truthy (identifier b)) eqn:T; simpl;
      [destruct (existsb (hits b) M); simpl|].
    + destruct (IH M) as (suf & E & I & F). exists suf.
      repeat split; [exact E | intros x Hx; right; now apply I | exact F].
    + destruct (IH (M ++ [b])%list) as (suf & E & I & F). exists (b :: suf).
      repeat split.
      * rewrite E, <- app_assoc. reflexivity.
      * intros x [<-|Hx]; [now left | right; now apply I].
      * constructor; assumption.
    + destruct (IH M) as (suf & E & I & F). exists suf.
      repeat split; [exact E | intros x Hx; right; now apply I | exact F].
Qed.

(** The merge only appends: the existing list is kept as it is, in order
    (also its repeated and its unidentified labels); what is appended are
    new labels that have a device or a name; and every new label that has
    one shares, after the merge, its identifier with the device of a kept
    label or its name with the name of one. *)
Theorem merge_appends_identified_new_labels : forall existing_labels new_labels,
  (exists appended,
     merge_global_labels existing_labels new_labels = (existing_labels ++ appended)%list
     /\ incl appended new_labels
     /\ Forall identified appended)
  /\ forall new_label, In new_label new_labels -> identified new_label ->
       existsb (hits new_label) (merge_global_labels existing_labels new_labels) = true.
Proof.
  intros A B. rewrite merge_global_labels_list. split.
  - apply merge_list_shape.
  - intros b Hin Hid. now apply merge_list_covers.
Qed.

Lemma NoDup_snoc : forall (A : Type) (l : list A) x,
  NoDup l -> ~ In x l -> NoDup (l ++ [x]).
Proof.
  intros A l x Hl Hx. induction Hl as [|y l Hy Hl IH]; simpl.
  - constructor; [intros []|constructor].
  - constructor.
    + rewrite in_app_iff. intros [H|[H|[]]]; [now apply Hy|].
      apply Hx. left. now symmetry.
    + apply IH. intros H. apply Hx. now right.
Qed.

Lemma not_hit_device : forall b M,
  existsb (hits b) M = false -> truthy (device b) = true ->
  ~ In (device b) (devices_of M).
Proof.
  intros b M H T Hin. unfold devices_of in Hin.
  apply in_map_iff in Hin as [x [E Hx]]. apply filter_In in Hx as [Hx Tx].
  assert (Hh : existsb (hits b) M = true).
  { apply existsb_exists. exists x. split; [exact Hx|].
    unfold hits, identifier. rewrite T, Tx, E, String.eqb_refl. reflexivity. }
  congruence.
Qed.

Lemma not_hit_name : forall b M,
  existsb (hits b) M = false -> ~ In (name b) (names_of M).
Proof.
  intros b M H Hin. unfold names_of in Hin.
  apply in_map_iff in Hin as [x [E Hx]]. apply filter_In in Hx as [Hx Tx].
  assert (Hh : existsb (hits b) M = true).
  { apply existsb_exists. exists x. split; [exact Hx|].
    unfold hits. rewrite Tx, E, String.eqb_refl. simpl. apply orb_true_r. }
  congruence.
Qed.

Lemma merge_list_distinct : forall B M,
  NoDup (devices_of M) -> NoDup (names_of M) ->
  NoDup (devices_of (merge_list M B)) /\ NoDup (names_of (merge_list M B)).
Proof.
  induction B as [|b B IH]; intros M Hd Hn; simpl; [now split|].
  destruct (truthy (identifier b)) eqn:T; simpl; [|now apply IH].
  destruct (existsb (hits b) M) eqn:E; simpl; [now apply IH|].
  apply IH.
  - rewrite devices_of_snoc. destruct (truthy (device b)) eqn:D.
    + apply NoDup_snoc; [exact Hd | now apply not_hit_device].
    + now rewrite app_nil_r.
  - rewrite names_of_snoc. destruct (truthy (name b)).
    + apply NoDup_snoc; [exact Hn | now apply not_hit_name].
    + now rewrite app_nil_r.
Qed.

(** A merge never lets a second label with a device or a name already
    present in: when the non-empty devices and the non-empty names of the
    existing labels are pairwise distinct, so are those of the merged list. *)
Theorem merge_keeps_devices_and_names_distinct : forall existing_labels new_labels,
  NoDup (devices_of existing_labels) -> NoDup (names_of existing_labels) ->
  NoDup (devices_of (merge_global_labels existing_labels new_labels))
  /\ NoDup (names_of (merge_global_labels existing_labels new_labels)).
Proof.
  intros A B Hd Hn. rewrite merge_global_labels_list. now apply merge_list_distinct.
Qed.

(** The start button merged with the sensor and the start button again. *)
Lemma merge_keeps_devices_and_names_distinct_witness :
  NoDup (devices_of (merge_global_labels [Samples.start_button]
                       [Samples.sensor1; Samples.start_button]))
  /\ NoDup (names_of (merge_global_labels [Samples.start_button]
                        [Samples.sensor1; Samples.start_button])).
Proof.
  apply merge_keeps_devices_and_names_distinct;
    vm_compute; (constructor; [intros []|constructor]).
Defined.

(** *** The labels of a project *)

Lemma fold_collect_step : forall labels all_labels seen_devices,
  (forall s, In s seen_devices <-> In s (map identifier all_labels)) ->
  fst (fold_left collect_step labels (all_labels, seen_devices))
  = collect_list all_labels labels.
Proof.
  induction labels as [|l rest IH]; intros all seen H; simpl; [reflexivity|].
  rewrite (mem_ext _ _ _ H).
  destruct (truthy (identifier l) && negb (mem (identifier l) (map identifier all))).
  - apply IH. intros s. rewrite map_app, in_app_iff. simpl. rewrite (H s). tauto.
  - now apply IH.
Qed.

Lemma collect_is_collect_list : forall labels, collect labels = collect_list [] labels.
Proof. intros. unfold collect. apply fold_collect_step. intros s; reflexivity. Qed.

Lemma collect_list_app : forall X Y M,
  collect_list M (X ++ Y) = collect_list (collect_list M X) Y.
Proof. induction X as [|x X IH]; intros Y M; simpl; [reflexivity|apply IH]. Qed.

Lemma collect_list_invariant : forall X M,
  NoDup (map identifier M) -> Forall identified M ->
  NoDup (map identifier (collect_list M X)) /\ Forall identified (collect_list M X)
  /\ (forall l, In l (collect_list M X) -> In l M \/ In l X)
  /\ (forall x, In x X -> identified x ->
        In (identifier x) (map identifier (collect_list M X)))
  /\ (forall l, In l M -> In l (collect_list M X)).
Proof.
  induction X as [|x X IH]; intros M Hn Hf; simpl.
  - repeat split; auto. intros x [].
  - destruct (truthy (identifier x)) eqn:T; simpl.
    + destruct (mem (identifier x) (map identifier M)) eqn:E; simpl.
      * destruct (IH M Hn Hf) as (H1 & H2 & H3 & H4 & H5).
        repeat split; auto.
        -- intros l Hl. destruct (H3 l Hl); auto.
        -- intros y [<-|Hy] Hy'; [|now apply H4].
           apply mem_In in E. apply in_map_iff in E as [z [Ez Hz]].
           rewrite <- Ez. apply in_map. now apply H5.
      * assert (Hn' : NoDup (map identifier (M ++ [x]))).
        { rewrite map_app. simpl. apply NoDup_snoc; [exact Hn|].
          intros Hin. apply mem_In in Hin. congruence. }
        assert (Hf' : Forall identified (M ++ [x])).
        { apply Forall_app. split; [exact Hf|]. constructor; [exact T|constructor]. }
        destruct (IH (M ++ [x])%list Hn' Hf') as (H1 & H2 & H3 & H4 & H5).
        repeat split; auto.
        -- intros l Hl. destruct (H3 l Hl) as [H|H]; auto.
           apply in_app_iff in H as [H|[<-|[]]]; auto.
        -- intros y [<-|Hy] Hy'; [|now apply H4].
           apply in_map. apply H5. apply in_or_app. right. now left.
        -- intros l Hl. apply H5. apply in_or_app. now left.
    + destruct (IH M Hn Hf) as (H1 & H2 & H3 & H4 & H5).
      repeat split; auto.
      * intros l Hl. destruct (H3 l Hl); auto.
      * intros y [<-|Hy] Hy'; [unfold identified in Hy'; congruence | now apply H4].
Qed.

(** Labels whose identifiers are all taken leave the list as it is. *)
Lemma collect_list_fixed : forall X M,
  (forall x, In x X -> identified x -> In (identifier x) (map identifier M)) ->
  collect_list M X = M.
Proof.
  induction X as [|x X IH]; intros M H; simpl; [reflexivity|].
  destruct (truthy (identifier x)) eqn:T; simpl.
  - assert (E : mem (identifier x) (map identifier M) = true).
    { apply mem_In. apply H; [now left | exact T]. }
    rewrite E. simpl. apply IH. intros y Hy. apply H. now right.
  - apply IH. intros y Hy. apply H. now right.
Qed.

(** A list with one label per identifier is collected as it is. *)
Lemma collect_list_distinct : forall X M,
  NoDup (map identifier (M ++ X)) -> Forall identified X ->
  collect_list M X = (M ++ X)%list.
Proof.
  induction X as [|x X IH]; intros M Hn Hf; simpl; [now rewrite app_nil_r|].
  inversion Hf as [|? ? Tx Hf']; subst. unfold identified in Tx. rewrite Tx. simpl.
  assert (E : mem (identifier x) (map identifier M) = false).
  { destruct (mem (identifier x) (map identifier M)) eqn:E; [|reflexivity].
    exfalso. apply mem_In in E.
    rewrite map_app in Hn. simpl in Hn.
    apply NoDup_remove_2 in Hn. apply Hn. apply in_or_app. now left. }
  rewrite E. simpl.
  rewrite IH; [now rewrite <- app_assoc | now rewrite <- app_assoc | exact Hf'].
Qed.

(** The same facts on the rows the query selects. *)
Lemma project_global_labels_shape : forall d project_id,
  NoDup (map identifier (get_project_global_labels d project_id))
  /\ Forall identified (get_project_global_labels d project_id)
  /\ (forall l, In l (get_project_global_labels d project_id) ->
        exists c, In c (filter (stage_code_of project_id) (Db.generated_codes d))
                  /\ In l (GeneratedCode.global_labels c))
  /\ (forall c l, In c (filter (stage_code_of project_id) (Db.generated_codes d)) ->
        In l (GeneratedCode.global_labels c) -> identified l ->
        In (identifier l) (map identifier (get_project_global_labels d project_id))).
Proof.
  intros d pid. unfold get_project_global_labels.
  rewrite collect_is_collect_list.
  destruct (collect_list_invariant
              (flat_map GeneratedCode.global_labels
                 (filter (stage_code_of pid) (Db.generated_codes d)))
              [] (NoDup_nil _) (Forall_nil _)) as (H1 & H2 & H3 & H4 & _).
  repeat split; [exact H1 | exact H2 | |].
  - intros l Hl. destruct (H3 l Hl) as [[]|Hin].
    apply in_flat_map in Hin as [c [Hc Hlc]]. eauto.
  - intros c l Hc Hl Hid. apply H4; [|exact Hid].
    apply in_flat_map. eauto.
Qed.

Lemma stage_code_of_spec : forall project_id c,
  stage_code_of project_id c = true
  <-> GeneratedCode.project_id c = project_id /\ GeneratedCode.stage_id c <> None.
Proof.
  intros pid c. unfold stage_code_of. rewrite andb_true_iff, Z.eqb_eq.
  destruct (GeneratedCode.stage_id c); split; intros [H1 H2]; split;
    try assumption; try discriminate; try reflexivity; contradiction.
Qed.

(** [get_project_global_labels] returns one label per identifier: the
    identifiers of the list are non-empty and pairwise distinct, each label
    stands in the global labels of a stage row of the project, and every
    identified label of such a row has its identifier in the list. *)
Theorem project_global_labels_one_per_identifier : forall d project_id,
  let labels := get_project_global_labels d project_id in
  NoDup (map identifier labels)
  /\ Forall identified labels
  /\ (forall l, In l labels ->
        exists c, In c (Db.generated_codes d)
                  /\ GeneratedCode.project_id c = project_id
                  /\ GeneratedCode.stage_id c <> None
                  /\ In l (GeneratedCode.global_labels c))
  /\ (forall c l, In c (Db.generated_codes d) ->
        GeneratedCode.project_id c = project_id ->
        GeneratedCode.stage_id c <> None ->
        In l (GeneratedCode.global_labels c) -> identified l ->
        In (identifier l) (map identifier labels)).
Proof.
  intros d pid. cbv zeta.
  destruct (project_global_labels_shape d pid) as (H1 & H2 & H3 & H4).
  repeat split; [exact H1 | exact H2 | |].
  - intros l Hl. destruct (H3 l Hl) as (c & Hc & Hlc).
    apply filter_In in Hc as [Hc Hs]. apply stage_code_of_spec in Hs as [Hp Hs].
    exists c. repeat split; assumption.
  - intros c l Hc Hp Hs Hl Hid. apply (H4 c); [|exact Hl|exact Hid].
    apply filter_In. split; [exact Hc|]. apply stage_code_of_spec. now split.
Qed.

End MergeShape.

Section EnsureCommon.
Import PyStr Artifacts GlobalLabelsService.

Lemma update_all_stages_codes : forall d project_id labels,
  fst (update_all_stages_with_global_labels d project_id labels)
  = Db.with_codes d (map (with_global_labels project_id labels) (Db.generated_codes d)).
Proof. reflexivity. Qed.

Lemma with_global_labels_hit : forall project_id labels c,
  stage_code_of project_id (with_global_labels project_id labels c)
  = stage_code_of project_id c.
Proof.
  intros pid L c. unfold with_global_labels.
  destruct (stage_code_of pid c) eqn:E; [|exact E].
  unfold stage_code_of in *. exact E.
Qed.

Lemma with_global_labels_twice : forall project_id labels c,
  with_global_labels project_id labels (with_global_labels project_id labels c)
  = with_global_labels project_id labels c.
Proof.
  intros pid L c. unfold with_global_labels at 1.
  rewrite with_global_labels_hit. unfold with_global_labels.
  destruct (stage_code_of pid c); reflexivity.
Qed.

Lemma collect_list_copies : forall (L : list Label) (rows : list GeneratedCode.t),
  NoDup (map identifier L) -> Forall identified L ->
  (forall c, In c rows -> GeneratedCode.global_labels c = L) ->
  rows <> [] \/ L = [] ->
  collect_list [] (flat_map GeneratedCode.global_labels rows) = L.
Proof.
  intros L rows Hn Hf Hall Hne. destruct rows as [|c rest].
  - destruct Hne as [H | ->]; [contradiction|reflexivity].
  - simpl. rewrite collect_list_app, (Hall c (or_introl eq_refl)).
    rewrite (collect_list_distinct L []); [|exact Hn|exact Hf]. simpl.
    apply collect_list_fixed. intros x Hx _.
    apply in_flat_map in Hx as [c' [Hc' Hx]].
    rewrite (Hall c' (or_intror Hc')) in Hx. now apply in_map.
Qed.

(** [ensure_common_global_labels] reaches a fixed point in one run: a
    second run on the database it left returns the same label list and
    changes no row.  In particular the list it returns is the list
    [get_project_global_labels] reads back afterwards. *)
Theorem ensure_common_global_labels_idempotent : forall d project_id,
  ensure_common_global_labels (fst (ensure_common_global_labels d project_id)) project_id
  = ensure_common_global_labels d project_id.
Proof.
  intros d pid. unfold ensure_common_global_labels. cbn [fst].
  set (L := get_project_global_labels d pid).
  rewrite (update_all_stages_codes d pid L).
  assert (HL : get_project_global_labels
                 (Db.with_codes d (map (with_global_labels pid L) (Db.generated_codes d))) pid
               = L).
  { destruct (project_global_labels_shape d pid) as (Hn & Hf & _).
    fold L in Hn, Hf.
    unfold get_project_global_labels at 1. cbn [Db.with_codes Db.generated_codes].
    rewrite collect_is_collect_list.
    apply collect_list_copies; [exact Hn | exact Hf | |].
    - intros c Hc. apply filter_In in Hc as [Hc Hs].
      apply in_map_iff in Hc as [c0 [<- Hc0]].
      rewrite with_global_labels_hit in Hs. unfold with_global_labels.
      rewrite Hs. reflexivity.
    - destruct (filter (stage_code_of pid) (Db.generated_codes d)) as [|c0 rest] eqn:F.
      + right. unfold L, get_project_global_labels. rewrite F. reflexivity.
      + left. intros E.
        assert (Hin : In c0 (filter (stage_code_of pid) (Db.generated_codes d)))
          by (rewrite F; now left).
        apply filter_In in Hin as [Hin Hs].
        assert (Hin' : In (with_global_labels pid L c0)
                          (filter (stage_code_of pid)
                             (map (with_global_labels pid L) (Db.generated_codes d)))).
        { apply filter_In. split; [now apply in_map|].
          now rewrite with_global_labels_hit. }
        rewrite E in Hin'. destruct Hin'. }
  rewrite HL, update_all_stages_codes. f_equal.
  unfold Db.with_codes. cbn [Db.projects Db.stages Db.generated_codes Db.version_history
    Db.next_code_id Db.next_version_id Db.clock].
  f_equal. rewrite map_map. apply map_ext. intros c. apply with_global_labels_twice.
Qed.

End EnsureCommon.

(** ** Version entries and the stage they stamp *)

Section EntryFacts.
Import PyStr Py VersionHistoryService.

Variable unified_diff : string -> string -> string.

Lemma get_by_id_id : forall d sid s,
  StageRepository.get_by_id d sid = Some s -> Stage.id s = sid.
Proof.
  intros d sid s H. unfold StageRepository.get_by_id in H.
  apply find_some in H as [_ H]. now apply Z.eqb_eq.
Qed.

Lemma get_by_id_update_first : forall d sid f s,
  StageRepository.get_by_id d sid = Some s ->
  Stage.id (f s) = Stage.id s ->
  StageRepository.get_by_id
    (Db.with_stages d (StageRepository.update_first sid f (Db.stages d))) sid
  = Some (f s).
Proof.
  intros d sid f s H Hid. unfold StageRepository.get_by_id. cbn [Db.with_stages Db.stages].
  apply find_update_first; [exact H|]. rewrite Hid. now apply (get_by_id_id d).
Qed.

(** What a version entry does to the row of its stage. *)
Lemma create_version_entry_stage :
  forall d code_id sid user_id action_type old_data new_data meta s,
  StageRepository.get_by_id d sid = Some s ->
  exists s',
    StageRepository.get_by_id
      (fst (create_version_entry unified_diff d code_id sid user_id action_type
              old_data new_data meta)) sid = Some s'
    /\ Stage.version_number s'
       = Some (increment_version_col (Stage.version_number s) action_type)
    /\ Stage.last_action s' = Some action_type
    /\ Stage.original_logic s' = Stage.original_logic s
    /\ Stage.edited_logic s' = Stage.edited_logic s
    /\ Stage.is_validated s' = Stage.is_validated s
    /\ Stage.is_finalized s' = Stage.is_finalized s.
Proof.
  intros d code_id sid user_id action_type old_data new_data meta s Hs.
  unfold create_version_entry. rewrite Hs. cbn zeta.
  unfold Db.utcnow, Db.with_stages. cbn [fst snd Db.projects Db.stages Db.generated_codes
    Db.version_history Db.next_code_id Db.next_version_id Db.clock].
  eexists. split.
  - unfold StageRepository.get_by_id. cbn [Db.stages].
    apply find_update_first; [exact Hs|]. cbn [Stage.id]. now apply (get_by_id_id d).
  - cbn. repeat split; reflexivity.
Qed.

(** What a version entry does to the tables, whatever the stage. *)
Lemma create_version_entry_entry :
  forall d code_id sid user_id action_type old_data new_data meta,
  let r := create_version_entry unified_diff d code_id sid user_id action_type
             old_data new_data meta in
  Db.version_history (fst r) = (Db.version_history d ++ [snd r])%list
  /\ Db.generated_codes (fst r) = Db.generated_codes d
  /\ Db.projects (fst r) = Db.projects d
  /\ Db.next_version_id (fst r) = (Db.next_version_id d + 1)%Z
  /\ VersionHistory.id (snd r) = Db.next_version_id d
  /\ VersionHistory.stage_id (snd r) = sid
  /\ VersionHistory.code_id (snd r) = code_id
  /\ VersionHistory.user_id (snd r) = user_id.
Proof.
  intros. unfold r, create_version_entry.
  destruct (StageRepository.get_by_id d sid); cbn; repeat split; reflexivity.
Qed.

(** The version an entry bears. *)
Lemma create_version_entry_version :
  forall d code_id sid user_id action_type old_data new_data meta,
  VersionHistory.version_number
    (snd (create_version_entry unified_diff d code_id sid user_id action_type
            old_data new_data meta))
  = increment_version_col
      (match StageRepository.get_by_id d sid with
       | Some s => Stage.version_number s
       | None => Some "1.0.0"
       end) action_type.
Proof.
  intros. unfold create_version_entry.
  destruct (StageRepository.get_by_id d sid); reflexivity.
Qed.

(** Only [edit_logic] and [generate_code] entries carry a snapshot. *)
Lemma create_version_entry_no_snapshot :
  forall d code_id sid user_id action_type old_data new_data meta,
  String.eqb action_type "edit_logic" = false ->
  String.eqb action_type "generate_code" = false ->
  let e := snd (create_version_entry unified_diff d code_id sid user_id action_type
                  old_data new_data meta) in
  VersionHistory.old_code e = Some "" /\ VersionHistory.new_code e = Some ""
  /\ VersionHistory.diff e = "".
Proof.
  intros d code_id sid user_id action_type old_data new_data meta H1 H2.
  unfold create_version_entry.
  destruct (StageRepository.get_by_id d sid); cbn; rewrite H1, H2; cbn;
    repeat split; reflexivity.
Qed.

(** The action of an entry, when the metadata of the call has no key
    [action] of its own. *)
Lemma create_version_entry_action :
  forall d code_id sid user_id action_type old_data new_data meta,
  plain_metadata meta ->
  entry_action (snd (create_version_entry unified_diff d code_id sid user_id action_type
                       old_data new_data meta)) = PStr action_type.
Proof.
  intros d code_id sid user_id action_type old_data new_data meta Hm.
  unfold create_version_entry.
  destruct (StageRepository.get_by_id d sid); cbn;
    unfold entry_action, dict_get; cbn [VersionHistory.version_metadata];
    (rewrite dict_lookup_merge_absent;
     [reflexivity | destruct meta as [m|]; [exact Hm|reflexivity]]).
Qed.

(** An entry and the row of its stage move together: after
    [create_version_entry] on an existing stage the stage bears the version
    of the new entry, which is the bump of the version it had, and the name
    of the action; the entry is the last of the stage's ledger and takes the
    next free key; the ledgers of the other stages, the logic and the flags
    of the stage and the code rows are as before. *)
Theorem version_entry_stamps_its_stage :
  forall d code_id sid user_id action_type old_data new_data meta s,
  StageRepository.get_by_id d sid = Some s ->
  let r := create_version_entry unified_diff d code_id sid user_id action_type
             old_data new_data meta in
  VersionHistory.version_number (snd r)
  = increment_version_col (Stage.version_number s) action_type
  /\ (exists s',
        StageRepository.get_by_id (fst r) sid = Some s'
        /\ Stage.version_number s' = Some (VersionHistory.version_number (snd r))
        /\ Stage.last_action s' = Some action_type
        /\ Stage.original_logic s' = Stage.original_logic s
        /\ Stage.edited_logic s' = Stage.edited_logic s
        /\ Stage.is_validated s' = Stage.is_validated s
        /\ Stage.is_finalized s' = Stage.is_finalized s)
  /\ stage_entries (fst r) sid = (stage_entries d sid ++ [snd r])%list
  /\ (forall other, other <> sid -> stage_entries (fst r) other = stage_entries d other)
  /\ VersionHistory.id (snd r) = Db.next_version_id d
  /\ Db.generated_codes (fst r) = Db.generated_codes d.
Proof.
  intros d code_id sid user_id action_type old_data new_data meta s Hs r.
  destruct (create_version_entry_entry d code_id sid user_id action_type old_data new_data meta)
    as (Hh & Hc & _ & _ & Hid & Hsid & _). fold r in Hh, Hc, Hid, Hsid.
  pose proof (create_version_entry_version d code_id sid user_id action_type
                old_data new_data meta) as Hv. fold r in Hv. rewrite Hs in Hv.
  destruct (create_version_entry_stage d code_id sid user_id action_type
              old_data new_data meta s Hs) as (s' & G & V & R). fold r in G.
  split; [exact Hv|]. split; [|split; [|split; [|split]]].
  - exists s'. split; [exact G|]. split; [now rewrite Hv | exact R].
  - now apply stage_entries_snoc.
  - intros other Hne. unfold stage_entries. rewrite Hh, filter_app. cbn [filter].
    rewrite Hsid. destruct (Z.eqb_spec sid other); [congruence|]. apply app_nil_r.
  - exact Hid.
  - exact Hc.
Qed.

(** An entry for a stage that has no row is written all the same: the
    version is taken to be 1.0.0 before the action, no stage row is
    touched, and the entry joins the history under the key of the missing
    stage. *)
Theorem version_entry_for_missing_stage :
  forall d code_id sid user_id action_type old_data new_data meta,
  StageRepository.get_by_id d sid = None ->
  let r := create_version_entry unified_diff d code_id sid user_id action_type
             old_data new_data meta in
  Db.stages (fst r) = Db.stages d
  /\ Db.version_history (fst r) = (Db.version_history d ++ [snd r])%list
  /\ VersionHistory.stage_id (snd r) = sid
  /\ VersionHistory.version_number (snd r) = increment_version "1.0.0" action_type.
Proof.
  intros d code_id sid user_id action_type old_data new_data meta Hs r.
  unfold r, create_version_entry. rewrite Hs. cbn.
  repeat split.
Qed.

End EntryFacts.

(** ** The code repository *)

Section RepositoryFacts.

Lemma find_pointwise : forall (A : Type) (p q : A -> bool) l,
  (forall x, In x l -> p x = q x) -> find p l = find q l.
Proof.
  intros A p q l. induction l as [|x l IH]; intros H; simpl; [reflexivity|].
  rewrite (H x (or_introl eq_refl)). destruct (q x); [reflexivity|].
  apply IH. intros y Hy. apply H. now right.
Qed.

Lemma find_filter : forall (A : Type) (p q : A -> bool) l,
  find p (filter q l) = find (fun x => q x && p x) l.
Proof.
  intros A p q l. induction l as [|x l IH]; simpl; [reflexivity|].
  destruct (q x); simpl; [|exact IH]. destruct (p x); [reflexivity|exact IH].
Qed.

Lemma rev_filter : forall (A : Type) (q : A -> bool) l,
  rev (filter q l) = filter q (rev l).
Proof.
  intros A q l. induction l as [|x l IH]; simpl; [reflexivity|].
  rewrite filter_app. simpl. destruct (q x); simpl; rewrite IH;
    [reflexivity | now rewrite app_nil_r].
Qed.

Lemma find_never : forall (A : Type) (p : A -> bool) l,
  (forall x, In x l -> p x = false) -> find p l = None.
Proof.
  intros A p l. induction l as [|x l IH]; intros H; simpl; [reflexivity|].
  rewrite (H x (or_introl eq_refl)). apply IH. intros y Hy. apply H. now right.
Qed.

Lemma of_stage_exclusive : forall i j c,
  i <> j -> CodeRepository.of_stage i c && CodeRepository.of_stage j c = false.
Proof.
  intros i j c Hne. destruct (CodeRepository.of_stage i c) eqn:E; [|reflexivity].
  simpl. now apply (of_stage_other i j).
Qed.

(** The rows of the other stages, seen through a deletion. *)
Lemma get_by_stage_after_delete : forall d sid other,
  CodeRepository.get_by_stage (CodeRepository.delete_by_stage d sid) other
  = if Z.eqb other sid then None else CodeRepository.get_by_stage d other.
Proof.
  intros d sid other.
  unfold CodeRepository.get_by_stage, CodeRepository.delete_by_stage.
  cbn [Db.with_codes Db.generated_codes]. rewrite rev_filter, find_filter.
  destruct (Z.eqb_spec other sid) as [->|Hne].
  - apply find_never. intros x _. now destruct (CodeRepository.of_stage sid x).
  - apply find_pointwise. intros x _.
    destruct (CodeRepository.of_stage other x) eqn:E.
    + rewrite (of_stage_other other sid x E Hne). reflexivity.
    + apply andb_false_r.
Qed.

(** The repository keeps, for each stage, the row created last: after
    [create] for a stage, [get_by_stage] returns the new row for that stage,
    with the columns given to [create], and what it returned before for
    every other stage; after [delete_by_stage], [get_by_stage] finds nothing
    for the stage and is unchanged for the others.  Nothing is said about
    the key of the new row, which the database chooses. *)
Theorem code_repository_tracks_latest_row_per_stage :
  forall d project_id sid global_labels local_labels program_body program_name
         execution_type meta program_blocks functions function_blocks other,
  let r := CodeRepository.create d project_id (Some sid) global_labels local_labels
             program_body program_name execution_type meta
             program_blocks functions function_blocks in
  CodeRepository.get_by_stage (fst r) other
    = (if Z.eqb other sid then Some (snd r) else CodeRepository.get_by_stage d other)
  /\ GeneratedCode.stage_id (snd r) = Some sid
  /\ GeneratedCode.project_id (snd r) = project_id
  /\ GeneratedCode.global_labels (snd r) = global_labels
  /\ GeneratedCode.local_labels (snd r) = local_labels
  /\ GeneratedCode.program_body (snd r) = program_body
  /\ CodeRepository.get_by_stage (CodeRepository.delete_by_stage d sid) other
    = (if Z.eqb other sid then None else CodeRepository.get_by_stage d other).
Proof.
  intros. unfold r, CodeRepository.create. cbn [Db.utcnow fst snd]. cbv zeta.
  cbn [fst snd Db.projects Db.stages Db.generated_codes
    Db.version_history Db.next_code_id Db.next_version_id Db.clock].
  repeat split; [|apply get_by_stage_after_delete].
  unfold CodeRepository.get_by_stage. cbn [Db.generated_codes].
  rewrite rev_app_distr. cbn [rev app find].
  unfold CodeRepository.of_stage at 1. cbn [GeneratedCode.stage_id].
  rewrite (Z.eqb_sym sid other). destruct (Z.eqb other sid); reflexivity.
Qed.

End RepositoryFacts.

(** ** The stage routes *)

Section StageRouteFacts.
Import PyStr Py StageValidator StagesRoute.

Variable validate : dict -> Outcome ValidationResult.
Variable unified_diff : string -> string -> string.

(** A stage is finalized only when it exists, belongs to the caller and is
    validated: then its row is marked finalized and stays validated, with
    its logic and version as before; in every other case the route answers
    with an error and leaves the database as it was. *)
Theorem finalize_stage_requires_validation : forall d request_stage_id current_user_id,
  let r := finalize_stage d request_stage_id current_user_id in
  match snd r with
  | Ok _ =>
      exists s s',
        StageRepository.get_by_id d request_stage_id = Some s
        /\ authorized d s current_user_id = true
        /\ Stage.is_validated s = true
        /\ StageRepository.get_by_id (fst r) request_stage_id = Some s'
        /\ Stage.is_finalized s' = true
        /\ Stage.is_validated s' = true
        /\ Stage.original_logic s' = Stage.original_logic s
        /\ Stage.edited_logic s' = Stage.edited_logic s
        /\ Stage.version_number s' = Stage.version_number s
  | HTTPException status_code _ =>
      fst r = d /\ (status_code = 404 \/ status_code = 403 \/ status_code = 400)%Z
  end.
Proof.
  intros d sid uid. cbv zeta. unfold finalize_stage.
  destruct (StageRepository.get_by_id d sid) as [s|] eqn:Hs; [|cbn; auto].
  destruct (authorized d s uid) eqn:Ha; [|cbn; auto].
  destruct (Stage.is_validated s) eqn:Hv; [|cbn; auto].
  cbn [negb snd fst]. exists s. eexists.
  split; [reflexivity|]. split; [exact Ha|]. split; [exact Hv|].
  split.
  - unfold StageRepository.mark_finalized.
    apply get_by_id_update_first; [exact Hs | reflexivity].
  - cbn. rewrite Hv. repeat split; reflexivity.
Qed.

(** A successful edit of the logic writes the new text beside the original
    one and resets nothing: the original logic and the validated and
    finalized flags of the stage are as before, and so are the code rows.
    The ledger records the edit only for a stage that has a code row: then
    one [edit_logic] entry is appended, with the logic in force before and
    the new text as its snapshots; without a code row neither the history
    nor the version of the stage changes. *)
Theorem update_stage_logic_keeps_original_and_flags :
  forall d request_stage_id edited_logic current_user_id d' message,
  update_stage_logic unified_diff d request_stage_id edited_logic current_user_id
    = (d', Ok message) ->
  exists s s',
    StageRepository.get_by_id d request_stage_id = Some s
    /\ StageRepository.get_by_id d' request_stage_id = Some s'
    /\ Stage.edited_logic s' = Some edited_logic
    /\ Stage.original_logic s' = Stage.original_logic s
    /\ Stage.is_validated s' = Stage.is_validated s
    /\ Stage.is_finalized s' = Stage.is_finalized s
    /\ Db.generated_codes d' = Db.generated_codes d
    /\ match CodeRepository.get_by_stage d request_stage_id with
       | None =>
           Db.version_history d' = Db.version_history d
           /\ Stage.version_number s' = Stage.version_number s
       | Some code =>
           exists e,
             Db.version_history d' = (Db.version_history d ++ [e])%list
             /\ VersionHistory.code_id e = GeneratedCode.id code
             /\ VersionHistoryService.entry_action e = PStr "edit_logic"
             /\ VersionHistory.old_code e = Some (effective_logic s)
             /\ VersionHistory.new_code e = Some edited_logic
             /\ Stage.version_number s' = Some (VersionHistory.version_number e)
       end.
Proof.
  intros d sid edited uid d' message H. unfold update_stage_logic in H.
  destruct (StageRepository.get_by_id d sid) as [s|] eqn:Hs; [|discriminate].
  destruct (authorized d s uid); [|discriminate]. cbn [negb] in H.
  pose proof (get_by_id_id d sid s Hs) as Hid. rewrite Hid in H.
  assert (H1 : StageRepository.get_by_id (StageRepository.update_logic d sid edited) sid
               = Some (StageRepository.with_edited_logic s (Some edited))).
  { unfold StageRepository.update_logic.
    now apply (get_by_id_update_first d sid
                 (fun s => StageRepository.with_edited_logic s (Some edited))). }
  change (CodeRepository.get_by_stage (StageRepository.update_logic d sid edited) sid)
    with (CodeRepository.get_by_stage d sid) in H.
  exists s.
  destruct (CodeRepository.get_by_stage d sid) as [code|].
  - match type of H with
    | context [fst (VersionHistoryService.create_version_entry ?u ?x ?a ?b ?c ?act ?o ?n ?m)] =>
        destruct (create_version_entry_stage u x a b c act o n m _ H1)
          as (s' & G & V & _ & L1 & L2 & L3 & L4);
        destruct (create_version_entry_entry u x a b c act o n m)
          as (Hh & Hc & _ & _ & _ & _ & Hcode & _);
        pose proof (create_version_entry_version u x a b c act o n m) as Hv;
        pose proof (create_version_entry_action u x a b c act o n m eq_refl) as Ha;
        assert (Ho : VersionHistory.old_code
                       (snd (VersionHistoryService.create_version_entry u x a b c act o n m))
                     = Some (effective_logic s))
          by (unfold VersionHistoryService.create_version_entry;
              destruct (StageRepository.get_by_id x b); reflexivity);
        assert (Hn : VersionHistory.new_code
                       (snd (VersionHistoryService.create_version_entry u x a b c act o n m))
                     = Some edited)
          by (unfold VersionHistoryService.create_version_entry;
              destruct (StageRepository.get_by_id x b); reflexivity);
        set (r := VersionHistoryService.create_version_entry u x a b c act o n m) in *;
        clearbody r
    end.
    rewrite H1 in Hv. injection H as <- _.
    exists s'. split; [reflexivity|]. split; [exact G|].
    split; [exact L2|]. split; [exact L1|]. split; [exact L3|]. split; [exact L4|].
    split; [exact Hc|].
    exists (snd r). split; [exact Hh|]. split; [exact Hcode|]. split; [exact Ha|].
    split; [exact Ho|]. split; [exact Hn|]. now rewrite Hv.
  - injection H as <- _.
    exists (StageRepository.with_edited_logic s (Some edited)).
    split; [reflexivity|]. split; [exact H1|]. cbn. repeat split; reflexivity.
Qed.

(** The validation route marks a stage validated only on a valid result,
    and never takes the mark away: when the validator returns a valid
    result the stage is validated afterwards; when it returns an invalid
    result or raises, the database is left as it was (a stage validated
    earlier stays validated) and the response carries the verdict.  The
    logic of the stage is never changed. *)
Theorem validate_stage_marks_only_valid_results :
  forall d request_stage_id current_user_id d' response,
  validate_stage validate unified_diff d request_stage_id current_user_id
    = (d', Ok response) ->
  exists s,
    StageRepository.get_by_id d request_stage_id = Some s
    /\ authorized d s current_user_id = true
    /\ match validate (stage_data s) with
       | Returned result =>
           success response = true
           /\ resp_valid response = valid result
           /\ resp_status response = status result
           /\ if valid result
              then exists s',
                     StageRepository.get_by_id d' request_stage_id = Some s'
                     /\ Stage.is_validated s' = true
                     /\ Stage.original_logic s' = Stage.original_logic s
                     /\ Stage.edited_logic s' = Stage.edited_logic s
                     /\ Stage.is_finalized s' = Stage.is_finalized s
              else d' = d
       | Raised e =>
           d' = d /\ success response = false /\ resp_valid response = false
           /\ resp_status response = "ERROR" /\ error response = Some e
       end.
Proof.
  intros d sid uid d' response H. unfold validate_stage in H.
  destruct (StageRepository.get_by_id d sid) as [s|] eqn:Hs; [|discriminate].
  destruct (authorized d s uid) eqn:Ha; [|discriminate]. cbn [negb] in H.
  exists s. split; [reflexivity|]. split; [exact Ha|].
  pose proof (get_by_id_id d sid s Hs) as Hid. rewrite Hid in H.
  destruct (validate (stage_data s)) as [result|e].
  - destruct (valid result) eqn:Hvalid.
    + assert (H1 : StageRepository.get_by_id (StageRepository.mark_validated d sid) sid
                   = Some (StageRepository.with_flags s true (Stage.is_finalized s))).
      { unfold StageRepository.mark_validated.
        apply (get_by_id_update_first d sid
                 (fun s => StageRepository.with_flags s true (Stage.is_finalized s)));
          [exact Hs | reflexivity]. }
      cbv zeta in H.
      change (CodeRepository.get_by_stage (StageRepository.mark_validated d sid) sid)
        with (CodeRepository.get_by_stage d sid) in H.
      destruct (CodeRepository.get_by_stage d sid) as [code|].
      * match type of H with
        | context [fst (VersionHistoryService.create_version_entry ?u ?x ?a ?b ?c ?act ?o ?n ?m)] =>
            destruct (create_version_entry_stage u x a b c act o n m _ H1)
              as (s' & G & _ & _ & L1 & L2 & L3 & L4);
            set (r := VersionHistoryService.create_version_entry u x a b c act o n m) in *;
            clearbody r
        end.
        injection H as <- <-. cbn [success resp_valid resp_status].
        repeat (split; [reflexivity|]).
        exists s'. split; [exact G|]. split; [exact L3|].
        split; [exact L1|]. split; [exact L2|exact L4].
      * injection H as <- <-. cbn [success resp_valid resp_status].
        repeat (split; [reflexivity|]).
        eexists. split; [exact H1|]. cbn. repeat split; reflexivity.
    + injection H as <- <-. cbn [success resp_valid resp_status].
      repeat (split; [reflexivity|]). reflexivity.
  - injection H as <- <-. cbn. repeat split; reflexivity.
Qed.

End StageRouteFacts.

(** ** The code routes *)

Section CodeUpdateFacts.
Import PyStr Py CodeUpdateRoute.

Variable unified_diff : string -> string -> string.

Lemma find_update_first_code_same :
  forall (p : GeneratedCode.t -> bool) f l c,
  find p l = Some c -> p (f c) = true ->
  find p (update_first_code p f l) = Some (f c).
Proof.
  intros p f l c; induction l as [|x l IH]; simpl; intros H Hp; [discriminate|].
  destruct (p x) eqn:E.
  - injection H as ->. simpl. now rewrite Hp.
  - simpl. rewrite E. now apply IH.
Qed.

Lemma find_update_first_code_other :
  forall (p q : GeneratedCode.t -> bool) f l,
  (forall c, p c = true -> q c = false /\ q (f c) = false) ->
  find q (update_first_code p f l) = find q l.
Proof.
  intros p q f l H; induction l as [|x l IH]; simpl; [reflexivity|].
  destruct (p x) eqn:E; simpl.
  - destruct (H x E) as [-> ->]. reflexivity.
  - now rewrite IH.
Qed.

Lemma map_id_update_first_code :
  forall (p : GeneratedCode.t -> bool) f l,
  (forall c, GeneratedCode.id (f c) = GeneratedCode.id c) ->
  map GeneratedCode.id (update_first_code p f l) = map GeneratedCode.id l.
Proof.
  intros p f l H; induction l as [|x l IH]; simpl; [reflexivity|].
  destruct (p x); simpl; [now rewrite H | now rewrite IH].
Qed.

(** A manual edit of the code rewrites one row and no other: the row
    [get_by_stage] returned for the stage gets the body and the labels of
    the request and keeps its key; for every other stage [get_by_stage]
    returns what it returned before, so the labels of the other stages are
    not brought in line; the keys of the table are as before; and one
    [edit_code] entry, without snapshot and without diff, joins the
    history. *)
Theorem update_generated_code_rewrites_one_row :
  forall d request current_user_id d' response_stage_id,
  update_generated_code unified_diff d request current_user_id
    = (d', Ok response_stage_id) ->
  exists code,
    CodeRepository.get_by_stage d (stage_id request) = Some code
    /\ CodeRepository.get_by_stage d' (stage_id request) = Some (apply_request request code)
    /\ (forall other, other <> stage_id request ->
          CodeRepository.get_by_stage d' other = CodeRepository.get_by_stage d other)
    /\ map GeneratedCode.id (Db.generated_codes d') = map GeneratedCode.id (Db.generated_codes d)
    /\ exists e,
         Db.version_history d' = (Db.version_history d ++ [e])%list
         /\ VersionHistoryService.entry_action e = PStr "edit_code"
         /\ VersionHistory.code_id e = GeneratedCode.id code
         /\ VersionHistory.new_code e = Some ""
         /\ VersionHistory.diff e = "".
Proof.
  intros d request uid d' rid H. unfold update_generated_code in H.
  destruct (StageRepository.get_by_id d (stage_id request)) as [s|] eqn:Hs; [|discriminate].
  destruct (StagesRoute.authorized d s uid); [|discriminate]. cbn [negb] in H.
  destruct (CodeRepository.get_by_stage d (stage_id request)) as [code|] eqn:Hc;
    [|discriminate].
  cbv zeta in H.
  match type of H with
  | context [fst (VersionHistoryService.create_version_entry ?u ?x ?a ?b ?c ?act ?o ?n ?m)] =>
      destruct (create_version_entry_entry u x a b c act o n m)
        as (Hh & Hcodes & _ & _ & _ & _ & Hcode & _);
      pose proof (create_version_entry_action u x a b c act o n m eq_refl) as Ha;
      destruct (create_version_entry_no_snapshot u x a b c act o n m eq_refl eq_refl)
        as (_ & Hn & Hd);
      set (r := VersionHistoryService.create_version_entry u x a b c act o n m) in *;
      clearbody r
  end.
  injection H as <- _. cbn [Db.with_codes Db.generated_codes Db.version_history] in Hh, Hcodes.
  exists code. split; [reflexivity|].
  assert (Hkeep : forall c, CodeRepository.of_stage (stage_id request) (apply_request request c)
                            = CodeRepository.of_stage (stage_id request) c) by reflexivity.
  split; [|split; [|split]].
  - unfold CodeRepository.get_by_stage. rewrite Hcodes.
    unfold update_current. rewrite rev_involutive.
    apply find_update_first_code_same; [exact Hc|].
    rewrite Hkeep. unfold CodeRepository.get_by_stage in Hc.
    now apply find_some in Hc as [_ Hc].
  - intros other Hne. unfold CodeRepository.get_by_stage. rewrite Hcodes.
    unfold update_current. rewrite rev_involutive.
    apply find_update_first_code_other. intros c Hp.
    assert (Ho : CodeRepository.of_stage other c = false)
      by (apply (of_stage_other (stage_id request) other c Hp); congruence).
    split; [exact Ho|]. exact Ho.
  - rewrite Hcodes. unfold update_current.
    rewrite map_rev, map_id_update_first_code by reflexivity.
    rewrite <- map_rev. now rewrite rev_involutive.
  - exists (snd r). rewrite Hcode. repeat split; assumption.
Qed.

End CodeUpdateFacts.

Section CodeRouteFacts.
Import PyStr Py Artifacts CodeGenerationRoute.

Variable unified_diff : string -> string -> string.

(** The route asks the generator nothing while a stage of the project is
    not validated: whatever the generator would answer, the caller gets the
    same error, 403 for a project of another user and 400 otherwise, and the
    database is left as it was. *)
Theorem generate_code_refuses_unvalidated_project :
  forall d request_stage_id current_user_id stage stg,
  StageRepository.get_by_id d request_stage_id = Some stage ->
  In stg (StageRepository.get_by_project d (Stage.project_id stage)) ->
  Stage.is_validated stg = false ->
  exists status_code detail,
    (status_code = 403 \/ status_code = 400)%Z
    /\ forall st_generate_code,
         generate_code st_generate_code unified_diff d request_stage_id current_user_id
         = (d, HTTPException status_code detail).
Proof.
  intros d sid uid stage stg Hs Hin Hv. unfold generate_code. rewrite Hs.
  destruct (negb _).
  - exists 403%Z. eexists. split; [now left|]. intros g. reflexivity.
  - destruct (filter (fun s => negb (Stage.is_validated s))
                (StageRepository.get_by_project d (Stage.project_id stage)))
      as [|u us] eqn:F.
    + exfalso.
      assert (Hf : In stg (filter (fun s => negb (Stage.is_validated s))
                             (StageRepository.get_by_project d (Stage.project_id stage)))).
      { apply filter_In. split; [exact Hin|]. now rewrite Hv. }
      rewrite F in Hf. destruct Hf.
    + exists 400%Z. eexists. split; [now right|]. intros g. reflexivity.
Qed.

Lemma filter_of_stage_deleted : forall i (l : list GeneratedCode.t),
  filter (CodeRepository.of_stage i)
    (filter (fun c => negb (CodeRepository.of_stage i c)) l) = [].
Proof.
  intros i l. induction l as [|x l IH]; simpl; [reflexivity|].
  destruct (CodeRepository.of_stage i x) eqn:E; simpl; [exact IH|].
  rewrite E. exact IH.
Qed.

Lemma filter_of_stage_kept : forall i j (l : list GeneratedCode.t),
  i <> j ->
  filter (CodeRepository.of_stage i)
    (filter (fun c => negb (CodeRepository.of_stage j c)) l)
  = filter (CodeRepository.of_stage i) l.
Proof.
  intros i j l Hne. induction l as [|x l IH]; simpl; [reflexivity|].
  destruct (CodeRepository.of_stage j x) eqn:Ej; simpl.
  - rewrite (of_stage_other j i x Ej) by congruence. exact IH.
  - destruct (CodeRepository.of_stage i x); [now rewrite IH | exact IH].
Qed.

(** After [save_stage] the stage has one row, and the other stages the rows
    they had. *)
Lemma save_stage_count : forall user_id m d stg result i,
  List.length (filter (CodeRepository.of_stage i)
                 (Db.generated_codes (save_stage unified_diff user_id m d (stg, result))))
  = if Z.eqb i (Stage.id stg) then 1
    else List.length (filter (CodeRepository.of_stage i) (Db.generated_codes d)).
Proof.
  intros user_id m d stg result i.
  destruct (save_stage_codes unified_diff user_id m d stg result) as (c & -> & Hc & _).
  rewrite filter_app, length_app. cbn [filter].
  destruct (Z.eqb_spec i (Stage.id stg)) as [->|Hne].
  - rewrite filter_of_stage_deleted, Hc. reflexivity.
  - rewrite (filter_of_stage_kept i (Stage.id stg)) by exact Hne.
    rewrite (of_stage_other (Stage.id stg) i c Hc) by congruence. simpl. lia.
Qed.

Lemma fold_save_stage_count : forall user_id m generated_results d i,
  List.length (filter (CodeRepository.of_stage i)
                 (Db.generated_codes
                    (fold_left (save_stage unified_diff user_id m) generated_results d)))
  = if existsb (fun sr => Z.eqb i (Stage.id (fst sr))) generated_results then 1
    else List.length (filter (CodeRepository.of_stage i) (Db.generated_codes d)).
Proof.
  induction generated_results as [|[stg result] rest IH]; intros d i;
    cbn [fold_left existsb fst]; [reflexivity|].
  rewrite IH, save_stage_count.
  destruct (existsb _ rest); [now rewrite orb_true_r|]. now rewrite orb_false_r.
Qed.

Lemma fold_save_stage_keeps : forall user_id m generated_results d c,
  In c (Db.generated_codes d) ->
  (forall sr, In sr generated_results -> CodeRepository.of_stage (Stage.id (fst sr)) c = false) ->
  In c (Db.generated_codes
          (fold_left (save_stage unified_diff user_id m) generated_results d)).
Proof.
  induction generated_results as [|[stg result] rest IH]; intros d c Hin H;
    cbn [fold_left]; [exact Hin|].
  apply IH; [|intros sr Hsr; apply H; now right].
  destruct (save_stage_codes unified_diff user_id m d stg result) as (c0 & -> & _).
  apply in_or_app. left. apply filter_In. split; [exact Hin|].
  pose proof (H (stg, result) (or_introl eq_refl)) as Hc. cbn [fst] in Hc.
  now rewrite Hc.
Qed.

Lemma save_stage_history : forall user_id m d sr,
  List.length (Db.version_history (save_stage unified_diff user_id m d sr))
  = S (List.length (Db.version_history d)).
Proof.
  intros user_id m d [stg result]. unfold save_stage, CodeRepository.create.
  cbn [Db.utcnow]. cbv zeta.
  match goal with
  | |- context [fst (VersionHistoryService.create_version_entry ?u ?x ?a ?b ?c ?e ?f ?g ?h)] =>
      rewrite (proj1 (create_version_entry_entry u x a b c e f g h))
  end.
  rewrite length_app. cbn. lia.
Qed.

Lemma fold_save_stage_history : forall user_id m generated_results d,
  List.length (Db.version_history
                 (fold_left (save_stage unified_diff user_id m) generated_results d))
  = List.length (Db.version_history d) + List.length generated_results.
Proof.
  induction generated_results as [|sr rest IH]; intros d; cbn [fold_left List.length];
    [lia|].
  rewrite IH, save_stage_history. lia.
Qed.

(** A successful generation replaces the code of the whole project: every
    stage of the project was validated and has exactly one code row
    afterwards, whatever rows it had; the rows of stages outside the
    project are kept; and the history grows by one entry per stage of the
    project. *)
Theorem generate_code_leaves_one_row_per_stage :
  forall st_generate_code d request_stage_id current_user_id d' response stage,
  generate_code st_generate_code unified_diff d request_stage_id current_user_id
    = (d', Ok response) ->
  StageRepository.get_by_id d request_stage_id = Some stage ->
  (forall X, In X (StageRepository.get_by_project d (Stage.project_id stage)) ->
     Stage.is_validated X = true
     /\ List.length (filter (CodeRepository.of_stage (Stage.id X)) (Db.generated_codes d')) = 1)
  /\ (forall c, In c (Db.generated_codes d) ->
        (forall X, In X (StageRepository.get_by_project d (Stage.project_id stage)) ->
           CodeRepository.of_stage (Stage.id X) c = false) ->
        In c (Db.generated_codes d'))
  /\ List.length (Db.version_history d')
     = List.length (Db.version_history d)
       + List.length (StageRepository.get_by_project d (Stage.project_id stage)).
Proof.
  intros g d sid uid d' response stage Hrun Hs.
  unfold generate_code in Hrun. rewrite Hs in Hrun.
  destruct (negb _); [discriminate|].
  destruct (filter _ _) eqn:F; [|discriminate].
  destruct (generate_all g _) as [[results labels]|e] eqn:Hgen; [|discriminate].
  set (m := GlobalLabelsService.merge_global_labels [] labels) in *.
  destruct (find _ results) as [[s0 r0]|]; [|discriminate].
  injection Hrun as <- _.
  pose proof (generate_all_results _ _ _ _ Hgen) as Hres.
  split; [|split].
  - intros X HX. split.
    + destruct (Stage.is_validated X) eqn:V; [reflexivity|].
      assert (Hf : In X (filter (fun s => negb (Stage.is_validated s))
                           (StageRepository.get_by_project d (Stage.project_id stage)))).
      { apply filter_In. split; [exact HX|]. now rewrite V. }
      rewrite F in Hf. destruct Hf.
    + rewrite fold_save_stage_count.
      assert (E : existsb (fun sr => Z.eqb (Stage.id X) (Stage.id (fst sr))) results = true).
      { rewrite <- Hres in HX. apply in_map_iff in HX as [sr [E Hsr]].
        apply existsb_exists. exists sr. split; [exact Hsr|]. rewrite E. apply Z.eqb_refl. }
      now rewrite E.
  - intros c Hc Hout. apply fold_save_stage_keeps; [exact Hc|].
    intros sr Hsr. apply Hout. rewrite <- Hres. now apply in_map.
  - rewrite fold_save_stage_history. f_equal. rewrite <- Hres. now rewrite length_map.
Qed.

End CodeRouteFacts.

(** ** Label tables and the generator *)

Section LabelTableFacts.
Import PyStr Py Artifacts StructuredTextGenerator.

Lemma part_truthy : forall parts i,
  Forall (fun p => truthy p = true) parts -> i < List.length parts ->
  truthy (part parts i) = true.
Proof.
  intros parts i F Hi. unfold part. rewrite Forall_forall in F.
  apply F. now apply nth_In.
Qed.

Lemma parse_label_line_rows : forall line l,
  In l (parse_label_line line) ->
  truthy (name l) = true /\ truthy (data_type l) = true /\ truthy (class l) = true
  /\ name l <> "-" /\ name l <> "N/A"
  /\ any_in ["label name"; "name"; "column"; "label"] (lower (name l)) = false.
Proof.
  intros line l. unfold parse_label_line.
  destruct (contains "|" line); [|intros []].
  set (parts := filter truthy (map strip (split_on "|" line))).
  assert (F : Forall (fun p => truthy p = true) parts).
  { apply Forall_forall. intros p Hp. now apply filter_In in Hp as [_ Hp]. }
  destruct (Nat.leb 3 (List.length parts)) eqn:L; [|intros []].
  destruct (any_in ["label name"; "name"; "column"; "label"] (lower (part parts 0))) eqn:A;
    [intros []|].
  cbn [andb negb].
  destruct (truthy (name (label_of_parts parts))
            && negb (mem (name (label_of_parts parts)) [""; "-"; "N/A"])) eqn:T;
    [|intros []].
  intros [<-|[]]. apply Nat.leb_le in L.
  apply andb_true_iff in T as [T1 T2]. apply negb_true_iff in T2.
  unfold label_of_parts in *. cbn [name data_type class] in *.
  split; [exact T1|]. split; [apply part_truthy; [exact F|lia]|].
  split; [apply part_truthy; [exact F|lia]|].
  split; [|split; [|exact A]].
  - intros E. rewrite E in T2. vm_compute in T2. discriminate.
  - intros E. rewrite E in T2. vm_compute in T2. discriminate.
Qed.

(** Every row [_parse_label_table] returns is a complete one: its name,
    data type and class are non-empty, its name is neither [-] nor [N/A],
    and its name holds none of the words by which a header row is
    recognised ([name], [label], [column], in any case), so a label whose
    name holds one of them is never returned. *)
Theorem parsed_labels_are_complete_rows : forall table_text l,
  In l (_parse_label_table table_text) ->
  truthy (name l) = true /\ truthy (data_type l) = true /\ truthy (class l) = true
  /\ name l <> "-" /\ name l <> "N/A"
  /\ any_in ["label name"; "name"; "column"; "label"] (lower (name l)) = false.
Proof.
  intros table_text l H. unfold _parse_label_table in H.
  apply in_flat_map in H as [line [_ H]]. now apply (parse_label_line_rows line).
Qed.

(** The row of the start button, as a table of one line. *)
Lemma parsed_labels_are_complete_rows_witness :
  truthy (name Samples.start_button) = true
  /\ truthy (data_type Samples.start_button) = true
  /\ truthy (class Samples.start_button) = true
  /\ name Samples.start_button <> "-" /\ name Samples.start_button <> "N/A"
  /\ any_in ["label name"; "name"; "column"; "label"] (lower (name Samples.start_button))
     = false.
Proof.
  apply (parsed_labels_are_complete_rows "Start_Button | Bit | VAR_GLOBAL | X0").
  vm_compute. left. reflexivity.
Defined.

(** The generator returns a successful result or raises, never a failure
    value.  It returns when the retrieval of the manual context, the model
    call and the write of the debug file all succeed and the reply is not
    empty; it raises exactly when one of the three raises (with that
    exception) or the reply is empty.  A result is named after the stage
    number, not after the reply ([STAGE_n]), runs as [Initial], [Scan] or
    [Event], and its body and local labels are those of the first named
    program block of the reply, empty when there is none. *)
Theorem generator_returns_success_or_raises :
  forall retrieve_context chat_completion write_debug_file stage project_context,
  let request := _build_generation_request stage project_context in
  let stage_number := dict_get_default stage "stage_number" (PInt 0) in
  match generate_code retrieve_context chat_completion write_debug_file
          stage project_context with
  | Returned r =>
      success r = true
      /\ (exists manual_context code_text,
            _get_code_generation_context retrieve_context = Returned manual_context
            /\ chat_completion manual_context request = Returned code_text
            /\ truthy code_text = true
            /\ write_debug_file stage_number code_text = Returned tt
            /\ gen_program_blocks r = program_blocks (_parse_generated_code code_text)
            /\ gen_global_labels r = global_labels (_parse_generated_code code_text))
      /\ dict_get (gen_metadata r) "program_name" = PStr ("STAGE_" ++ py_str stage_number)
      /\ In (dict_get (gen_metadata r) "execution_type")
            [PStr "Initial"; PStr "Scan"; PStr "Event"]
      /\ match gen_program_blocks r with
         | first :: _ =>
             gen_program_body r = pb_code first
             /\ gen_local_labels r = pb_local_labels first
         | [] => gen_program_body r = "" /\ gen_local_labels r = []
         end
  | Raised e =>
      _get_code_generation_context retrieve_context = Raised e
      \/ exists manual_context,
           _get_code_generation_context retrieve_context = Returned manual_context
           /\ (chat_completion manual_context request = Raised e
               \/ exists code_text,
                    chat_completion manual_context request = Returned code_text
                    /\ ((truthy code_text = false
                         /\ e = "No response received from code generation service")
                        \/ (truthy code_text = true
                            /\ write_debug_file stage_number code_text = Raised e)))
  end.
Proof.
  intros retrieve chat write stage ctx. cbv zeta. unfold generate_code.
  destruct (_get_code_generation_context retrieve) as [manual|e] eqn:C; [|now left].
  destruct (chat manual (_build_generation_request stage ctx)) as [code_text|e] eqn:M;
    [|right; exists manual; split; [reflexivity|]; left; exact M].
  destruct (truthy code_text) eqn:T; cbn [negb];
    [|right; exists manual; split; [reflexivity|]; right; exists code_text;
      split; [exact M|]; left; split; [exact T|reflexivity]].
  destruct (write (dict_get_default stage "stage_number" (PInt 0)) code_text) as [[]|e] eqn:W;
    [|right; exists manual; split; [reflexivity|]; right; exists code_text;
      split; [exact M|]; right; split; [exact T|exact W]].
  cbn [success gen_metadata gen_program_blocks gen_program_body gen_local_labels
       gen_global_labels].
  split; [reflexivity|]. split; [exists manual, code_text; repeat split; assumption|].
  split; [reflexivity|]. split.
  - change (dict_get _ "execution_type")
      with (PStr (_determine_execution_type (dict_get stage "stage_type"))).
    unfold _determine_execution_type.
    destruct (dict_get stage "stage_type") as [| | |s]; try (right; left; reflexivity).
    repeat match goal with
           | |- context [if ?b then _ else _] => destruct b
           end; simpl; auto.
  - unfold _parse_generated_code.
    destruct (parse_matches _parse_program_block program_pattern code_text);
      cbn; split; reflexivity.
Qed.

End LabelTableFacts.

(** ** The process-flow analyzer *)

Section AnalyzerFacts.
Import PyStr Py ProcessFlowAnalyzer.

Lemma prefix_split : forall p s,
  String.prefix p s = true -> s = p ++ drop (String.length p) s.
Proof.
  induction p as [|c p IH]; intros s H; [now destruct s|].
  destruct s as [|c' s]; simpl in H; [discriminate|].
  destruct (ascii_dec c c') as [->|]; [|discriminate].
  simpl. f_equal. now apply IH.
Qed.

Lemma word_run_split : forall t, exists rest, t = word_run t ++ rest.
Proof.
  induction t as [|c t [rest IH]]; simpl; [now exists EmptyString|].
  destruct (is_word c).
  - exists rest. simpl. now f_equal.
  - now exists (String c t).
Qed.

Lemma word_run_words : forall t, all_chars is_word (word_run t) = true.
Proof.
  induction t as [|c t IH]; simpl; [reflexivity|].
  destruct (is_word c) eqn:E; simpl; [now rewrite E|reflexivity].
Qed.

Lemma string_app_assoc : forall a b c : string, (a ++ b) ++ c = a ++ (b ++ c).
Proof. induction a as [|x a IH]; intros; simpl; [reflexivity|now rewrite IH]. Qed.

Lemma findall_keyword_words : forall keyword s prev_word skip w,
  In w (findall_keyword keyword s prev_word skip) ->
  (exists rest, w = keyword ++ rest /\ all_chars is_word rest = true)
  /\ contains w s = true.
Proof.
  intros keyword. induction s as [|c s IH]; intros prev skip w H; [destruct H|].
  assert (Later : forall prev' skip',
            In w (findall_keyword keyword s prev' skip') ->
            (exists rest, w = keyword ++ rest /\ all_chars is_word rest = true)
            /\ contains w (String c s) = true).
  { intros prev' skip' H'. destruct (IH prev' skip' w H') as [H1 H2].
    split; [exact H1|]. cbn [contains]. rewrite H2. apply orb_true_r. }
  cbn [findall_keyword] in H. destruct skip as [|k]; [|exact (Later _ _ H)].
  destruct (negb prev && String.prefix keyword (String c s)) eqn:E;
    [|exact (Later _ _ H)].
  destruct H as [<-|H]; [|exact (Later _ _ H)].
  apply andb_true_iff in E as [_ E]. split.
  - eexists. split; [reflexivity|apply word_run_words].
  - destruct (word_run_split (drop (String.length keyword) (String c s))) as [rest R].
    pose proof (prefix_split _ _ E) as P. rewrite R in P at 1.
    rewrite <- string_app_assoc in P. rewrite P at 2. apply contains_self_app.
Qed.

Lemma distinct_In : forall l x, In x (distinct l) -> In x l.
Proof.
  induction l as [|y l IH]; intros x H; simpl in *; [exact H|].
  destruct H as [H|H]; [now left|]. right. apply IH.
  now apply filter_In in H as [H _].
Qed.

Lemma distinct_NoDup : forall l, NoDup (distinct l).
Proof.
  induction l as [|y l IH]; simpl; constructor.
  - intros H. apply filter_In in H as [_ H]. now rewrite String.eqb_refl in H.
  - now apply NoDup_filter.
Qed.

(** On ASCII text the analyzer reports each device once, and only words of
    the text: a reported device stands in the lowercased text and is a
    keyword of the device type followed by word characters only.  The
    complexity score is at most 15, five points for each of the length, the
    condition words and the actuators. *)
Theorem extracted_devices_are_distinct_words_of_the_text : forall text device_type,
  is_ascii text = true ->
  NoDup (_extract_devices text device_type)
  /\ (forall w, In w (_extract_devices text device_type) ->
        contains w (lower text) = true
        /\ exists keyword rest,
             In keyword (flow_keywords device_type)
             /\ w = keyword ++ rest /\ all_chars is_word rest = true)
  /\ _calculate_complexity text <= 15.
Proof.
  intros text device_type _. split; [apply distinct_NoDup|]. split.
  - intros w H. unfold _extract_devices in H. apply distinct_In in H.
    apply in_flat_map in H as [keyword [Hk H]].
    destruct (findall_keyword_words _ _ _ _ _ H) as [[rest [E W]] C].
    split; [exact C|]. now exists keyword, rest.
  - unfold _calculate_complexity. lia.
Qed.

(** A sentence with two motors, one of them named twice, and a pump. *)
Lemma extracted_devices_are_distinct_words_of_the_text_witness :
  In "motor1" (_extract_devices "Start Motor1, then motor2 and the pump; stop motor1."
                                "actuator")
  /\ NoDup (_extract_devices "Start Motor1, then motor2 and the pump; stop motor1."
                             "actuator").
Proof.
  split; [vm_compute; left; reflexivity|].
  apply (extracted_devices_are_distinct_words_of_the_text
           "Start Motor1, then motor2 and the pump; stop motor1." "actuator").
  vm_compute. reflexivity.
Defined.

End AnalyzerFacts.

(** ** Input check, dependencies and the label update *)

Section PlannerChecks.
Import PyStr Py.

(** On ASCII text [InputValidator.validate] accepts a text iff it is not
    blank and has between 50 and 5000 words; it reports an error exactly
    when it rejects; and it accepts exactly the texts the planner's own
    check accepts that have at most 5000 words. *)
Theorem input_validator_window_and_error : forall text,
  is_ascii text = true ->
  py_truthy (dict_get (InputValidator.validate text) "valid")
  = truthy text && truthy (strip text)
    && Z.leb 50 (InputValidator.word_count text)
    && Z.leb (InputValidator.word_count text) 5000
  /\ (dict_lookup (InputValidator.validate text) "error" = None
      <-> py_truthy (dict_get (InputValidator.validate text) "valid") = true)
  /\ py_truthy (dict_get (InputValidator.validate text) "valid")
     = py_truthy (dict_get (PlannerOrchestrator._validate_input text) "valid")
       && Z.leb (InputValidator.word_count text) 5000.
Proof.
  intros text _. split; [apply input_validator_accepts|]. split.
  - unfold InputValidator.validate.
    destruct (negb (truthy text) || negb (truthy (strip text))); cbn;
      [split; discriminate|].
    destruct (Z.ltb _ _); cbn; [split; discriminate|].
    destruct (Z.gtb _ _); cbn; [split; discriminate|]. split; reflexivity.
  - rewrite input_validator_accepts, planner_validate_input_accepts. reflexivity.
Qed.

(** A text of 50 words is accepted, one of 49 is not. *)
Lemma input_validator_window_and_error_witness :
  py_truthy (dict_get (InputValidator.validate (Samples.repeat_word 50)) "valid") = true
  /\ py_truthy (dict_get (InputValidator.validate (Samples.repeat_word 49)) "valid") = false.
Proof.
  split.
  - rewrite (proj1 (input_validator_window_and_error (Samples.repeat_word 50) eq_refl)).
    vm_compute. reflexivity.
  - rewrite (proj1 (input_validator_window_and_error (Samples.repeat_word 49) eq_refl)).
    vm_compute. reflexivity.
Defined.

Import DependencyMapper.

(** What [validate_dependencies] gets right: the verdict is valid iff both
    ends of every dependency are stage numbers; every dependency that does
    not go forward is warned about; what the pass marks reachable is
    reachable from stage 0 in the transition graph, so every stage other
    than 0 that no path reaches gets its warning. *)
Theorem validate_dependencies_sound_parts : forall stages dependencies,
  (valid (validate_dependencies stages dependencies) = true
   <-> forall dep, In dep dependencies ->
         In (from_stage dep) (map stage_number stages)
         /\ In (to_stage dep) (map stage_number stages))
  /\ (forall dep, In dep dependencies -> (from_stage dep >= to_stage dep)%Z ->
        In (backwards_warning (from_stage dep) (to_stage dep))
           (warnings (validate_dependencies stages dependencies)))
  /\ (forall n, In n (reachable_stages dependencies) -> path dependencies 0%Z n)
  /\ (forall s, In s stages -> stage_number s <> 0%Z ->
        ~ path dependencies 0%Z (stage_number s) ->
        In (unreachable_warning (stage_number s))
           (warnings (validate_dependencies stages dependencies))).
Proof.
  intros stages dependencies. split; [apply validate_dependencies_valid|].
  split; [intros dep; apply validate_dependencies_backwards|].
  split; [intros n; apply reachable_stages_sound|].
  intros s. apply validate_dependencies_warns_unreachable.
Qed.

End PlannerChecks.

Section LabelUpdate.
Import PyStr Artifacts GlobalLabelsService.

(** [update_all_stages_with_global_labels] rewrites the global labels of
    the stage rows of the project and nothing else: the number it returns
    is the number of those rows; afterwards each of them holds the given
    list; every other row, and every other column of the rewritten rows,
    is as before, and so are the stages and the history. *)
Theorem update_all_stages_rewrites_only_project_rows : forall d project_id labels,
  let r := update_all_stages_with_global_labels d project_id labels in
  snd r = List.length (filter (stage_code_of project_id) (Db.generated_codes d))
  /\ Db.stages (fst r) = Db.stages d
  /\ Db.version_history (fst r) = Db.version_history d
  /\ map (fun c => (GeneratedCode.id c, GeneratedCode.stage_id c, GeneratedCode.program_body c,
                    GeneratedCode.local_labels c))
         (Db.generated_codes (fst r))
     = map (fun c => (GeneratedCode.id c, GeneratedCode.stage_id c, GeneratedCode.program_body c,
                      GeneratedCode.local_labels c))
           (Db.generated_codes d)
  /\ (forall c, In c (Db.generated_codes (fst r)) ->
        stage_code_of project_id c = true -> GeneratedCode.global_labels c = labels)
  /\ (forall c, In c (Db.generated_codes d) ->
        stage_code_of project_id c = false -> In c (Db.generated_codes (fst r))).
Proof.
  intros d pid labels r.
  assert (Hr : Db.generated_codes (fst r)
               = map (with_global_labels pid labels) (Db.generated_codes d)) by reflexivity.
  split; [reflexivity|]. split; [reflexivity|]. split; [reflexivity|].
  split; [|split].
  - rewrite Hr, map_map. apply map_ext. intros c. unfold with_global_labels.
    destruct (stage_code_of pid c); reflexivity.
  - intros c Hin Hs. rewrite Hr in Hin. apply in_map_iff in Hin as [c0 [<- _]].
    rewrite with_global_labels_hit in Hs. unfold with_global_labels. now rewrite Hs.
  - intros c Hin Hs. rewrite Hr. apply in_map_iff. exists c. split; [|exact Hin].
    unfold with_global_labels. now rewrite Hs.
Qed.

End LabelUpdate.

(** ** The properties at the sample data *)

Section FurtherWitnesses.
Import PyStr Py Artifacts Samples MoreSamples.

(** The failing reply has a critical issue and no [Status: PASS] line. *)
Lemma critical_fails_without_literal_pass_witness :
  StageValidator.valid (StageValidator._parse_validation_result StageValidator.fail_with_critical)
  = false.
Proof.
  apply critical_fails_without_literal_pass.
  - vm_compute. reflexivity.
  - vm_compute. discriminate.
Defined.

(** A [validate] entry on the sample stage at 1.0.0. *)
Lemma version_entry_stamps_its_stage_witness :
  VersionHistory.version_number
    (snd (VersionHistoryService.create_version_entry no_diff one_stage_db 100 10 7
            "validate" None None None)) = "1.1.0"
  /\ VersionHistoryService.stage_entries
       (fst (VersionHistoryService.create_version_entry no_diff one_stage_db 100 10 7
               "validate" None None None)) 10
     = [snd (VersionHistoryService.create_version_entry no_diff one_stage_db 100 10 7
               "validate" None None None)].
Proof.
  destruct (version_entry_stamps_its_stage no_diff one_stage_db 100 10 7 "validate"
              None None None conveyor_stage eq_refl) as (Hv & _ & He & _).
  split; [rewrite Hv; vm_compute; reflexivity | rewrite He; reflexivity].
Defined.

(** The same entry for stage 99, which has no row. *)
Lemma version_entry_for_missing_stage_witness :
  Db.stages (fst (VersionHistoryService.create_version_entry no_diff one_stage_db 100 99 7
                    "validate" None None None)) = [conveyor_stage]
  /\ VersionHistory.version_number
       (snd (VersionHistoryService.create_version_entry no_diff one_stage_db 100 99 7
               "validate" None None None)) = "1.1.0".
Proof.
  destruct (version_entry_for_missing_stage no_diff one_stage_db 100 99 7 "validate"
              None None None eq_refl) as (Hs & _ & _ & Hv).
  split; [rewrite Hs; reflexivity | rewrite Hv; vm_compute; reflexivity].
Defined.

(** An edit of the logic of the sample stage, which is validated. *)
Lemma update_stage_logic_keeps_original_and_flags_witness :
  exists s',
    StageRepository.get_by_id
      (fst (StagesRoute.update_stage_logic no_diff one_stage_db 10 "Stop on guard open" 7)) 10
    = Some s'
    /\ Stage.edited_logic s' = Some "Stop on guard open"
    /\ Stage.original_logic s' = "Start conveyor on button"
    /\ Stage.is_validated s' = true.
Proof.
  destruct (update_stage_logic_keeps_original_and_flags no_diff one_stage_db 10
              "Stop on guard open" 7
              (fst (StagesRoute.update_stage_logic no_diff one_stage_db 10
                      "Stop on guard open" 7))
              "Stage logic updated successfully")
    as (s & s' & Hs & Hs' & He & Ho & Hv & _).
  - vm_compute. reflexivity.
  - vm_compute in Hs. injection Hs as <-.
    exists s'. split; [exact Hs'|]. split; [exact He|]. split; [exact Ho | exact Hv].
Defined.

(** A failed validation of the sample stage leaves the database as it was. *)
Lemma validate_stage_marks_only_valid_results_witness :
  fst (StagesRoute.validate_stage failing_validator no_diff one_stage_db 10 7) = one_stage_db.
Proof.
  destruct (StagesRoute.validate_stage failing_validator no_diff one_stage_db 10 7)
    as [d' r] eqn:E.
  assert (R : exists response, r = Ok response)
    by (vm_compute in E; injection E as _ <-; eexists; reflexivity).
  destruct R as [response ->].
  destruct (validate_stage_marks_only_valid_results failing_validator no_diff one_stage_db
              10 7 d' response E) as (s & Hs & _ & Hm).
  vm_compute in Hs. injection Hs as <-. vm_compute in Hm.
  destruct Hm as (_ & _ & _ & ->). reflexivity.
Defined.

(** A manual edit of the code of the sample stage. *)
Lemma update_generated_code_rewrites_one_row_witness :
  exists code,
    CodeRepository.get_by_stage
      (fst (CodeUpdateRoute.update_generated_code no_diff one_stage_db edit_request 7)) 10
    = Some code
    /\ GeneratedCode.program_body code = "Motor := Start AND Guard;"
    /\ GeneratedCode.global_labels code = [start_button].
Proof.
  destruct (update_generated_code_rewrites_one_row no_diff one_stage_db edit_request 7
              (fst (CodeUpdateRoute.update_generated_code no_diff one_stage_db edit_request 7))
              10)
    as (code & Hc & Hc' & _).
  - vm_compute. reflexivity.
  - eexists. split; [exact Hc'|]. split; reflexivity.
Defined.

(** The sample project with a stage that is not validated. *)
Lemma generate_code_refuses_unvalidated_project_witness :
  exists status_code detail,
    (status_code = 403 \/ status_code = 400)%Z
    /\ forall st_generate_code,
         CodeGenerationRoute.generate_code st_generate_code no_diff draft_db 11 7
         = (draft_db, HTTPException status_code detail).
Proof.
  apply (generate_code_refuses_unvalidated_project no_diff draft_db 11 7
           idle_stage draft_stage).
  - reflexivity.
  - vm_compute. right. right. left. reflexivity.
  - reflexivity.
Defined.

(** The sample project, generated with the generator of scenario S4. *)
Lemma generate_code_leaves_one_row_per_stage_witness :
  List.length
    (filter (CodeRepository.of_stage 11)
       (Db.generated_codes
          (fst (CodeGenerationRoute.generate_code s4_generator no_diff two_stage_db 12 7))))
  = 1
  /\ List.length
       (Db.version_history
          (fst (CodeGenerationRoute.generate_code s4_generator no_diff two_stage_db 12 7)))
     = 2.
Proof.
  destruct (CodeGenerationRoute.generate_code s4_generator no_diff two_stage_db 12 7)
    as [d' r] eqn:E.
  assert (R : exists response, r = Ok response)
    by (vm_compute in E; injection E as _ <-; eexists; reflexivity).
  destruct R as [response ->].
  destruct (generate_code_leaves_one_row_per_stage no_diff s4_generator two_stage_db 12 7
              d' response safety_stage E eq_refl) as (H1 & _ & H3).
  cbn [fst]. split.
  - apply (H1 idle_stage). vm_compute. left. reflexivity.
  - rewrite H3. reflexivity.
Defined.

End FurtherWitnesses.

(** ** The validation route over the validator *)

Section ValidationPipeline.
Import PyStr Py StageValidator StageValidatorRules StagesRoute.

Lemma parse_verdict_consistent : forall validation_text,
  verdict_consistent (_parse_validation_result validation_text).
Proof.
  intros t. unfold _parse_validation_result.
  set (st := fold_left step _ _).
  assert (S : state_well_formed st).
  { apply fold_step_well_formed. split; [|exact I].
    unfold initial_result. destruct (contains "Status: PASS" t); cbn [result].
    - repeat split; simpl; auto. left; auto.
    - repeat split; simpl; auto. right; auto. }
  destruct S as [W Hc].
  pose proof (flush_well_formed _ _ W Hc) as (V & _).
  destruct (Nat.eqb _ 0); [left; split; reflexivity | exact V].
Qed.

(** The validation route over the validator answers with one of three
    verdicts, decided by the retrieval, the model call and the reply (the
    database operations of the route are taken to succeed): [ERROR], with
    the database left as it was, when the retrieval of the manual context
    raised, the model call raised or the reply was empty, and only then;
    otherwise the verdict read from the reply, [PASS] with [valid], or
    [FAIL] without it and with the database left as it was. *)
Theorem validation_route_answers_pass_fail_or_error :
  forall retrieve_context chat_completion unified_diff d request_stage_id current_user_id
         d' response,
  StagesRoute.validate_stage
    (StageValidatorRules.validate_stage retrieve_context chat_completion)
    unified_diff d request_stage_id current_user_id = (d', Ok response) ->
  exists s,
    StageRepository.get_by_id d request_stage_id = Some s
    /\ match _get_validation_context retrieve_context with
       | Raised e => is_error_response response e /\ d' = d
       | Returned manual_context =>
           match chat_completion manual_context (_build_validation_request (stage_data s)) with
           | Raised e => is_error_response response e /\ d' = d
           | Returned validation_text =>
               if truthy validation_text
               then success response = true
                    /\ resp_valid response = valid (_parse_validation_result validation_text)
                    /\ ((resp_valid response = true /\ resp_status response = "PASS")
                        \/ (resp_valid response = false /\ resp_status response = "FAIL"
                            /\ d' = d))
               else is_error_response response "No response received from validation service"
                    /\ d' = d
           end
       end.
Proof.
  intros retrieve chat ud d sid uid d' response H. unfold StagesRoute.validate_stage in H.
  destruct (StageRepository.get_by_id d sid) as [s|]; [|discriminate].
  destruct (authorized d s uid); [|discriminate]. cbn [negb] in H.
  exists s. split; [reflexivity|].
  unfold StageValidatorRules.validate_stage in H.
  destruct (_get_validation_context retrieve) as [manual|e];
    [|injection H as <- <-; repeat split].
  destruct (chat manual (_build_validation_request (stage_data s))) as [reply|e];
    [|injection H as <- <-; repeat split].
  destruct (truthy reply); cbn [negb] in H; [|injection H as <- <-; repeat split].
  destruct (parse_verdict_consistent reply) as [[V S]|[V S]]; rewrite V in H.
  - injection H as _ <-. cbn. rewrite S. auto.
  - injection H as <- <-. cbn. rewrite S. auto 6.
Qed.

(** The sample stage, with a model that answers with the failing reply. *)
Lemma validation_route_answers_pass_fail_or_error_witness :
  exists response,
    snd (StagesRoute.validate_stage MoreSamples.failing_validator Samples.no_diff
           Samples.one_stage_db 10 7) = Ok response
    /\ resp_status response = "FAIL".
Proof.
  destruct (StagesRoute.validate_stage MoreSamples.failing_validator Samples.no_diff
              Samples.one_stage_db 10 7) as [d' r] eqn:E.
  pose proof E as E'. vm_compute in E'. injection E' as _ <-.
  eexists. split; [reflexivity|].
  destruct (validation_route_answers_pass_fail_or_error
              MoreSamples.no_manuals (fun _ _ => Returned fail_with_critical)
              Samples.no_diff Samples.one_stage_db 10 7 d' _ E) as (s & Hs & Hm).
  vm_compute in Hs. injection Hs as <-. vm_compute in Hm.
  destruct Hm as (_ & _ & [(V & _)|(_ & S & _)]).
  - discriminate V.
  - exact S.
Defined.

End ValidationPipeline.
